(** * Benchmark diff and table scripts: a shallow embedding

    The development follows [scripts/bench_diff.py] and
    [scripts/bench_table.py].  Python values that the scripts receive from
    [json.load] are modelled by the inductive type [json]; Python [str] is
    modelled by [string] (one character of the model per character of the
    text, which is exact on the ASCII identifiers, labels and units found in
    JMH result files); Python [dict] is modelled by an association list kept
    in insertion order; Python [float] is modelled by IEEE-754 binary64
    values of [SpecFloat]. *)

From Stdlib Require Import ZArith List String Ascii Bool Lia.
From Stdlib Require Import Permutation Sorted DecimalString SpecFloat.
Import ListNotations.
Local Open Scope string_scope.
Local Open Scope list_scope.

Set Implicit Arguments.
Unset Strict Implicit.

(* ================================================================= *)
(** ** Python's ordering protocol on the key types used by the scripts *)

(** [cmp] is the three-way comparison induced by Python's [<] and [==] on a
    type whose values are totally ordered (strings, tuples of such). *)
Class Ord (A : Type) := cmp : A -> A -> comparison.

(** The laws of a total order, which the string and tuple orders obey. *)
Class OrdLaws (A : Type) {O : Ord A} := {
  cmp_eq : forall x y : A, cmp x y = Eq <-> x = y;
  cmp_antisym : forall x y : A, cmp y x = CompOpp (cmp x y);
  cmp_trans : forall x y z : A, cmp x y = Lt -> cmp y z = Lt -> cmp x z = Lt
}.
Arguments OrdLaws A {O}.

Module PyOrd.

(** Tuples are compared position by position: the first differing
    position decides. *)
Definition pair_cmp {A B} (ca : A -> A -> comparison)
           (cb : B -> B -> comparison) (x y : A * B) : comparison :=
  match ca (fst x) (fst y) with
  | Eq => cb (snd x) (snd y)
  | c => c
  end.

(** Sequences are compared lexicographically; a proper prefix is smaller. *)
Fixpoint list_cmp {A} (ca : A -> A -> comparison) (l1 l2 : list A)
  : comparison :=
  match l1, l2 with
  | [], [] => Eq
  | [], _ :: _ => Lt
  | _ :: _, [] => Gt
  | x :: l1', y :: l2' =>
      match ca x y with
      | Eq => list_cmp ca l1' l2'
      | c => c
      end
  end.

Definition ltb {A} `{Ord A} (x y : A) : bool :=
  match cmp x y with Lt => true | _ => false end.

Section Sorted.
Context {A K : Type} `{Ord K} (key : A -> K).

(** [insert_by x l] puts [x] in front of the first element whose key is
    not strictly smaller, so that an element keeps its place before
    later elements with an equal key. *)
Fixpoint insert_by (x : A) (l : list A) : list A :=
  match l with
  | [] => [x]
  | y :: l' =>
      if ltb (key y) (key x) then y :: insert_by x l' else x :: l
  end.

(** [sorted(l, key=key)]: Python's sort is stable, and every stable
    sort returns the same list; this one is insertion sort. *)
Definition sorted (l : list A) : list A := fold_right insert_by [] l.

(** [ascending l]: keys never decrease from left to right. *)
Definition ascending (l : list A) : Prop :=
  StronglySorted (fun x y => cmp (key x) (key y) <> Gt) l.

(** [strictly_ascending l]: keys increase from left to right. *)
Definition strictly_ascending (l : list A) : Prop :=
  StronglySorted (fun x y => cmp (key x) (key y) = Lt) l.
End Sorted.

End PyOrd.

(* ================================================================= *)
(** ** Strings *)

Module PyStr.

Definition nl : string := String (ascii_of_nat 10) EmptyString.

(** An f-string is the concatenation of its pieces. *)
Definition fstr (parts : list string) : string := String.concat "" parts.

(** [sep.join(parts)] *)
Definition join (sep : string) (parts : list string) : string :=
  String.concat sep parts.

(** [c * n] for a one-character string [c] *)
Fixpoint replicate (n : nat) (c : ascii) : string :=
  match n with
  | O => EmptyString
  | S n' => String c (replicate n' c)
  end.

(** [s.ljust(w)] and [s.rjust(w)]: pad with spaces up to width [w]. *)
Definition ljust (s : string) (w : nat) : string :=
  String.append s (replicate (w - String.length s) " "%char).

Definition rjust (s : string) (w : nat) : string :=
  String.append (replicate (w - String.length s) " "%char) s.

(** [sub in s] *)
Fixpoint contains (sub s : string) : bool :=
  String.prefix sub s
  || match s with
     | EmptyString => false
     | String _ s' => contains sub s'
     end.

(** Whitespace as [str.rstrip()] sees it, in the ASCII range. *)
Definition is_space (c : ascii) : bool :=
  let n := nat_of_ascii c in
  ((9 <=? n) && (n <=? 13) || (28 <=? n) && (n <=? 32))%nat.

(** [s.rstrip()] *)
Fixpoint rstrip (s : string) : string :=
  match s with
  | EmptyString => EmptyString
  | String c s' =>
      match rstrip s' with
      | EmptyString => if is_space c then EmptyString
                       else String c EmptyString
      | r => String c r
      end
  end.

(** [str(n)] for an integer *)
Definition of_Z (z : Z) : string := NilZero.string_of_int (Z.to_int z).

Definition of_nat (n : nat) : string := of_Z (Z.of_nat n).

(** [if s:] on a string *)
Definition truthy (s : string) : bool :=
  match s with EmptyString => false | _ => true end.

End PyStr.

(* ================================================================= *)
(** ** Floats and their text forms *)

Module PyFloat.

Definition prec : Z := 53.
Definition emax : Z := 1024.

(** A Python [float]: an IEEE-754 binary64 value (sign, mantissa and
    exponent in canonical form, as [valid_binary prec emax] checks). *)
Definition float : Type := spec_float.

Definition zero : float := S754_zero false.
Definition nan : float := S754_nan.
Definition inf : float := S754_infinity false.

(** [float(z)] for an integer that fits; the nearest float otherwise. *)
Definition of_Z (z : Z) : float := binary_normalize prec emax z 0 false.

(** The float written [n/d] in decimal, for [n] and [d] below [2^53]. *)
Definition of_ratio (n d : Z) : float := SFdiv prec emax (of_Z n) (of_Z d).

Definition sub (x y : float) : float := SFsub prec emax x y.
Definition mul (x y : float) : float := SFmul prec emax x y.
Definition div (x y : float) : float := SFdiv prec emax x y.
Definition abs (x : float) : float := SFabs x.
Definition eqb (x y : float) : bool := SFeqb x y.
Definition leb (x y : float) : bool := SFleb x y.

(** [math.isnan] *)
Definition isnan (x : float) : bool :=
  match x with S754_nan => true | _ => false end.

Definition is_finite (x : float) : bool :=
  match x with S754_zero _ | S754_finite _ _ _ => true | _ => false end.

Definition is_inf (x : float) : bool :=
  match x with S754_infinity _ => true | _ => false end.

(** *** Decimal digits *)

Definition digit_char (d : Z) : ascii := ascii_of_nat (48 + Z.to_nat d).

Definition is_digit (c : ascii) : bool :=
  let n := nat_of_ascii c in ((48 <=? n) && (n <=? 57))%nat.

Fixpoint all_digits (s : string) : bool :=
  match s with
  | EmptyString => true
  | String c s' => is_digit c && all_digits s'
  end.

(** The [p] least significant decimal digits of [q], in front of [acc]. *)
Fixpoint low_digits (p : nat) (q : Z) (acc : string) : string :=
  match p with
  | O => acc
  | S p' => low_digits p' (q / 10) (String (digit_char (q mod 10)) acc)
  end.

Fixpoint digits_aux (fuel : nat) (q : Z) (acc : string) : string :=
  match fuel with
  | O => acc
  | S fuel' =>
      let acc' := String (digit_char (q mod 10)) acc in
      if (q / 10 =? 0)%Z then acc' else digits_aux fuel' (q / 10) acc'
  end.

(** The decimal digits of [q >= 0], without leading zeros. *)
Definition digits (q : Z) : string :=
  digits_aux (S (Z.to_nat (Z.log2 q))) q EmptyString.

Definition zfill (w : nat) (s : string) : string :=
  String.append (PyStr.replicate (w - String.length s) "0"%char) s.

(** The quotient [n/d] of non-negative integers rounded to the nearest
    integer, ties to the even one: the rounding of correctly rounded
    float-to-decimal conversion. *)
Definition round_half_even (n d : Z) : Z :=
  let q := (n / d)%Z in
  match (2 * (n mod d) ?= d)%Z with
  | Lt => q
  | Gt => (q + 1)%Z
  | Eq => if Z.even q then q else (q + 1)%Z
  end.

(** The exact magnitude [m * 2^e] as a fraction. *)
Definition magnitude (m : positive) (e : Z) : Z * Z :=
  match e with
  | Zneg p => (Zpos m, 2 ^ Zpos p)%Z
  | _ => (Zpos m * 2 ^ e, 1)%Z
  end.

Definition sign_str (plus neg : bool) : string :=
  if neg then "-" else if plus then "+" else "".

(** *** Fixed-point presentation, [format(x, ".pf")] and [format(x, "+.pf")] *)

Definition fixed_body (p : nat) (n d : Z) : string :=
  let q := round_half_even (n * 10 ^ Z.of_nat p) d in
  let ip := digits (q / 10 ^ Z.of_nat p) in
  let fp := low_digits p (q mod 10 ^ Z.of_nat p) EmptyString in
  match p with
  | O => ip
  | _ => String.append ip (String "."%char fp)
  end.

Definition format_f (plus : bool) (p : nat) (x : float) : string :=
  match x with
  | S754_nan => String.append (sign_str plus false) "nan"
  | S754_infinity s => String.append (sign_str plus s) "inf"
  | S754_zero s => String.append (sign_str plus s) (fixed_body p 0 1)
  | S754_finite s m e =>
      let '(n, d) := magnitude m e in
      String.append (sign_str plus s) (fixed_body p n d)
  end.

(** *** General presentation, [format(x, "+.Pg")] *)

(** For [d <= n]: the largest [k] with [d * 10^k <= n], searched upwards. *)
Fixpoint exponent_up (fuel : nat) (n d k : Z) : Z :=
  match fuel with
  | O => k
  | S fuel' =>
      if (n <? d * 10 ^ (k + 1))%Z then k
      else exponent_up fuel' n d (k + 1)%Z
  end.

(** For [n < d]: minus the smallest [k >= 1] with [d <= n * 10^k]. *)
Fixpoint exponent_down (fuel : nat) (n d k : Z) : Z :=
  match fuel with
  | O => (- k)%Z
  | S fuel' =>
      if (d <=? n * 10 ^ k)%Z then (- k)%Z
      else exponent_down fuel' n d (k + 1)%Z
  end.

(** The decimal exponent of [n/d > 0]: [10^x <= n/d < 10^(x+1)]. *)
Definition exponent10 (n d : Z) : Z :=
  let fuel := S (Z.to_nat (Z.log2 n + Z.log2 d)) in
  if (d <=? n)%Z then exponent_up fuel n d 0 else exponent_down fuel n d 1.

(** [n/d] rounded to [P] significant digits: the digits and the decimal
    exponent of the first one. *)
Definition significant (P : nat) (n d : Z) : string * Z :=
  let x := exponent10 n d in
  let sh := (x - (Z.of_nat P - 1))%Z in
  let q := if (0 <=? sh)%Z then round_half_even n (d * 10 ^ sh)
           else round_half_even (n * 10 ^ (- sh)) d in
  if (10 ^ Z.of_nat P <=? q)%Z
  then (low_digits P (q / 10) EmptyString, (x + 1)%Z)
  else (low_digits P q EmptyString, x).

(** Remove trailing zeros. *)
Fixpoint strip_zeros (s : string) : string :=
  match s with
  | EmptyString => EmptyString
  | String c s' =>
      match strip_zeros s' with
      | EmptyString => if Ascii.eqb c "0" then EmptyString
                       else String c EmptyString
      | r => String c r
      end
  end.

Definition with_point (ip fp : string) : string :=
  match fp with
  | EmptyString => ip
  | _ => String.append ip (String "."%char fp)
  end.

Definition general_body (P : nat) (n d : Z) : string :=
  let '(ds0, x) := significant P n d in
  let ds := strip_zeros ds0 in
  if ((-4 <=? x) && (x <? Z.of_nat P))%Z then
    if (0 <=? x)%Z then
      let k := S (Z.to_nat x) in
      let ip := String.substring 0 k
                  (String.append ds (PyStr.replicate k "0"%char)) in
      with_point ip (String.substring k (String.length ds - k) ds)
    else
      String.append "0."
        (String.append (PyStr.replicate (Z.to_nat (- x - 1)) "0"%char) ds)
  else
    let mant := with_point (String.substring 0 1 ds)
                  (String.substring 1 (String.length ds - 1) ds) in
    String.append mant
      (String.append "e"
         (String.append (if (x <? 0)%Z then "-" else "+")
            (zfill 2 (digits (Z.abs x))))).

Definition format_g (plus : bool) (P : nat) (x : float) : string :=
  match x with
  | S754_nan => String.append (sign_str plus false) "nan"
  | S754_infinity s => String.append (sign_str plus s) "inf"
  | S754_zero s => String.append (sign_str plus s) "0"
  | S754_finite s m e =>
      let '(n, d) := magnitude m e in
      String.append (sign_str plus s) (general_body P n d)
  end.

(** *** Shapes of the text forms *)

(** [starts_with_sign s]: the text opens with an explicit [+] or [-]. *)
Definition starts_with_sign (s : string) : bool :=
  match s with
  | String c _ => Ascii.eqb c "+" || Ascii.eqb c "-"
  | EmptyString => false
  end.

(** Digits, at least one unless [seen], then a point, then exactly [p]
    digits. *)
Fixpoint digits_point_digits (p : nat) (seen : bool) (s : string) : bool :=
  match s with
  | EmptyString => false
  | String c s' =>
      if is_digit c then digits_point_digits p true s'
      else if Ascii.eqb c "." then
             seen && all_digits s' && (String.length s' =? p)%nat
           else false
  end.

(** [has_decimals p s]: [s] is a decimal numeral with exactly [p] digits
    after the point, with or without a sign in front. *)
Definition has_decimals (p : nat) (s : string) : bool :=
  match s with
  | String c s' =>
      if Ascii.eqb c "+" || Ascii.eqb c "-"
      then digits_point_digits p false s'
      else digits_point_digits p false s
  | EmptyString => false
  end.

End PyFloat.

(* ================================================================= *)
(** ** Dictionaries *)

(** Decidable equality of keys: Python's [==] together with [hash]. *)
Class EqDec (A : Type) := eq_dec : forall x y : A, {x = y} + {x <> y}.

#[export] Instance string_EqDec : EqDec string := string_dec.

#[export] Instance pair_EqDec {A B} `{EqDec A} `{EqDec B} : EqDec (A * B).
Proof.
  intros [a b] [a' b'].
  destruct (eq_dec a a') as [->|Ha]; [|right; congruence].
  destruct (eq_dec b b') as [->|Hb]; [left; reflexivity|right; congruence].
Defined.

#[export] Instance list_EqDec {A} `{EqDec A} : EqDec (list A) :=
  list_eq_dec eq_dec.

Module PyDict.

(** A [dict]: the items in insertion order, every key at most once. *)
Definition dict (K V : Type) : Type := list (K * V).

Section Ops.
Context {K V : Type} `{EqDec K}.

(** [d.get(k)] *)
Fixpoint get (d : dict K V) (k : K) : option V :=
  match d with
  | [] => None
  | (k', v) :: d' => if eq_dec k k' then Some v else get d' k
  end.

(** [k in d] *)
Definition mem (d : dict K V) (k : K) : bool :=
  match get d k with Some _ => true | None => false end.

(** [d[k] = v]: a key already present keeps its position. *)
Fixpoint set (d : dict K V) (k : K) (v : V) : dict K V :=
  match d with
  | [] => [(k, v)]
  | (k', v') :: d' =>
      if eq_dec k k' then (k', v) :: d' else (k', v') :: set d' k v
  end.

(** [d.pop(k, None)], for the dictionary that remains *)
Fixpoint pop (d : dict K V) (k : K) : dict K V :=
  match d with
  | [] => []
  | (k', v') :: d' => if eq_dec k k' then d' else (k', v') :: pop d' k
  end.

(** [d.keys()] and [d.items()] in iteration order *)
Definition keys (d : dict K V) : list K := map fst d.
Definition items (d : dict K V) : list (K * V) := d.

(** The invariant of a [dict]. *)
Definition wf (d : dict K V) : Prop := NoDup (keys d).
End Ops.

End PyDict.

(* ================================================================= *)
(** ** JSON values as [json.load] returns them *)

#[local] Unset Elimination Schemes.
Inductive json : Type :=
| JNull : json                              (* None *)
| JBool : bool -> json                      (* True, False *)
| JInt : Z -> json                          (* int *)
| JFloat : PyFloat.float -> json            (* float, with NaN and Infinity *)
| JStr : string -> json                     (* str *)
| JArr : list json -> json                  (* list *)
| JObj : list (string * json) -> json.      (* dict with str keys *)
#[local] Set Elimination Schemes.

(** A row of the table script: the dict with the keys ["full"], ["Impl"],
    ["Mean"], ["p50"], ["p99"], ["p99.9"] and ["Unit"]. *)
Record row : Type := {
  full : json;
  Impl : json;
  Mean : json;
  p50 : json;
  p99 : json;
  p999 : json;
  Unit : json
}.

(** What the scripts take from the interpreter and this development leaves
    open: the text of a float, the text of a list or dict, the float read
    from a string, and, in the table script, the sort of two or more rows
    whose keys are not all strings together with [==] on such keys.
    The scripts are verified for every behaviour of these. *)
Record builtins : Type := {
  repr_float : PyFloat.float -> string;
  repr_container : json -> string;
  float_of_str : string -> option PyFloat.float;
  sort_mixed : list row -> option (list row);
  eq_mixed : json -> json -> bool
}.

Module Py.

(** [str(v)] *)
Definition str (B : builtins) (v : json) : string :=
  match v with
  | JNull => "None"
  | JBool true => "True"
  | JBool false => "False"
  | JInt z => PyStr.of_Z z
  | JFloat f => repr_float B f
  | JStr s => s
  | JArr _ | JObj _ => repr_container B v
  end.

(** [float(v)] inside [try ... except Exception]: [None] when it raises
    ([TypeError] on [None], a list or a dict, [ValueError] on a string
    that is not a number, [OverflowError] on an integer out of range). *)
Definition float (B : builtins) (v : json) : option PyFloat.float :=
  match v with
  | JNull => None
  | JBool b => Some (PyFloat.of_Z (if b then 1 else 0))
  | JInt z =>
      let f := PyFloat.of_Z z in
      if PyFloat.is_inf f then None else Some f
  | JFloat f => Some f
  | JStr s => float_of_str B s
  | JArr _ | JObj _ => None
  end.

(** Truth value of [v] in [if v:] and [v or w] *)
Definition truthy (v : json) : bool :=
  match v with
  | JNull => false
  | JBool b => b
  | JInt z => negb (z =? 0)%Z
  | JFloat f => negb (PyFloat.eqb f PyFloat.zero)
  | JStr s => PyStr.truthy s
  | JArr l => match l with [] => false | _ => true end
  | JObj d => match d with [] => false | _ => true end
  end.

(** [d.get(k, default)] and [d.get(k)] on a dict with string keys;
    Python's [None] is [JNull]. *)
Definition get_default (d : PyDict.dict string json) (k : string)
           (default : json) : json :=
  match PyDict.get d k with Some v => v | None => default end.

Definition get_none (d : PyDict.dict string json) (k : string) : json :=
  get_default d k JNull.

End Py.

(** The orders of the sort keys: strings by character code, tuples
    lexicographically. *)
#[export] Instance string_Ord : Ord string := String.compare.
#[export] Instance pair_Ord {A B} `{Ord A} `{Ord B} : Ord (A * B) :=
  PyOrd.pair_cmp cmp cmp.
#[export] Instance list_Ord {A} `{Ord A} : Ord (list A) :=
  PyOrd.list_cmp cmp.

(* ================================================================= *)
(** ** scripts/bench_diff.py *)

Module BenchDiff.

Import PyStr.

Record EntryKey : Type := {
  benchmark : string;
  params : list (string * string)
}.

#[global] Instance EntryKey_EqDec : EqDec EntryKey.
Proof.
  intros [b p] [b' p'].
  destruct (eq_dec b b') as [->|Hb]; [|right; congruence].
  destruct (eq_dec p p') as [->|Hp]; [left; reflexivity|right; congruence].
Defined.

(** [EntryKey.pretty] *)
Definition pretty (k : EntryKey) : string :=
  match params k with
  | [] => benchmark k
  | ps =>
      let params_str :=
        join ", " (map (fun kv => fstr [fst kv; "="; snd kv]) ps) in
      fstr [benchmark k; " ("; params_str; ")"]
  end.

(** What [compare] gives back to [main]: the value it returns with the
    lines it printed, or the [SystemExit] it raised with a message. *)
Inductive outcome : Type :=
| Return (code : Z) (stdout : list string)
| SystemExit (message : string).

(** The exit status of the process: [raise SystemExit(main())]; a
    [SystemExit] carrying a message prints it and exits with 1. *)
Definition exit_code (o : outcome) : Z :=
  match o with
  | Return code _ => code
  | SystemExit _ => 1%Z
  end.

(** The capital delta of the report, U+0394 in UTF-8. *)
Definition Delta : string :=
  String (ascii_of_nat 206) (String (ascii_of_nat 148) EmptyString).

Section WithBuiltins.
Variable B : builtins.

Definition _as_str_map (obj : json) : PyDict.dict string string :=
  match obj with
  | JObj d =>
      fold_left
        (fun out kv =>
           PyDict.set out (Py.str B (JStr (fst kv))) (Py.str B (snd kv)))
        d []
  | _ => []
  end.

Definition _key_for_entry (entry : PyDict.dict string json)
           (ignore_params : list string) : EntryKey :=
  let benchmark := Py.str B (Py.get_default entry "benchmark" (JStr "")) in
  let params := _as_str_map (Py.get_default entry "params" (JObj [])) in
  let params := fold_left (fun ps p => PyDict.pop ps p) ignore_params params in
  let params_t := PyOrd.sorted fst (PyDict.items params) in
  {| benchmark := benchmark; params := params_t |}.

Definition _get_metric (entry : PyDict.dict string json)
  : PyDict.dict string json :=
  match Py.get_none entry "primaryMetric" with
  | JObj metric => metric
  | _ => []
  end.

Definition _get_score (metric : PyDict.dict string json)
  : option PyFloat.float :=
  match Py.get_none metric "score" with
  | JNull => None
  | v => Py.float B v
  end.

Definition _get_unit (metric : PyDict.dict string json) : string :=
  match Py.get_none metric "scoreUnit" with
  | JNull => ""
  | unit => Py.str B unit
  end.

Definition _get_percentile (metric : PyDict.dict string json) (p : string)
  : option PyFloat.float :=
  match Py.get_none metric "scorePercentiles" with
  | JObj percentiles =>
      match Py.get_none percentiles p with
      | JNull => None
      | v => Py.float B v
      end
  | _ => None
  end.

Definition _fmt_delta (current baseline : PyFloat.float) : string :=
  let delta := PyFloat.sub current baseline in
  if PyFloat.eqb baseline PyFloat.zero then PyFloat.format_g true 6 delta
  else
    let pct := PyFloat.mul (PyFloat.div delta baseline) (PyFloat.of_Z 100) in
    fstr [PyFloat.format_g true 6 delta; " (";
          PyFloat.format_f true 2 pct; "%)"].

Definition _fmt (v : option PyFloat.float) : string :=
  match v with
  | None => "n/a"
  | Some x =>
      if PyFloat.isnan x then "n/a"
      else if PyFloat.leb (PyFloat.of_Z 100) (PyFloat.abs x)
           then PyFloat.format_f false 3 x
           else PyFloat.format_f false 6 x
  end.

Definition _index (entries : list json) (ignore_params : list string)
  : PyDict.dict EntryKey (PyDict.dict string json) :=
  fold_left
    (fun out e =>
       match e with
       | JObj d =>
           let k := _key_for_entry d ignore_params in
           if truthy (benchmark k) then PyDict.set out k d else out
       | _ => out
       end)
    entries [].

(** The index in the words of the specification: a key is mapped to
    the last entry of the input that is a dict, has a non-empty
    benchmark name and canonicalizes to that key. *)
Fixpoint last_write (entries : list json) (ignore_params : list string)
         (k : EntryKey) : option (PyDict.dict string json) :=
  match entries with
  | [] => None
  | e :: later =>
      match last_write later ignore_params k with
      | Some d => Some d
      | None =>
          match e with
          | JObj d =>
              if truthy (benchmark (_key_for_entry d ignore_params))
              then if eq_dec k (_key_for_entry d ignore_params)
                   then Some d else None
              else None
          | _ => None
          end
      end
  end.

Definition _matches_benchmark (key : EntryKey) (substring : option string)
  : bool :=
  match substring with
  | None => true
  | Some sub => if truthy sub then contains sub (benchmark key) else true
  end.

(** The sort key [lambda k: (k.benchmark, k.params)] *)
Definition sort_key (k : EntryKey) : string * list (string * string) :=
  (benchmark k, params k).

Definition index : Type := PyDict.dict EntryKey (PyDict.dict string json).

(** The three key lists of [compare] (lines 126 to 138). *)
Definition matched (current_idx baseline_idx : index)
           (benchmark_contains : option string) : list EntryKey :=
  PyOrd.sorted sort_key
    (filter (fun k => PyDict.mem baseline_idx k
                      && _matches_benchmark k benchmark_contains)
            (PyDict.keys current_idx)).

Definition missing_in_baseline (current_idx baseline_idx : index)
           (benchmark_contains : option string) : list EntryKey :=
  PyOrd.sorted sort_key
    (filter (fun k => negb (PyDict.mem baseline_idx k)
                      && _matches_benchmark k benchmark_contains)
            (PyDict.keys current_idx)).

Definition missing_in_current (current_idx baseline_idx : index)
           (benchmark_contains : option string) : list EntryKey :=
  PyOrd.sorted sort_key
    (filter (fun k => negb (PyDict.mem current_idx k)
                      && _matches_benchmark k benchmark_contains)
            (PyDict.keys baseline_idx)).

(** One metric line:
    [f"{label}{_fmt(b)} -> {_fmt(c)} {unit}   {Delta} {_fmt_delta(c, b)}"],
    where [label] is the opening of the line up to the first value. *)
Definition metric_line (label unit : string) (c b : PyFloat.float)
  : string :=
  fstr [label; _fmt (Some b); " -> "; _fmt (Some c); " "; unit; "   ";
        Delta; " "; _fmt_delta c b].

(** A percentile line is printed when both sides have the value. *)
Definition percentile_lines (label unit : string)
           (c b : option PyFloat.float) : list string :=
  match b, c with
  | Some pb, Some pc => [metric_line label unit pc pb]
  | _, _ => []
  end.

Definition mean_line (unit : string) (c b : option PyFloat.float)
  : string :=
  match c, b with
  | Some c_score, Some b_score => metric_line "  mean:   " unit c_score b_score
  | _, _ => "  mean:   n/a"
  end.

(** [_get_unit(c_metric) or _get_unit(b_metric)] *)
Definition unit_of (c_metric b_metric : PyDict.dict string json) : string :=
  if truthy (_get_unit c_metric) then _get_unit c_metric
  else _get_unit b_metric.

(** The body of the loop over the matched keys (lines 158 to 187). *)
Definition report_key (k : EntryKey)
           (c_entry b_entry : PyDict.dict string json) : list string :=
  let c_metric := _get_metric c_entry in
  let b_metric := _get_metric b_entry in
  let c_score := _get_score c_metric in
  let b_score := _get_score b_metric in
  let unit := unit_of c_metric b_metric in
  let p50_c := _get_percentile c_metric "50.0" in
  let p50_b := _get_percentile b_metric "50.0" in
  let p99_c := _get_percentile c_metric "99.0" in
  let p99_b := _get_percentile b_metric "99.0" in
  let p999_c := _get_percentile c_metric "99.9" in
  let p999_b := _get_percentile b_metric "99.9" in
  [pretty k; mean_line unit c_score b_score]
    ++ percentile_lines "  p50:    " unit p50_c p50_b
    ++ percentile_lines "  p99:    " unit p99_c p99_b
    ++ percentile_lines "  p99.9:  " unit p999_c p999_b
    ++ [""].

(** [current_idx[k]]; the keys of the loop are keys of both indices. *)
Definition entry_of (idx : index) (k : EntryKey) : PyDict.dict string json :=
  match PyDict.get idx k with Some e => e | None => [] end.

Definition header (current_path baseline_path : string)
           (benchmark_contains : option string)
           (ignore_params : list string) : list string :=
  [fstr ["Current:  "; current_path]; fstr ["Baseline: "; baseline_path]]
    ++ match benchmark_contains with
       | Some sub =>
           if truthy sub
           then [fstr ["Filter: benchmark contains '"; sub; "'"]]
           else []
       | None => []
       end
    ++ match ignore_params with
       | [] => []
       | _ => [fstr ["Ignoring params: "; join ", " ignore_params]]
       end
    ++ [""].

(** [if keys: print(f"{text}{len(keys)}")] *)
Definition count_line (text : string) (keys : list EntryKey)
  : list string :=
  match keys with
  | [] => []
  | _ => [fstr [text; of_nat (List.length keys)]]
  end.

(** [compare], from the two values that [_load_json] returned. *)
Definition compare (current_path baseline_path : string)
           (current baseline : json)
           (benchmark_contains : option string)
           (ignore_params : list string) : outcome :=
  match current, baseline with
  | JArr current, JArr baseline =>
      let current_idx := _index current ignore_params in
      let baseline_idx := _index baseline ignore_params in
      let keys := matched current_idx baseline_idx benchmark_contains in
      let missing_b :=
        missing_in_baseline current_idx baseline_idx benchmark_contains in
      let missing_c :=
        missing_in_current current_idx baseline_idx benchmark_contains in
      let head :=
        header current_path baseline_path benchmark_contains
               ignore_params in
      match keys with
      | [] =>
          Return 1
            (head
               ++ ["No matching benchmark+params entries found between current and baseline."]
               ++ count_line "Current-only entries: " missing_b
               ++ count_line "Baseline-only entries: " missing_c)
      | _ =>
          Return 0
            (head
               ++ flat_map
                    (fun k => report_key k (entry_of current_idx k)
                                         (entry_of baseline_idx k))
                    keys
               ++ count_line "Current-only entries (no baseline match): "
                             missing_b
               ++ count_line "Baseline-only entries (not in current): "
                             missing_c)
      end
  | _, _ => SystemExit "Both files must be JMH JSON arrays"
  end.

End WithBuiltins.

End BenchDiff.

(* ================================================================= *)
(** ** scripts/bench_table.py *)

Module BenchTable.

Import PyStr.

(** The exceptions that can leave [main] uncaught.  [JSONDecodeError]
    stands for whatever kept [json.loads] from returning a value: the
    model does not tell a text that is not JSON from a file that cannot
    be read or from a text that [json.loads] refuses for another reason
    (an integer of too many digits, nesting that is too deep). *)
Inductive exn : Type :=
| JSONDecodeError
| AttributeError
| TypeError
| ValueError.

(** A run of the script: it finishes having printed a text (exit status
    0), or an exception leaves it (a traceback and exit status 1). *)
Inductive result (A : Type) : Type :=
| Ok (a : A)
| Raise (e : exn).
Arguments Ok {A} a.
Arguments Raise {A} e.

Definition bind {A C} (r : result A) (f : A -> result C) : result C :=
  match r with
  | Ok a => f a
  | Raise e => Raise e
  end.

Notation "x <- r ;; k" := (bind r (fun x => k))
  (at level 61, r at next level, right associativity).

Fixpoint mapM {A C} (f : A -> result C) (l : list A) : result (list C) :=
  match l with
  | [] => Ok []
  | a :: l' => c <- f a ;; cs <- mapM f l' ;; Ok (c :: cs)
  end.

Definition exit_code {A} (r : result A) : Z :=
  match r with
  | Ok _ => 0%Z
  | Raise _ => 1%Z
  end.

Definition cols : list string := ["Impl"; "Mean"; "p50"; "p99"; "p99.9"; "Unit"].

Definition num_cols (c : string) : bool :=
  existsb (String.eqb c) ["Mean"; "p50"; "p99"; "p99.9"].

(** [row.get(col)] for a column of [cols] *)
Definition row_get (col : string) (r : row) : json :=
  if String.eqb col "Impl" then Impl r
  else if String.eqb col "Mean" then Mean r
  else if String.eqb col "p50" then p50 r
  else if String.eqb col "p99" then p99 r
  else if String.eqb col "p99.9" then p999 r
  else if String.eqb col "Unit" then Unit r
  else if String.eqb col "full" then full r
  else JNull.

(** [x.get]: only a dict has the attribute. *)
Definition the_dict (v : json) : result (PyDict.dict string json) :=
  match v with
  | JObj d => Ok d
  | _ => Raise AttributeError
  end.

(** [v or {}] *)
Definition or_empty (v : json) : json :=
  if Py.truthy v then v else JObj [].

(** [for entry in data]: the items of a list, the keys of a dict, the
    characters of a string; nothing else can be iterated. *)
Definition iterate (data : json) : result (list json) :=
  match data with
  | JArr l => Ok l
  | JObj d => Ok (map (fun kv => JStr (fst kv)) d)
  | JStr s => Ok (map (fun c => JStr (String c EmptyString))
                      (list_ascii_of_string s))
  | _ => Raise TypeError
  end.

(** The sort key [lambda r: (r["full"], r["Impl"])] when both are strings *)
Definition str_key (r : row) : option (string * string) :=
  match full r, Impl r with
  | JStr f, JStr i => Some (f, i)
  | _, _ => None
  end.

Definition sort_key (r : row) : string * string :=
  match str_key r with
  | Some k => k
  | None => ("", "")
  end.

(** [itertools.groupby(rows, key)]: maximal runs of consecutive rows
    with equal keys, each with the key of its first row. *)
Fixpoint groupby (eqb : json -> json -> bool) (rows : list row)
  : list (json * list row) :=
  match rows with
  | [] => []
  | r :: rows' =>
      match groupby eqb rows' with
      | (k, g) :: gs =>
          if eqb (full r) k then (full r, r :: g) :: gs
          else (full r, [r]) :: (k, g) :: gs
      | [] => [(full r, [r])]
      end
  end.

Section WithBuiltins.
Variable B : builtins.

Definition _fmt_num (value : json) : string :=
  match value with
  | JNull => ""
  | _ =>
      match Py.float B value with
      | Some f => PyFloat.format_f false 3 f
      | None => Py.str B value
      end
  end.

(** The inner function [cell] of [_render_group] *)
Definition cell (col : string) (r : row) : string :=
  let v := row_get col r in
  if num_cols col then _fmt_num v
  else Py.str B (if Py.truthy v then v else JStr "").

Definition width (group : list row) (c : string) : nat :=
  Nat.max (String.length c)
          (fold_right Nat.max 0 (map (fun r => String.length (cell c r)) group)).

Definition _render_group (full_benchmark : json) (group : list row)
  : result string :=
  match group with
  | [] => Raise ValueError            (* max() of an empty sequence *)
  | _ =>
      let line_of (r : row) :=
        fstr ["  ";
              join "  "
                (map (fun c =>
                        let s := cell c r in
                        if num_cols c then rjust s (width group c)
                        else ljust s (width group c))
                     cols)] in
      let lines :=
        [fstr ["  "; join "  " (map (fun c => ljust c (width group c)) cols)];
         fstr ["  ";
               join "  " (map (fun c => replicate (width group c) "-"%char)
                              cols)]]
          ++ map line_of group in
      match full_benchmark with
      | JStr title => Ok (join nl (title :: lines))
      | _ => Raise TypeError          (* join of a non-string item *)
      end
  end.

(** The body of the loop that builds the rows (lines 68 to 86). *)
Definition row_of_entry (entry : json) : result row :=
  entry <- the_dict entry ;;
  let bench := Py.get_default entry "benchmark" (JStr "") in
  params <- the_dict (or_empty (Py.get_none entry "params")) ;;
  let impl := Py.get_default params "implementation" (JStr "") in
  metric <- the_dict (or_empty (Py.get_none entry "primaryMetric")) ;;
  pct <- the_dict (or_empty (Py.get_none metric "scorePercentiles")) ;;
  Ok {| full := bench;
        Impl := impl;
        Mean := Py.get_none metric "score";
        p50 := Py.get_none pct "50.0";
        p99 := Py.get_none pct "99.0";
        p999 := Py.get_none pct "99.9";
        Unit := Py.get_default metric "scoreUnit" (JStr "") |}.

(** An entry that [main] takes without raising: an object whose
    benchmark name and implementation label are strings when present and
    whose [params], [primaryMetric] and [scorePercentiles] are objects
    when they are not absent, null or otherwise false. *)
Definition is_str (v : json) : bool :=
  match v with JStr _ => true | _ => false end.

Definition dict_or_false (v : json) : bool :=
  match v with JObj _ => true | _ => negb (Py.truthy v) end.

Definition sub_dict (d : PyDict.dict string json) (k : string)
  : PyDict.dict string json :=
  match or_empty (Py.get_none d k) with JObj d' => d' | _ => [] end.

Definition entry_ok (entry : json) : bool :=
  match entry with
  | JObj d =>
      is_str (Py.get_default d "benchmark" (JStr ""))
      && dict_or_false (Py.get_none d "params")
      && is_str (Py.get_default (sub_dict d "params") "implementation"
                                (JStr ""))
      && dict_or_false (Py.get_none d "primaryMetric")
      && dict_or_false (Py.get_none (sub_dict d "primaryMetric")
                                    "scorePercentiles")
  | _ => false
  end.

Definition entry_is_dict (entry : json) : bool :=
  match entry with JObj _ => true | _ => false end.

Definition has_str_key (r : row) : bool :=
  match str_key r with Some _ => true | None => false end.

(** The name of a group and the label of a row, for rows with string
    keys. *)
Definition group_name (g : json * list row) : string :=
  match fst g with JStr s => s | _ => "" end.

Definition impl_label (r : row) : string := snd (sort_key r).

(** [rows.sort(key=lambda r: (r["full"], r["Impl"]))]: no comparison
    on fewer than two rows, the order of string pairs when all keys
    are strings, the interpreter's answer otherwise. *)
Definition sort_rows (rows : list row) : result (list row) :=
  match rows with
  | [] | [_] => Ok rows
  | _ =>
      if forallb has_str_key rows
      then Ok (PyOrd.sorted sort_key rows)
      else match sort_mixed B rows with
           | Some rows' => Ok rows'
           | None => Raise TypeError
           end
  end.

(** [==] on group keys *)
Definition key_eqb (a b : json) : bool :=
  match a, b with
  | JStr s, JStr t => String.eqb s t
  | JStr _, _ | _, JStr _ => false
  | _, _ => eq_mixed B a b
  end.

(** [main], from the value that [json.loads] returned ([None] when no
    value was returned: the file could not be read, or [json.loads]
    raised), to the text handed to [print]. *)
Definition main (loaded : option json) : result string :=
  match loaded with
  | None => Raise JSONDecodeError
  | Some data =>
      entries <- iterate data ;;
      rows <- mapM row_of_entry entries ;;
      rows <- sort_rows rows ;;
      out <- mapM (fun fg => _render_group (fst fg) (snd fg))
                  (groupby key_eqb rows) ;;
      Ok (rstrip (join nl (flat_map (fun s => [s; ""]) out)))
  end.

End WithBuiltins.

End BenchTable.

(* ================================================================= *)
(** ** Sample data *)

Module Sample.

(** An interpreter whose answers the sample data never asks for. *)
Definition B0 : builtins :=
  {| repr_float := fun _ => "";
     repr_container := fun _ => "";
     float_of_str := fun _ => None;
     sort_mixed := fun _ => None;
     eq_mixed := fun _ _ => false |}.

Definition num (n : Z) : json := JFloat (PyFloat.of_Z n).

(** A complete entry named ["Get"] with the given score and median. *)
Definition get_entry (score median : Z) : json :=
  JObj [("benchmark", JStr "Get");
        ("params", JObj []);
        ("primaryMetric",
         JObj [("score", num score);
               ("scoreUnit", JStr "us/op");
               ("scorePercentiles",
                JObj [("50.0", num median); ("99.0", num 15);
                      ("99.9", num 20)])])].

(** An entry with a name, an implementation and nothing else. *)
Definition bare_entry (name impl : string) : json :=
  JObj [("benchmark", JStr name);
        ("params", JObj [("implementation", JStr impl)])].

(** An entry named ["Get"] without [primaryMetric]. *)
Definition no_metric : json :=
  JObj [("benchmark", JStr "Get"); ("params", JObj [])].

(** An entry named ["Get"] with a score and the given [scoreUnit]. *)
Definition unit_entry (score : Z) (unit : json) : json :=
  JObj [("benchmark", JStr "Get");
        ("params", JObj []);
        ("primaryMetric", JObj [("score", num score); ("scoreUnit", unit)])].

(** An entry named ["Get"] with a score and no [scoreUnit]. *)
Definition unitless_entry (score : Z) : json :=
  JObj [("benchmark", JStr "Get");
        ("params", JObj []);
        ("primaryMetric", JObj [("score", num score)])].

Definition get_key : BenchDiff.EntryKey :=
  {| BenchDiff.benchmark := "Get"; BenchDiff.params := [] |}.

(** The table row of [bare_entry name impl]. *)
Definition bare_row (name impl : string) : row :=
  {| full := JStr name; Impl := JStr impl; Mean := JNull; p50 := JNull;
     p99 := JNull; p999 := JNull; Unit := JStr "" |}.

(** The table of [bare_entry "A" "x"], [bare_entry "A" "y"] and
    [bare_entry "B" "z"], line by line. *)
Definition two_groups : list string :=
  ["A";
   "  Impl  Mean  p50  p99  p99.9  Unit";
   "  ----  ----  ---  ---  -----  ----";
   String.append "  x" (PyStr.replicate 32 " "%char);
   String.append "  y" (PyStr.replicate 32 " "%char);
   "";
   "B";
   "  Impl  Mean  p50  p99  p99.9  Unit";
   "  ----  ----  ---  ---  -----  ----";
   "  z"].

End Sample.

(* ================================================================= *)
(** ** Items that a list of pops leaves *)

(** [kept ks kv]: the key of the item [kv] is not in [ks]. *)
Definition kept {K V : Type} `{EqDec K} (ks : list K) (kv : K * V) : bool :=
  if in_dec eq_dec (fst kv) ks then false else true.

(* ================================================================= *)
(** ** The entries that indexing keeps *)

(** [indexed_items B entries ignore_params]: for every entry that is a
    dict with a non-empty benchmark name, in input order, its canonical
    key and the entry. *)
Definition indexed_items (B : builtins) (entries : list json)
           (ignore_params : list string)
  : list (BenchDiff.EntryKey * PyDict.dict string json) :=
  flat_map
    (fun e =>
       match e with
       | JObj d =>
           let k := BenchDiff._key_for_entry B d ignore_params in
           if PyStr.truthy (BenchDiff.benchmark k) then [(k, d)] else []
       | _ => []
       end)
    entries.

(* ================================================================= *)
(** ** Shapes of printed text *)

Module Shape.

(** [ends_with_space s]: the last character of [s] is whitespace. *)
Fixpoint ends_with_space (s : string) : bool :=
  match s with
  | EmptyString => false
  | String c EmptyString => PyStr.is_space c
  | String _ s' => ends_with_space s'
  end.

End Shape.

(* ================================================================= *)
(** * Properties *)

(** ** The orders are total orders *)

Lemma ascii_cmp_trans (a b c : ascii) :
  Ascii.compare a b = Lt -> Ascii.compare b c = Lt -> Ascii.compare a c = Lt.
Proof.
  unfold Ascii.compare. rewrite !N.compare_lt_iff. apply N.lt_trans.
Qed.

Lemma ascii_cmp_refl (a : ascii) : Ascii.compare a a = Eq.
Proof. unfold Ascii.compare. apply N.compare_refl. Qed.

Lemma string_cmp_refl (s : string) : String.compare s s = Eq.
Proof.
  induction s as [|a s IH]; simpl; [reflexivity|].
  now rewrite ascii_cmp_refl.
Qed.

Lemma string_cmp_trans (s t u : string) :
  String.compare s t = Lt -> String.compare t u = Lt -> String.compare s u = Lt.
Proof.
  revert t u. induction s as [|a s IH]; intros [|b t] [|c u]; simpl;
    try congruence.
  destruct (Ascii.compare a b) eqn:Hab; try discriminate.
  - apply Ascii.compare_eq_iff in Hab. subst b.
    destruct (Ascii.compare a c); try congruence. apply IH.
  - destruct (Ascii.compare b c) eqn:Hbc; try discriminate.
    + apply Ascii.compare_eq_iff in Hbc. subst c. now rewrite Hab.
    + now rewrite (ascii_cmp_trans Hab Hbc).
Qed.

#[export] Instance string_OrdLaws : OrdLaws string.
Proof.
  split.
  - intros x y. split.
    + apply String.compare_eq_iff.
    + intros ->. apply string_cmp_refl.
  - intros x y. apply String.compare_antisym.
  - apply string_cmp_trans.
Qed.

Section OrdFacts.
Context {A : Type} `{OrdLaws A}.

Lemma cmp_refl (x : A) : cmp x x = Eq.
Proof. now apply cmp_eq. Qed.

Lemma cmp_gt_lt (x y : A) : cmp x y = Gt <-> cmp y x = Lt.
Proof. rewrite (cmp_antisym x y). destruct (cmp x y); simpl; split; congruence. Qed.

Lemma cmp_lt_irrefl (x : A) : cmp x x <> Lt.
Proof. rewrite cmp_refl. discriminate. Qed.

Lemma cmp_le_lt_trans (x y z : A) :
  cmp x y <> Gt -> cmp y z = Lt -> cmp x z = Lt.
Proof.
  intros Hxy Hyz. destruct (cmp x y) eqn:E; try congruence.
  - apply cmp_eq in E. now subst.
  - eapply cmp_trans; eassumption.
Qed.

Lemma cmp_le_trans (x y z : A) :
  cmp x y <> Gt -> cmp y z <> Gt -> cmp x z <> Gt.
Proof.
  intros Hxy Hyz. destruct (cmp y z) eqn:E; try congruence.
  - apply cmp_eq in E. now subst.
  - rewrite (cmp_le_lt_trans Hxy E). discriminate.
Qed.
End OrdFacts.

#[export] Instance pair_OrdLaws {A C} `{OrdLaws A} `{OrdLaws C}
  : OrdLaws (A * C).
Proof.
  split.
  - intros [a c] [a' c']. unfold cmp, pair_Ord, PyOrd.pair_cmp. simpl. split.
    + destruct (cmp a a') eqn:E; try discriminate.
      intros E'. apply cmp_eq in E, E'. congruence.
    + intros [= -> ->]. now rewrite !cmp_refl.
  - intros [a c] [a' c']. unfold cmp, pair_Ord, PyOrd.pair_cmp. simpl.
    rewrite (cmp_antisym a a'). destruct (cmp a a'); simpl; auto.
    apply cmp_antisym.
  - intros [a c] [a' c'] [a'' c'']. unfold cmp, pair_Ord, PyOrd.pair_cmp.
    simpl.
    destruct (cmp a a') eqn:E1; try discriminate;
      destruct (cmp a' a'') eqn:E2; try discriminate; intros H1 H2.
    + apply cmp_eq in E1, E2. subst. rewrite cmp_refl.
      eapply cmp_trans; eassumption.
    + apply cmp_eq in E1. subst. now rewrite E2.
    + apply cmp_eq in E2. subst. now rewrite E1.
    + now rewrite (cmp_trans E1 E2).
Qed.

#[export] Instance list_OrdLaws {A} `{OrdLaws A} : OrdLaws (list A).
Proof.
  split.
  - unfold cmp, list_Ord.
    induction x as [|a x IH]; intros [|b y]; simpl; split;
      try congruence.
    + destruct (cmp a b) eqn:E; try discriminate.
      intros E'. apply cmp_eq in E. apply IH in E'. congruence.
    + intros [= -> ->]. rewrite cmp_refl. now apply IH.
  - unfold cmp, list_Ord.
    induction x as [|a x IH]; intros [|b y]; simpl; auto.
    rewrite (cmp_antisym a b). destruct (cmp a b); simpl; auto.
  - unfold cmp, list_Ord.
    induction x as [|a x IH]; intros [|b y] [|c z]; simpl; try congruence.
    destruct (cmp a b) eqn:E1; try discriminate;
      destruct (cmp b c) eqn:E2; try discriminate; intros H1 H2.
    + apply cmp_eq in E1, E2. subst. rewrite cmp_refl. eapply IH; eassumption.
    + apply cmp_eq in E1. subst. now rewrite E2.
    + apply cmp_eq in E2. subst. now rewrite E1.
    + now rewrite (cmp_trans E1 E2).
Qed.

(** ** Sorting *)

Section SortFacts.
Context {A K : Type} `{OrdLaws K} (key : A -> K).

Lemma insert_by_perm (x : A) (l : list A) :
  Permutation (PyOrd.insert_by key x l) (x :: l).
Proof.
  induction l as [|y l IH]; simpl; [reflexivity|].
  destruct (PyOrd.ltb (key y) (key x)); [|reflexivity].
  rewrite IH. apply perm_swap.
Qed.

Lemma sorted_perm (l : list A) : Permutation (PyOrd.sorted key l) l.
Proof.
  induction l as [|x l IH]; simpl; [reflexivity|].
  rewrite insert_by_perm. now constructor.
Qed.

Lemma insert_by_ascending (x : A) (l : list A) :
  PyOrd.ascending key l -> PyOrd.ascending key (PyOrd.insert_by key x l).
Proof.
  unfold PyOrd.ascending.
  induction 1 as [|y l Hl IH Hy]; simpl.
  - repeat constructor.
  - unfold PyOrd.ltb. destruct (cmp (key y) (key x)) eqn:E.
    + apply cmp_eq in E. constructor; [now constructor|].
      constructor; [rewrite E, cmp_refl; discriminate|].
      rewrite <- E. exact Hy.
    + constructor; [exact IH|].
      rewrite Forall_forall. intros z Hz.
      apply (Permutation_in _ (insert_by_perm x l)) in Hz.
      destruct Hz as [<-|Hz]; [congruence|].
      rewrite Forall_forall in Hy. now apply Hy.
    + assert (Hxy : cmp (key x) (key y) = Lt) by now apply cmp_gt_lt.
      constructor; [now constructor|].
      constructor; [congruence|].
      eapply Forall_impl; [|exact Hy]. intros z Hz.
      apply cmp_le_trans with (y := key y); congruence.
Qed.

Lemma sorted_ascending (l : list A) : PyOrd.ascending key (PyOrd.sorted key l).
Proof.
  induction l as [|x l IH]; simpl; [constructor|].
  now apply insert_by_ascending.
Qed.

Lemma ascending_strict (l : list A) :
  PyOrd.ascending key l -> NoDup (map key l) ->
  PyOrd.strictly_ascending key l.
Proof.
  unfold PyOrd.ascending, PyOrd.strictly_ascending.
  induction 1 as [|x l Hl IH Hx]; intros Hnd; [constructor|].
  simpl in Hnd. inversion Hnd as [|? ? Hin Hnd']; subst.
  constructor; [now apply IH|].
  rewrite Forall_forall in *. intros y Hy.
  specialize (Hx y Hy). destruct (cmp (key x) (key y)) eqn:E; try congruence.
  apply cmp_eq in E. exfalso. apply Hin. rewrite E. now apply in_map.
Qed.

Lemma sorted_strict (l : list A) :
  NoDup (map key l) -> PyOrd.strictly_ascending key (PyOrd.sorted key l).
Proof.
  intros Hnd. apply ascending_strict; [apply sorted_ascending|].
  eapply Permutation_NoDup; [|exact Hnd].
  apply Permutation_map. symmetry. apply sorted_perm.
Qed.

Lemma strictly_ascending_unique (l1 l2 : list A) :
  PyOrd.strictly_ascending key l1 -> PyOrd.strictly_ascending key l2 ->
  Permutation l1 l2 -> l1 = l2.
Proof.
  unfold PyOrd.strictly_ascending.
  intros H1. revert l2.
  induction H1 as [|x l1 Hl1 IH Hx]; intros l2 H2 Hp.
  - now apply Permutation_nil in Hp.
  - destruct H2 as [|y l2 Hl2 Hy].
    + symmetry in Hp. now apply Permutation_nil in Hp.
    + assert (Hxy : x = y).
      { assert (Hin1 : In x (y :: l2))
          by (eapply Permutation_in; [exact Hp|now left]).
        assert (Hin2 : In y (x :: l1))
          by (eapply Permutation_in; [symmetry; exact Hp|now left]).
        destruct Hin1 as [->|Hin1]; [reflexivity|].
        destruct Hin2 as [->|Hin2]; [reflexivity|].
        rewrite Forall_forall in Hx, Hy.
        exfalso. apply cmp_lt_irrefl with (x := key x).
        eapply cmp_trans; [apply Hx|apply Hy]; assumption. }
      subst y. f_equal. apply IH; [assumption|].
      eapply Permutation_cons_inv; exact Hp.
Qed.

(** Sorting forgets the order of a list whose keys are pairwise
    distinct. *)
Lemma sorted_perm_eq (l1 l2 : list A) :
  NoDup (map key l1) -> Permutation l1 l2 ->
  PyOrd.sorted key l1 = PyOrd.sorted key l2.
Proof.
  intros Hnd Hp. apply strictly_ascending_unique.
  - now apply sorted_strict.
  - apply sorted_strict. eapply Permutation_NoDup; [|exact Hnd].
    now apply Permutation_map.
  - rewrite !sorted_perm. exact Hp.
Qed.
End SortFacts.

(** ** Dictionaries *)

Lemma filter_perm {A} (f : A -> bool) (l l' : list A) :
  Permutation l l' -> Permutation (filter f l) (filter f l').
Proof.
  induction 1 as [|x l l' Hp IH|x y l|l l' l'' Hp1 IH1 Hp2 IH2]; simpl.
  - constructor.
  - destruct (f x); [now constructor|exact IH].
  - destruct (f x), (f y); try reflexivity. apply perm_swap.
  - now rewrite IH1.
Qed.

Section DictFacts.
Context {K V : Type} `{EqDec K}.
Implicit Types (d : PyDict.dict K V) (k : K) (v : V).

Lemma get_in_keys d k : PyDict.get d k <> None <-> In k (PyDict.keys d).
Proof.
  induction d as [|[k' v'] d IH]; simpl.
  - split; [congruence|tauto].
  - destruct (eq_dec k k') as [->|Hk].
    + split; [now left|discriminate].
    + rewrite IH. split; [now right|]. intros [E|Hin]; [congruence|exact Hin].
Qed.

Lemma get_none_keys d k : PyDict.get d k = None <-> ~ In k (PyDict.keys d).
Proof.
  rewrite <- get_in_keys. destruct (PyDict.get d k); split; try congruence.
  intros Hn. exfalso. apply Hn. discriminate.
Qed.

Lemma get_set d k v k' :
  PyDict.get (PyDict.set d k v) k'
  = if eq_dec k' k then Some v else PyDict.get d k'.
Proof.
  induction d as [|[k0 v0] d IH]; simpl.
  - destruct (eq_dec k' k); reflexivity.
  - destruct (eq_dec k k0) as [->|Hk]; simpl.
    + destruct (eq_dec k' k0); reflexivity.
    + destruct (eq_dec k' k0) as [->|Hk'].
      * destruct (eq_dec k0 k); [congruence|reflexivity].
      * exact IH.
Qed.

Lemma keys_set d k v :
  PyDict.keys (PyDict.set d k v)
  = if PyDict.mem d k then PyDict.keys d else PyDict.keys d ++ [k].
Proof.
  unfold PyDict.mem.
  induction d as [|[k0 v0] d IH]; simpl; [reflexivity|].
  destruct (eq_dec k k0) as [->|Hk]; simpl; [reflexivity|].
  rewrite IH. destruct (PyDict.get d k); reflexivity.
Qed.

Lemma set_wf d k v : PyDict.wf d -> PyDict.wf (PyDict.set d k v).
Proof.
  unfold PyDict.wf. intros Hwf. rewrite keys_set. unfold PyDict.mem.
  destruct (PyDict.get d k) eqn:E; [exact Hwf|].
  apply get_none_keys in E.
  apply (Permutation_NoDup (l := k :: PyDict.keys d)).
  - apply Permutation_cons_append.
  - now constructor.
Qed.

(** A new key goes to the end. *)
Lemma set_fresh d k v :
  ~ In k (PyDict.keys d) -> PyDict.set d k v = d ++ [(k, v)].
Proof.
  induction d as [|[k0 v0] d IH]; simpl; intros Hn; [reflexivity|].
  destruct (eq_dec k k0) as [->|Hk]; [tauto|].
  rewrite IH; [reflexivity|tauto].
Qed.

(** Removing a key of a well-formed dictionary removes its item. *)
Lemma pop_filter d k :
  PyDict.wf d ->
  PyDict.pop d k
  = filter (fun kv => if eq_dec k (fst kv) then false else true) d.
Proof.
  unfold PyDict.wf.
  induction d as [|[k0 v0] d IH]; simpl; intros Hwf; [reflexivity|].
  inversion Hwf as [|? ? Hn Hwf']; subst.
  destruct (eq_dec k k0) as [->|Hk].
  - symmetry. apply forallb_filter_id.
    apply forallb_forall. intros [k1 v1] Hin. simpl.
    destruct (eq_dec k0 k1) as [->|]; [|reflexivity].
    exfalso. apply Hn. change k1 with (fst (k1, v1)). now apply in_map.
  - now rewrite IH.
Qed.

Lemma filter_wf (f : K * V -> bool) d : PyDict.wf d -> PyDict.wf (filter f d).
Proof.
  unfold PyDict.wf, PyDict.keys.
  induction d as [|kv d IH]; simpl; intros Hwf; [constructor|].
  inversion Hwf as [|? ? Hn Hwf']; subst.
  destruct (f kv); simpl; [|now apply IH].
  constructor; [|now apply IH].
  intros Hin. apply Hn. apply in_map_iff in Hin.
  destruct Hin as [x [Hx Hin]]. apply filter_In in Hin.
  apply in_map_iff. exists x. tauto.
Qed.

Lemma pops_perm (ks : list K) d d' :
  PyDict.wf d -> Permutation d d' ->
  PyDict.wf (fold_left (fun ps p => PyDict.pop ps p) ks d)
  /\ Permutation (fold_left (fun ps p => PyDict.pop ps p) ks d)
                 (fold_left (fun ps p => PyDict.pop ps p) ks d').
Proof.
  revert d d'. induction ks as [|k ks IH]; simpl; intros d d' Hwf Hp.
  - tauto.
  - assert (Hwf' : PyDict.wf d').
    { unfold PyDict.wf, PyDict.keys in *.
      eapply Permutation_NoDup; [|exact Hwf]. now apply Permutation_map. }
    apply IH.
    + rewrite pop_filter by assumption. now apply filter_wf.
    + rewrite !pop_filter by assumption. now apply filter_perm.
Qed.

(** Lookup does not depend on the iteration order. *)
Lemma get_perm d d' k :
  PyDict.wf d -> Permutation d d' -> PyDict.get d k = PyDict.get d' k.
Proof.
  intros Hwf Hp. revert Hwf.
  unfold PyDict.wf, PyDict.keys.
  induction Hp as [|[k0 v0] d d' Hp IH|[k0 v0] [k1 v1] d|d d' d'' Hp1 IH1 Hp2 IH2];
    simpl; intros Hwf.
  - reflexivity.
  - inversion Hwf; subst. destruct (eq_dec k k0); [reflexivity|]. now apply IH.
  - inversion Hwf as [|? ? Hn _]; subst.
    destruct (eq_dec k k1) as [E1|], (eq_dec k k0) as [E0|];
      try reflexivity.
    exfalso. apply Hn. left. congruence.
  - rewrite IH1 by assumption. apply IH2.
    eapply Permutation_NoDup; [|exact Hwf]. now apply Permutation_map.
Qed.
End DictFacts.

(** ** Canonical keys *)

Section KeyFacts.
Variable B : builtins.

Lemma as_str_map_fold (ps : list (string * json))
      (acc : PyDict.dict string string) :
  NoDup (PyDict.keys acc ++ map fst ps) ->
  fold_left
    (fun out kv =>
       PyDict.set out (Py.str B (JStr (fst kv))) (Py.str B (snd kv)))
    ps acc
  = acc ++ map (fun kv => (fst kv, Py.str B (snd kv))) ps.
Proof.
  revert acc. induction ps as [|[k v] ps IH]; simpl; intros acc Hnd.
  - now rewrite app_nil_r.
  - assert (Hk : ~ In k (PyDict.keys acc)).
    { intros Hin. apply NoDup_remove_2 in Hnd. apply Hnd.
      apply in_or_app. now left. }
    rewrite set_fresh by assumption.
    rewrite IH.
    + now rewrite <- app_assoc.
    + unfold PyDict.keys. rewrite map_app. simpl.
      rewrite <- app_assoc. exact Hnd.
Qed.

Lemma as_str_map_items (ps : list (string * json)) :
  NoDup (map fst ps) ->
  BenchDiff._as_str_map B (JObj ps)
  = map (fun kv => (fst kv, Py.str B (snd kv))) ps.
Proof.
  intros Hnd. unfold BenchDiff._as_str_map.
  now rewrite as_str_map_fold.
Qed.

Lemma as_str_map_wf (obj : json) : PyDict.wf (BenchDiff._as_str_map B obj).
Proof.
  destruct obj; simpl; try constructor.
  match goal with |- PyDict.wf (fold_left _ ?l ?a) =>
    assert (Ha : PyDict.wf a) by constructor; revert Ha;
    generalize a; induction l as [|kv l IH]; simpl; intros acc Ha
  end.
  - exact Ha.
  - apply IH. now apply set_wf.
Qed.
End KeyFacts.

(** C8. Canonical key derivation is independent of the insertion order of
    the parameter mapping: if [entry] carries the parameter mapping [ps]
    (a dict, so its names are pairwise distinct) and [ps'] holds the same
    items in another order, then [entry] and the entry that carries [ps']
    instead have the same [EntryKey], for every ignore-list. *)
Theorem key_for_entry_order_independent
        (B : builtins) (entry : PyDict.dict string json)
        (ps ps' : list (string * json)) (ignore_params : list string) :
  PyDict.get entry "params" = Some (JObj ps) ->
  NoDup (map fst ps) ->
  Permutation ps ps' ->
  BenchDiff._key_for_entry B (PyDict.set entry "params" (JObj ps')) ignore_params
  = BenchDiff._key_for_entry B entry ignore_params.
Proof.
  intros Hget Hnd Hp.
  assert (Hnd' : NoDup (map fst ps')).
  { eapply Permutation_NoDup; [|exact Hnd]. now apply Permutation_map. }
  unfold BenchDiff._key_for_entry, Py.get_default.
  rewrite !get_set, Hget.
  destruct (eq_dec "benchmark" "params") as [E|_]; [discriminate E|].
  destruct (eq_dec "params" "params") as [_|E]; [|congruence].
  f_equal.
  rewrite !as_str_map_items by assumption.
  set (g := fun kv : string * json => (fst kv, Py.str B (snd kv))).
  assert (Hwf : PyDict.wf (map g ps')).
  { unfold PyDict.wf, PyDict.keys. rewrite map_map. exact Hnd'. }
  assert (Hpg : Permutation (map g ps') (map g ps))
    by (apply Permutation_map; now symmetry).
  destruct (pops_perm ignore_params Hwf Hpg) as [Hwf1 Hp1].
  apply sorted_perm_eq; assumption.
Qed.

Lemma key_for_entry_order_independent_witness :
  let B := Sample.B0 in
  let ps := [("threads", JInt 4); ("implementation", JStr "netty")] in
  let ps' := [("implementation", JStr "netty"); ("threads", JInt 4)] in
  let entry := [("benchmark", JStr "Get"); ("params", JObj ps)] in
  BenchDiff._key_for_entry B (PyDict.set entry "params" (JObj ps')) ["threads"]
  = BenchDiff._key_for_entry B entry ["threads"].
Proof.
  intros B ps ps' entry.
  apply (@key_for_entry_order_independent B entry ps ps' ["threads"]).
  - reflexivity.
  - repeat constructor; simpl; intuition discriminate.
  - apply perm_swap.
Defined.

(** ** The index *)

Lemma truthy_nonempty (s : string) : PyStr.truthy s = true <-> s <> "".
Proof. destruct s; simpl; split; congruence. Qed.

Lemma truthy_empty (s : string) : PyStr.truthy s = false <-> s = "".
Proof. destruct s; simpl; split; congruence. Qed.

Section IndexFacts.
Variable B : builtins.

Let step (ignore_params : list string) :=
  fun (out : BenchDiff.index) (e : json) =>
    match e with
    | JObj d =>
        let k := BenchDiff._key_for_entry B d ignore_params in
        if PyStr.truthy (BenchDiff.benchmark k) then PyDict.set out k d else out
    | _ => out
    end.

Lemma index_fold_get entries ignore_params (acc : BenchDiff.index) k :
  PyDict.get (fold_left (step ignore_params) entries acc) k
  = match BenchDiff.last_write B entries ignore_params k with
    | Some d => Some d
    | None => PyDict.get acc k
    end.
Proof.
  revert acc. induction entries as [|e entries IH]; simpl; intros acc.
  - reflexivity.
  - rewrite IH.
    destruct (BenchDiff.last_write B entries ignore_params k); [reflexivity|].
    destruct e; simpl; try reflexivity.
    destruct (PyStr.truthy _); [|reflexivity].
    rewrite get_set. destruct (eq_dec k _); reflexivity.
Qed.

Lemma index_fold_wf entries ignore_params (acc : BenchDiff.index) :
  PyDict.wf acc -> PyDict.wf (fold_left (step ignore_params) entries acc).
Proof.
  revert acc. induction entries as [|e entries IH]; simpl; intros acc Hwf.
  - exact Hwf.
  - apply IH. destruct e; simpl; try exact Hwf.
    destruct (PyStr.truthy _); [now apply set_wf|exact Hwf].
Qed.

Lemma index_wf entries ignore_params :
  PyDict.wf (BenchDiff._index B entries ignore_params).
Proof. apply index_fold_wf. constructor. Qed.

Lemma index_get entries ignore_params k :
  PyDict.get (BenchDiff._index B entries ignore_params) k
  = BenchDiff.last_write B entries ignore_params k.
Proof.
  etransitivity; [exact (index_fold_get entries ignore_params [] k)|].
  now destruct (BenchDiff.last_write B entries ignore_params k).
Qed.

Lemma last_write_sound entries ignore_params k d :
  BenchDiff.last_write B entries ignore_params k = Some d ->
  In (JObj d) entries
  /\ BenchDiff._key_for_entry B d ignore_params = k
  /\ BenchDiff.benchmark k <> "".
Proof.
  induction entries as [|e entries IH]; simpl; [discriminate|].
  destruct (BenchDiff.last_write B entries ignore_params k) as [d'|].
  - intros [= ->]. destruct (IH eq_refl) as [H1 H2]. split; [now right|exact H2].
  - destruct e as [| | | | |l|d0]; try discriminate.
    destruct (PyStr.truthy _) eqn:Et; [|discriminate].
    destruct (eq_dec k _) as [->|]; [|discriminate].
    intros [= ->]. split; [now left|]. split; [reflexivity|].
    now apply truthy_nonempty.
Qed.

Lemma last_write_complete entries ignore_params d :
  In (JObj d) entries ->
  BenchDiff.benchmark (BenchDiff._key_for_entry B d ignore_params) <> "" ->
  BenchDiff.last_write B entries ignore_params
    (BenchDiff._key_for_entry B d ignore_params) <> None.
Proof.
  induction entries as [|e entries IH]; simpl; [tauto|].
  intros [->|Hin] Hne.
  - destruct (BenchDiff.last_write B entries ignore_params _); [discriminate|].
    destruct (PyStr.truthy _) eqn:Et.
    + destruct (eq_dec _ _); [discriminate|congruence].
    + apply truthy_empty in Et. congruence.
  - specialize (IH Hin Hne).
    destruct (BenchDiff.last_write B entries ignore_params _);
      [discriminate|congruence].
Qed.
End IndexFacts.

(** C4. For every entry list and ignore-list, the index maps a key to the
    last entry of the input that is a dict with a non-empty benchmark name
    and that canonicalizes to this key ([last_write]); its keys are exactly
    the canonical keys of the dict entries with a non-empty benchmark name;
    entries that are not dicts and entries with an empty or absent
    benchmark name leave the index as it is. *)
Theorem index_last_write_wins
        (B : builtins) (entries : list json) (ignore_params : list string) :
  (forall k,
      PyDict.get (BenchDiff._index B entries ignore_params) k
      = BenchDiff.last_write B entries ignore_params k)
  /\ (forall k,
         In k (PyDict.keys (BenchDiff._index B entries ignore_params))
         <-> exists d, In (JObj d) entries
                       /\ BenchDiff._key_for_entry B d ignore_params = k
                       /\ BenchDiff.benchmark k <> "")
  /\ (forall before d later,
         entries = before ++ JObj d :: later ->
         BenchDiff.benchmark (BenchDiff._key_for_entry B d ignore_params) <> "" ->
         (forall d', In (JObj d') later ->
                     BenchDiff._key_for_entry B d' ignore_params
                     <> BenchDiff._key_for_entry B d ignore_params) ->
         PyDict.get (BenchDiff._index B entries ignore_params)
                    (BenchDiff._key_for_entry B d ignore_params) = Some d)
  /\ (forall before e later,
         entries = before ++ e :: later ->
         match e with
         | JObj d => BenchDiff.benchmark
                       (BenchDiff._key_for_entry B d ignore_params) = ""
         | _ => True
         end ->
         BenchDiff._index B entries ignore_params
         = BenchDiff._index B (before ++ later) ignore_params).
Proof.
  split; [|split; [|split]].
  - intros k. apply index_get.
  - intros k. rewrite <- get_in_keys, index_get. split.
    + destruct (BenchDiff.last_write B entries ignore_params k) as [d|] eqn:E;
        [|congruence].
      intros _. exists d. now apply last_write_sound.
    + intros [d [Hin [<- Hne]]]. now apply last_write_complete.
  - intros before d later -> Hne Hlater. rewrite index_get.
    induction before as [|e before IH]; simpl.
    + destruct (BenchDiff.last_write B later ignore_params _) as [d'|] eqn:E.
      * apply last_write_sound in E. destruct E as [Hin [Hk _]].
        exfalso. eapply Hlater; eassumption.
      * destruct (PyStr.truthy _) eqn:Et.
        -- destruct (eq_dec _ _) as [_|Hn]; [reflexivity|now elim Hn].
        -- apply truthy_empty in Et. exfalso. apply Hne. exact Et.
    + now rewrite IH.
  - intros before e later -> He. unfold BenchDiff._index.
    rewrite !fold_left_app. cbn [fold_left]. f_equal.
    destruct e; try reflexivity.
    apply truthy_empty in He. cbv zeta. now rewrite He.
Qed.

(** Two entries with the same canonical key, a number and an entry with
    an empty name: the index has one key, mapped to the second entry. *)
Example index_of_duplicates :
  BenchDiff._index Sample.B0
    [Sample.get_entry 10 9; Sample.get_entry 20 18; JInt 1;
     Sample.bare_entry "" "a"] []
  = [(Sample.get_key,
      match Sample.get_entry 20 18 with JObj d => d | _ => [] end)].
Proof. vm_compute. reflexivity. Qed.

(** ** The three key lists of the diff *)

Lemma NoDup_map_inj {A C} (f : A -> C) (l : list A) :
  (forall x y, f x = f y -> x = y) -> NoDup l -> NoDup (map f l).
Proof.
  intros Hf. induction 1 as [|x l Hn Hnd IH]; simpl; constructor; [|exact IH].
  intros Hin. apply in_map_iff in Hin. destruct Hin as [y [Hy Hin]].
  apply Hf in Hy. now subst.
Qed.

Section KeyListFacts.
Variable B : builtins.

Lemma sort_key_inj (k k' : BenchDiff.EntryKey) :
  BenchDiff.sort_key k = BenchDiff.sort_key k' -> k = k'.
Proof. destruct k, k'. unfold BenchDiff.sort_key. simpl. congruence. Qed.

Lemma mem_perm (i i' : BenchDiff.index) k :
  PyDict.wf i -> Permutation i i' -> PyDict.mem i k = PyDict.mem i' k.
Proof. intros Hwf Hp. unfold PyDict.mem. now rewrite (get_perm k Hwf Hp). Qed.

(** Sorting a selection of the keys of an index gives the same list for
    every iteration order of the index. *)
Lemma sorted_keys_perm (f f' : BenchDiff.EntryKey -> bool)
      (i i' : BenchDiff.index) :
  PyDict.wf i -> Permutation i i' -> (forall k, f k = f' k) ->
  PyOrd.sorted BenchDiff.sort_key (filter f (PyDict.keys i))
  = PyOrd.sorted BenchDiff.sort_key (filter f' (PyDict.keys i')).
Proof.
  intros Hwf Hp Hf. rewrite (filter_ext _ _ Hf).
  apply sorted_perm_eq.
  - apply NoDup_map_inj; [exact sort_key_inj|].
    apply NoDup_filter. exact Hwf.
  - apply filter_perm. now apply Permutation_map.
Qed.
End KeyListFacts.

(** C7. The matched, current-only and baseline-only lists are sorted
    ascending by [(benchmark, params)]; and when the two entry lists are
    permuted in a way that leaves both indices the same mappings (the same
    items, whatever their iteration order), the three lists come out
    unchanged. *)
Theorem diff_lists_sorted_order_stable
        (B : builtins) (current current' baseline baseline' : list json)
        (benchmark_contains : option string) (ignore_params : list string) :
  Permutation current current' ->
  Permutation baseline baseline' ->
  Permutation (BenchDiff._index B current ignore_params)
              (BenchDiff._index B current' ignore_params) ->
  Permutation (BenchDiff._index B baseline ignore_params)
              (BenchDiff._index B baseline' ignore_params) ->
  let ci := BenchDiff._index B current ignore_params in
  let bi := BenchDiff._index B baseline ignore_params in
  let ci' := BenchDiff._index B current' ignore_params in
  let bi' := BenchDiff._index B baseline' ignore_params in
  PyOrd.ascending BenchDiff.sort_key (BenchDiff.matched ci bi benchmark_contains)
  /\ PyOrd.ascending BenchDiff.sort_key
       (BenchDiff.missing_in_baseline ci bi benchmark_contains)
  /\ PyOrd.ascending BenchDiff.sort_key
       (BenchDiff.missing_in_current ci bi benchmark_contains)
  /\ BenchDiff.matched ci' bi' benchmark_contains
     = BenchDiff.matched ci bi benchmark_contains
  /\ BenchDiff.missing_in_baseline ci' bi' benchmark_contains
     = BenchDiff.missing_in_baseline ci bi benchmark_contains
  /\ BenchDiff.missing_in_current ci' bi' benchmark_contains
     = BenchDiff.missing_in_current ci bi benchmark_contains.
Proof.
  intros _ _ Hc Hb ci bi ci' bi'.
  assert (Hci : PyDict.wf ci) by apply index_wf.
  assert (Hbi : PyDict.wf bi) by apply index_wf.
  repeat split; try apply sorted_ascending; symmetry.
  - apply sorted_keys_perm; try assumption.
    intros k. now rewrite (mem_perm k Hbi Hb).
  - apply sorted_keys_perm; try assumption.
    intros k. now rewrite (mem_perm k Hbi Hb).
  - apply sorted_keys_perm; try assumption.
    intros k. now rewrite (mem_perm k Hci Hc).
Qed.

Lemma diff_lists_sorted_order_stable_witness :
  let current := [Sample.bare_entry "Put" "a"; Sample.bare_entry "Get" "a"] in
  let current' := [Sample.bare_entry "Get" "a"; Sample.bare_entry "Put" "a"] in
  let baseline := [Sample.bare_entry "Get" "a"; Sample.bare_entry "Scan" "a"] in
  let baseline' := [Sample.bare_entry "Scan" "a"; Sample.bare_entry "Get" "a"] in
  let ci := BenchDiff._index Sample.B0 current [] in
  let bi := BenchDiff._index Sample.B0 baseline [] in
  let ci' := BenchDiff._index Sample.B0 current' [] in
  let bi' := BenchDiff._index Sample.B0 baseline' [] in
  PyOrd.ascending BenchDiff.sort_key (BenchDiff.matched ci bi None)
  /\ PyOrd.ascending BenchDiff.sort_key (BenchDiff.missing_in_baseline ci bi None)
  /\ PyOrd.ascending BenchDiff.sort_key (BenchDiff.missing_in_current ci bi None)
  /\ BenchDiff.matched ci' bi' None = BenchDiff.matched ci bi None
  /\ BenchDiff.missing_in_baseline ci' bi' None
     = BenchDiff.missing_in_baseline ci bi None
  /\ BenchDiff.missing_in_current ci' bi' None
     = BenchDiff.missing_in_current ci bi None.
Proof.
  intros current current' baseline baseline'.
  apply (@diff_lists_sorted_order_stable
           Sample.B0 current current' baseline baseline' None []).
  - apply perm_swap.
  - apply perm_swap.
  - vm_compute. apply perm_swap.
  - vm_compute. apply perm_swap.
Defined.

(** ** The report of the diff *)

(** Refutes [exists line, In line out /\ test line = true] for an explicit
    list [out], by running the test on each of its lines. *)
Ltac no_such_line :=
  let line := fresh "line" in
  let Hin := fresh "Hin" in
  let Hc := fresh "Hc" in
  intros [line [Hin Hc]]; simpl in Hin;
  repeat (destruct Hin as [<-|Hin]; [vm_compute in Hc; discriminate|]);
  exact Hin.

Section ReportFacts.
Variable B : builtins.

Lemma matched_nonempty_exit (current_path baseline_path : string)
      (current baseline : list json) (benchmark_contains : option string)
      (ignore_params : list string) :
  let ci := BenchDiff._index B current ignore_params in
  let bi := BenchDiff._index B baseline ignore_params in
  BenchDiff.matched ci bi benchmark_contains <> [] ->
  BenchDiff.compare B current_path baseline_path (JArr current)
                    (JArr baseline) benchmark_contains ignore_params
  = BenchDiff.Return 0
      (BenchDiff.header current_path baseline_path benchmark_contains
                        ignore_params
         ++ flat_map (fun k => BenchDiff.report_key B k
                                 (BenchDiff.entry_of ci k)
                                 (BenchDiff.entry_of bi k))
                     (BenchDiff.matched ci bi benchmark_contains)
         ++ BenchDiff.count_line "Current-only entries (no baseline match): "
              (BenchDiff.missing_in_baseline ci bi benchmark_contains)
         ++ BenchDiff.count_line "Baseline-only entries (not in current): "
              (BenchDiff.missing_in_current ci bi benchmark_contains)).
Proof.
  intros ci bi Hne. unfold BenchDiff.compare. fold ci bi.
  destruct (BenchDiff.matched ci bi benchmark_contains); [congruence|].
  reflexivity.
Qed.

Lemma matched_empty_exit (current_path baseline_path : string)
      (current baseline : list json) (benchmark_contains : option string)
      (ignore_params : list string) :
  let ci := BenchDiff._index B current ignore_params in
  let bi := BenchDiff._index B baseline ignore_params in
  BenchDiff.matched ci bi benchmark_contains = [] ->
  BenchDiff.compare B current_path baseline_path (JArr current)
                    (JArr baseline) benchmark_contains ignore_params
  = BenchDiff.Return 1
      (BenchDiff.header current_path baseline_path benchmark_contains
                        ignore_params
         ++ ["No matching benchmark+params entries found between current and baseline."]
         ++ BenchDiff.count_line "Current-only entries: "
              (BenchDiff.missing_in_baseline ci bi benchmark_contains)
         ++ BenchDiff.count_line "Baseline-only entries: "
              (BenchDiff.missing_in_current ci bi benchmark_contains)).
Proof.
  intros ci bi He. unfold BenchDiff.compare. fold ci bi.
  now rewrite He.
Qed.

(** A matched key is a key of both indices, so that [current_idx[k]] and
    [baseline_idx[k]] are there. *)
Lemma matched_in_both (ci bi : BenchDiff.index)
      (benchmark_contains : option string) (k : BenchDiff.EntryKey) :
  In k (BenchDiff.matched ci bi benchmark_contains) ->
  PyDict.mem ci k = true /\ PyDict.mem bi k = true.
Proof.
  unfold BenchDiff.matched. intros Hin.
  apply (Permutation_in _ (sorted_perm BenchDiff.sort_key _)) in Hin.
  apply filter_In in Hin. destruct Hin as [Hk Hf].
  apply andb_true_iff in Hf. destruct Hf as [Hb _].
  split; [|exact Hb].
  apply get_in_keys in Hk. unfold PyDict.mem.
  destruct (PyDict.get ci k); congruence.
Qed.

Lemma flat_map_block {A C} (f : A -> list C) (l : list A) (x : A) :
  In x l -> exists pre post, flat_map f l = pre ++ f x ++ post.
Proof.
  intros Hin. apply in_split in Hin. destruct Hin as [l1 [l2 ->]].
  exists (flat_map f l1), (flat_map f l2).
  now rewrite flat_map_app.
Qed.
End ReportFacts.

(** C1 (amended). For every matched key the report has one block of lines
    and no error: the key, the mean line, the percentile lines and an empty
    line; the key is in both indices, so both entries are found.  If
    either side lacks the score, the mean line is the
    unavailable marker ["  mean:   n/a"].  A percentile line (p50, p99,
    p99.9) is decided by its own two values alone: it is left out when
    either side lacks that percentile, and printed when both have it,
    whatever holds for the mean and the other percentiles.  The blocks of
    all matched keys are in the output. *)
Theorem report_key_missing_values
        (B : builtins) (current_path baseline_path : string)
        (current baseline : list json) (benchmark_contains : option string)
        (ignore_params : list string) (k : BenchDiff.EntryKey) :
  let ci := BenchDiff._index B current ignore_params in
  let bi := BenchDiff._index B baseline ignore_params in
  let c_metric := BenchDiff._get_metric (BenchDiff.entry_of ci k) in
  let b_metric := BenchDiff._get_metric (BenchDiff.entry_of bi k) in
  let unit := BenchDiff.unit_of B c_metric b_metric in
  let block := BenchDiff.report_key B k (BenchDiff.entry_of ci k)
                                    (BenchDiff.entry_of bi k) in
  In k (BenchDiff.matched ci bi benchmark_contains) ->
  (exists before after,
      BenchDiff.compare B current_path baseline_path (JArr current)
                        (JArr baseline) benchmark_contains ignore_params
      = BenchDiff.Return 0 (before ++ block ++ after))
  /\ (PyDict.mem ci k = true /\ PyDict.mem bi k = true)
  /\ block
     = [BenchDiff.pretty k;
        BenchDiff.mean_line unit (BenchDiff._get_score B c_metric)
                            (BenchDiff._get_score B b_metric)]
         ++ BenchDiff.percentile_lines "  p50:    " unit
              (BenchDiff._get_percentile B c_metric "50.0")
              (BenchDiff._get_percentile B b_metric "50.0")
         ++ BenchDiff.percentile_lines "  p99:    " unit
              (BenchDiff._get_percentile B c_metric "99.0")
              (BenchDiff._get_percentile B b_metric "99.0")
         ++ BenchDiff.percentile_lines "  p99.9:  " unit
              (BenchDiff._get_percentile B c_metric "99.9")
              (BenchDiff._get_percentile B b_metric "99.9")
         ++ [""]
  /\ (forall c b, c = None \/ b = None ->
                  BenchDiff.mean_line unit c b = "  mean:   n/a")
  /\ (forall label c b, c = None \/ b = None ->
                        BenchDiff.percentile_lines label unit c b = [])
  /\ (forall label c b, BenchDiff.percentile_lines label unit (Some c) (Some b)
                        = [BenchDiff.metric_line label unit c b]).
Proof.
  intros ci bi c_metric b_metric unit block Hin.
  split; [|split; [now apply matched_in_both with (1 := Hin)|
                   split; [reflexivity|split; [|split]]]].
  - assert (Hne : BenchDiff.matched ci bi benchmark_contains <> [])
      by (intros E; rewrite E in Hin; exact Hin).
    rewrite (@matched_nonempty_exit B current_path baseline_path current
               baseline benchmark_contains ignore_params Hne).
    destruct (flat_map_block
                (fun k => BenchDiff.report_key B k (BenchDiff.entry_of ci k)
                                               (BenchDiff.entry_of bi k))
                Hin) as [pre [post E]].
    fold ci bi. rewrite E.
    exists (BenchDiff.header current_path baseline_path benchmark_contains
                             ignore_params ++ pre).
    eexists. rewrite <- !app_assoc. reflexivity.
  - intros c b [->| ->]; [reflexivity|]. now destruct c.
  - intros label c b [->| ->]; [|reflexivity]. now destruct b.
  - reflexivity.
Qed.

Lemma report_key_missing_values_witness :
  exists before after,
    BenchDiff.compare Sample.B0 "cur.json" "base.json"
                      (JArr [Sample.no_metric]) (JArr [Sample.get_entry 20 18])
                      None []
    = BenchDiff.Return 0
        (before ++ ["Get"; "  mean:   n/a"; ""] ++ after).
Proof.
  refine (proj1 (@report_key_missing_values
                   Sample.B0 "cur.json" "base.json"
                   [Sample.no_metric] [Sample.get_entry 20 18] None []
                   Sample.get_key _)).
  vm_compute. left. reflexivity.
Defined.

(** C1, as stated, fails: with a current entry that has no
    [primaryMetric] and a complete baseline entry, the mean line is the
    unavailable marker, but no line at all is printed for p50, p99 and
    p99.9: these lines are left out, not reported as unavailable. *)
Lemma percentile_line_left_out :
  let out := ["Current:  cur.json"; "Baseline: base.json"; "";
              "Get"; "  mean:   n/a"; ""] in
  BenchDiff.compare Sample.B0 "cur.json" "base.json"
                    (JArr [Sample.no_metric]) (JArr [Sample.get_entry 20 18])
                    None []
  = BenchDiff.Return 0 out
  /\ ~ (exists line, In line out /\ PyStr.contains "p50" line = true)
  /\ ~ (exists line, In line out /\ PyStr.contains "p99" line = true).
Proof.
  split; [vm_compute; reflexivity|].
  split; no_such_line.
Qed.

(** C5 (amended). The diff tool exits with code 0 when at least one key is
    matched after filtering and with code 1 when none is (and also when an
    input is not a JSON array).  In the no-match case it raises nothing;
    after its message it prints the count of current-only entries when
    there is such an entry and the count of baseline-only entries when
    there is such an entry: a count of zero has no line. *)
Theorem compare_exit_code_and_counts
        (B : builtins) (current_path baseline_path : string)
        (current baseline : json) (benchmark_contains : option string)
        (ignore_params : list string) :
  BenchDiff.exit_code
    (BenchDiff.compare B current_path baseline_path current baseline
                       benchmark_contains ignore_params)
  = match current, baseline with
    | JArr c, JArr b =>
        match BenchDiff.matched (BenchDiff._index B c ignore_params)
                                (BenchDiff._index B b ignore_params)
                                benchmark_contains with
        | [] => 1%Z
        | _ :: _ => 0%Z
        end
    | _, _ => 1%Z
    end
  /\ (forall c b,
         current = JArr c -> baseline = JArr b ->
         let ci := BenchDiff._index B c ignore_params in
         let bi := BenchDiff._index B b ignore_params in
         BenchDiff.matched ci bi benchmark_contains = [] ->
         BenchDiff.compare B current_path baseline_path current baseline
                           benchmark_contains ignore_params
         = BenchDiff.Return 1
             (BenchDiff.header current_path baseline_path benchmark_contains
                               ignore_params
                ++ ["No matching benchmark+params entries found between current and baseline."]
                ++ BenchDiff.count_line "Current-only entries: "
                     (BenchDiff.missing_in_baseline ci bi benchmark_contains)
                ++ BenchDiff.count_line "Baseline-only entries: "
                     (BenchDiff.missing_in_current ci bi benchmark_contains)))
  /\ (forall text, BenchDiff.count_line text [] = [])
  /\ (forall text k keys,
         BenchDiff.count_line text (k :: keys)
         = [PyStr.fstr [text; PyStr.of_nat (List.length (k :: keys))]]).
Proof.
  split; [|split; [|split]].
  - unfold BenchDiff.compare.
    destruct current; try reflexivity. destruct baseline; try reflexivity.
    now destruct (BenchDiff.matched _ _ _).
  - intros c b -> -> ci bi He. now apply matched_empty_exit.
  - reflexivity.
  - reflexivity.
Qed.

(** C5, as stated, fails: with one current entry and an empty baseline
    nothing matches, the exit code is 1 and the current-only count is
    printed, but the baseline-only count, which is zero, is not reported. *)
Lemma zero_count_not_reported :
  let out := ["Current:  cur.json"; "Baseline: base.json"; "";
              "No matching benchmark+params entries found between current and baseline.";
              "Current-only entries: 1"] in
  BenchDiff.compare Sample.B0 "cur.json" "base.json"
                    (JArr [Sample.bare_entry "Get" "a"]) (JArr []) None []
  = BenchDiff.Return 1 out
  /\ ~ (exists line, In line out /\ PyStr.contains "Baseline-only" line = true).
Proof.
  split; [vm_compute; reflexivity|].
  no_such_line.
Qed.

(** C10. The unit printed on the metric lines of a matched key is the
    text of the current entry's [scoreUnit] when that text is not empty
    and the text of the baseline entry's [scoreUnit] otherwise; a
    [scoreUnit] that is missing or null counts as the empty text, so when
    it is missing or null on both sides the unit is empty; no case
    raises.  The [scoreUnit] is read from the entry's [primaryMetric]
    when that is an object, and from an empty object otherwise.  The unit
    stands on the mean line and on every percentile line, between the
    current value and the difference.  In a comparison of one entry with
    one entry, the mean line shows the baseline's unit when the current
    entry has no [scoreUnit] or an empty one, the current entry's unit
    when it has one, and no unit when neither has. *)
Theorem unit_falls_back_to_baseline
        (B : builtins) (k : BenchDiff.EntryKey)
        (c_entry b_entry : PyDict.dict string json) :
  let c_metric := BenchDiff._get_metric c_entry in
  let b_metric := BenchDiff._get_metric b_entry in
  let unit := BenchDiff.unit_of B c_metric b_metric in
  let missing m := PyDict.get m "scoreUnit" = None
                   \/ PyDict.get m "scoreUnit" = Some JNull in
  (BenchDiff._get_unit B c_metric <> "" ->
   unit = BenchDiff._get_unit B c_metric)
  /\ (BenchDiff._get_unit B c_metric = "" ->
      unit = BenchDiff._get_unit B b_metric)
  /\ (forall m, missing m -> BenchDiff._get_unit B m = "")
  /\ (forall m v, PyDict.get m "scoreUnit" = Some v -> v <> JNull ->
                  BenchDiff._get_unit B m = Py.str B v)
  /\ (missing c_metric -> missing b_metric -> unit = "")
  /\ BenchDiff.report_key B k c_entry b_entry
     = [BenchDiff.pretty k;
        BenchDiff.mean_line unit (BenchDiff._get_score B c_metric)
                            (BenchDiff._get_score B b_metric)]
         ++ BenchDiff.percentile_lines "  p50:    " unit
              (BenchDiff._get_percentile B c_metric "50.0")
              (BenchDiff._get_percentile B b_metric "50.0")
         ++ BenchDiff.percentile_lines "  p99:    " unit
              (BenchDiff._get_percentile B c_metric "99.0")
              (BenchDiff._get_percentile B b_metric "99.0")
         ++ BenchDiff.percentile_lines "  p99.9:  " unit
              (BenchDiff._get_percentile B c_metric "99.9")
              (BenchDiff._get_percentile B b_metric "99.9")
         ++ [""]
  /\ (forall label c b,
         BenchDiff.metric_line label unit c b
         = PyStr.fstr [label; BenchDiff._fmt (Some b); " -> ";
                       BenchDiff._fmt (Some c); " "; unit; "   ";
                       BenchDiff.Delta; " "; BenchDiff._fmt_delta c b])
  /\ (forall entry m,
         PyDict.get entry "primaryMetric" = Some (JObj m) ->
         BenchDiff._get_metric entry = m)
  /\ (forall entry,
         (forall m, PyDict.get entry "primaryMetric" <> Some (JObj m)) ->
         BenchDiff._get_metric entry = [])
  /\ (forall c b,
         BenchDiff.mean_line unit (Some c) (Some b)
         = PyStr.fstr ["  mean:   "; BenchDiff._fmt (Some b); " -> ";
                       BenchDiff._fmt (Some c); " "; unit; "   ";
                       BenchDiff.Delta; " "; BenchDiff._fmt_delta c b])
  /\ (forall label c b,
         BenchDiff.percentile_lines label unit (Some c) (Some b)
         = [PyStr.fstr [label; BenchDiff._fmt (Some b); " -> ";
                        BenchDiff._fmt (Some c); " "; unit; "   ";
                        BenchDiff.Delta; " "; BenchDiff._fmt_delta c b]])
  /\ BenchDiff.compare B "cur.json" "base.json"
       (JArr [Sample.unitless_entry 10])
       (JArr [Sample.unit_entry 20 (JStr "us/op")]) None []
     = BenchDiff.Return 0
         ["Current:  cur.json"; "Baseline: base.json"; "";
          "Get";
          PyStr.fstr ["  mean:   20.000000 -> 10.000000 us/op   ";
                      BenchDiff.Delta; " -10 (-50.00%)"];
          ""]
  /\ BenchDiff.compare B "cur.json" "base.json"
       (JArr [Sample.unit_entry 10 (JStr "")])
       (JArr [Sample.unit_entry 20 (JStr "us/op")]) None []
     = BenchDiff.Return 0
         ["Current:  cur.json"; "Baseline: base.json"; "";
          "Get";
          PyStr.fstr ["  mean:   20.000000 -> 10.000000 us/op   ";
                      BenchDiff.Delta; " -10 (-50.00%)"];
          ""]
  /\ BenchDiff.compare B "cur.json" "base.json"
       (JArr [Sample.unit_entry 10 (JStr "ns/op")])
       (JArr [Sample.unit_entry 20 (JStr "us/op")]) None []
     = BenchDiff.Return 0
         ["Current:  cur.json"; "Baseline: base.json"; "";
          "Get";
          PyStr.fstr ["  mean:   20.000000 -> 10.000000 ns/op   ";
                      BenchDiff.Delta; " -10 (-50.00%)"];
          ""]
  /\ BenchDiff.compare B "cur.json" "base.json"
       (JArr [Sample.unit_entry 10 JNull])
       (JArr [Sample.unitless_entry 20]) None []
     = BenchDiff.Return 0
         ["Current:  cur.json"; "Baseline: base.json"; "";
          "Get";
          PyStr.fstr ["  mean:   20.000000 -> 10.000000    ";
                      BenchDiff.Delta; " -10 (-50.00%)"];
          ""].
Proof.
  intros c_metric b_metric unit missing.
  assert (Hmiss : forall m, missing m -> BenchDiff._get_unit B m = "").
  { intros m [E|E]; unfold BenchDiff._get_unit, Py.get_none, Py.get_default;
      now rewrite E. }
  split; [|split; [|split; [|split; [|split; [|split; [|split]]]]]].
  - intros Hne. unfold unit, BenchDiff.unit_of.
    apply truthy_nonempty in Hne. now rewrite Hne.
  - intros He. unfold unit, BenchDiff.unit_of. now rewrite He.
  - exact Hmiss.
  - intros m v E Hv. unfold BenchDiff._get_unit, Py.get_none, Py.get_default.
    rewrite E. now destruct v.
  - intros Hc Hb. unfold unit, BenchDiff.unit_of.
    now rewrite (Hmiss _ Hc), (Hmiss _ Hb).
  - reflexivity.
  - reflexivity.
  - split; [|split; [|split; [|split]]].
    + intros entry m E.
      unfold BenchDiff._get_metric, Py.get_none, Py.get_default.
      now rewrite E.
    + intros entry Hno.
      unfold BenchDiff._get_metric, Py.get_none, Py.get_default.
      destruct (PyDict.get entry "primaryMetric") as [v|]; [|reflexivity].
      destruct v; try reflexivity. now destruct (Hno l).
    + reflexivity.
    + reflexivity.
    + repeat split; vm_compute; reflexivity.
Qed.

(** ** Text forms of floats *)

Section FormatFacts.
Import PyFloat.

Lemma digit_char_is_digit (q : Z) : is_digit (digit_char (q mod 10)) = true.
Proof.
  assert (Hq : (0 <= q mod 10 < 10)%Z) by (apply Z.mod_pos_bound; lia).
  unfold digit_char, is_digit.
  assert (Hn : (Z.to_nat (q mod 10) < 10)%nat) by lia.
  revert Hn. generalize (Z.to_nat (q mod 10)). intros n Hn.
  do 10 (destruct n as [|n]; [reflexivity|]). lia.
Qed.

Lemma low_digits_length (p : nat) (q : Z) (acc : string) :
  String.length (low_digits p q acc) = (p + String.length acc)%nat.
Proof.
  revert q acc. induction p as [|p IH]; intros q acc; simpl; [reflexivity|].
  rewrite IH. simpl. lia.
Qed.

Lemma low_digits_all_digits (p : nat) (q : Z) (acc : string) :
  all_digits acc = true -> all_digits (low_digits p q acc) = true.
Proof.
  revert q acc. induction p as [|p IH]; intros q acc Hacc; simpl; [exact Hacc|].
  apply IH. cbn [all_digits]. now rewrite digit_char_is_digit.
Qed.

Lemma digits_aux_all_digits (fuel : nat) (q : Z) (acc : string) :
  all_digits acc = true -> all_digits (digits_aux fuel q acc) = true.
Proof.
  revert q acc. induction fuel as [|fuel IH]; intros q acc Hacc; simpl;
    [exact Hacc|].
  assert (Hacc' : all_digits (String (digit_char (q mod 10)) acc) = true)
    by (cbn [all_digits]; now rewrite digit_char_is_digit).
  destruct (q / 10 =? 0)%Z; [exact Hacc'|now apply IH].
Qed.

Lemma digits_aux_nonempty (fuel : nat) (q : Z) (acc : string) :
  acc <> EmptyString -> digits_aux fuel q acc <> EmptyString.
Proof.
  revert q acc. induction fuel as [|fuel IH]; intros q acc Hacc; simpl;
    [exact Hacc|].
  destruct (q / 10 =? 0)%Z; [discriminate|]. apply IH. discriminate.
Qed.

Lemma digits_all_digits (q : Z) : all_digits (digits q) = true.
Proof. now apply digits_aux_all_digits. Qed.

Lemma digits_nonempty (q : Z) : digits q <> EmptyString.
Proof.
  unfold digits. simpl. destruct (q / 10 =? 0)%Z; [discriminate|].
  apply digits_aux_nonempty. discriminate.
Qed.

Lemma digits_point_digits_app (p : nat) (seen : bool) (ip fp : string) :
  all_digits ip = true -> seen = true \/ ip <> EmptyString ->
  all_digits fp = true -> String.length fp = p ->
  digits_point_digits p seen (String.append ip (String "."%char fp)) = true.
Proof.
  intros Hip Hseen Hfp Hlen. revert seen Hip Hseen.
  induction ip as [|c ip IH]; intros seen Hip Hseen; simpl.
  - destruct Hseen as [->|Hne]; [|congruence].
    rewrite Hfp, Hlen, Nat.eqb_refl. reflexivity.
  - simpl in Hip. apply andb_true_iff in Hip. destruct Hip as [Hc Hip].
    rewrite Hc. apply IH; [exact Hip|now left].
Qed.

Lemma fixed_body_head_digit (p : nat) (n d : Z) :
  exists c rest, fixed_body (S p) n d = String c rest /\ is_digit c = true.
Proof.
  unfold fixed_body.
  set (q := (round_half_even (n * 10 ^ Z.of_nat (S p)) d
             / 10 ^ Z.of_nat (S p))%Z).
  pose proof (@digits_nonempty q) as Hne.
  pose proof (digits_all_digits q) as Hall.
  destruct (digits q) as [|c ip]; [congruence|].
  cbn [all_digits] in Hall. apply andb_true_iff in Hall.
  exists c. eexists. split; [reflexivity|tauto].
Qed.

Lemma fixed_body_shape (p : nat) (seen : bool) (n d : Z) :
  digits_point_digits (S p) seen (fixed_body (S p) n d) = true.
Proof.
  unfold fixed_body. apply digits_point_digits_app.
  - apply digits_all_digits.
  - right. apply digits_nonempty.
  - now apply low_digits_all_digits.
  - rewrite low_digits_length. simpl. lia.
Qed.

(** The fixed-point form of a finite float has exactly [p] decimals. *)
Lemma format_f_finite_decimals (plus : bool) (p : nat) (x : float) :
  is_finite x = true -> has_decimals (S p) (format_f plus (S p) x) = true.
Proof.
  assert (Hbody : forall n d s,
             has_decimals (S p)
               (String.append (sign_str plus s) (fixed_body (S p) n d)) = true).
  { intros n d s. unfold sign_str.
    destruct s; [|destruct plus]; try (simpl; apply fixed_body_shape).
    destruct (fixed_body_head_digit p n d) as [c [rest [E Hc]]].
    pose proof (fixed_body_shape p false n d) as Hs.
    rewrite E in *. simpl String.append. unfold has_decimals.
    replace (Ascii.eqb c "+" || Ascii.eqb c "-") with false; [exact Hs|].
    symmetry. apply orb_false_iff. split; apply Ascii.eqb_neq;
      intros ->; discriminate. }
  destruct x as [s|s| |s m e]; cbn [is_finite format_f]; try discriminate;
    intros _.
  - apply Hbody.
  - destruct (magnitude m e) as [n d]. apply Hbody.
Qed.

(** With [plus], every text form opens with a sign. *)
Lemma format_f_signed (p : nat) (x : float) :
  starts_with_sign (format_f true p x) = true.
Proof.
  destruct x as [[]|[]| |[] m e]; cbn [format_f]; try reflexivity;
    destruct (magnitude m e); reflexivity.
Qed.

Lemma format_g_signed (P : nat) (x : float) :
  starts_with_sign (format_g true P x) = true.
Proof.
  destruct x as [[]|[]| |[] m e]; cbn [format_g]; try reflexivity;
    destruct (magnitude m e); reflexivity.
Qed.

End FormatFacts.

(** C3 (amended). [_fmt] renders [None] and NaN as the marker ["n/a"];
    a finite value of magnitude at least 100 in fixed-point form with
    exactly 3 decimals; a finite value of smaller magnitude in fixed-point
    form with exactly 6 decimals; an infinite value as ["inf"] or
    ["-inf"].  Exactly 100.0 renders as ["100.000"] and 0.123456789 as
    ["0.123457"]. *)
Theorem fmt_decimals_by_magnitude (v : option PyFloat.float) :
  match v with
  | None => BenchDiff._fmt v = "n/a"
  | Some S754_nan => BenchDiff._fmt v = "n/a"
  | Some (S754_infinity s) => BenchDiff._fmt v = if s then "-inf" else "inf"
  | Some x =>
      if PyFloat.leb (PyFloat.of_Z 100) (PyFloat.abs x)
      then BenchDiff._fmt v = PyFloat.format_f false 3 x
           /\ PyFloat.has_decimals 3 (BenchDiff._fmt v) = true
      else BenchDiff._fmt v = PyFloat.format_f false 6 x
           /\ PyFloat.has_decimals 6 (BenchDiff._fmt v) = true
  end
  /\ BenchDiff._fmt (Some (PyFloat.of_Z 100)) = "100.000"
  /\ BenchDiff._fmt (Some (PyFloat.of_ratio 123456789 1000000000)) = "0.123457".
Proof.
  split; [|split; vm_compute; reflexivity].
  destruct v as [x|]; [|reflexivity].
  assert (Hfin : PyFloat.is_finite x = true ->
                 if PyFloat.leb (PyFloat.of_Z 100) (PyFloat.abs x)
                 then BenchDiff._fmt (Some x) = PyFloat.format_f false 3 x
                      /\ PyFloat.has_decimals 3 (BenchDiff._fmt (Some x)) = true
                 else BenchDiff._fmt (Some x) = PyFloat.format_f false 6 x
                      /\ PyFloat.has_decimals 6 (BenchDiff._fmt (Some x)) = true).
  { intros Hx. unfold BenchDiff._fmt.
    replace (PyFloat.isnan x) with false by (now destruct x).
    destruct (PyFloat.leb (PyFloat.of_Z 100) (PyFloat.abs x));
      (split; [reflexivity|now apply format_f_finite_decimals]). }
  destruct x as [s|s| |s m e].
  - now apply Hfin.
  - destruct s; vm_compute; reflexivity.
  - reflexivity.
  - now apply Hfin.
Qed.

(** C3, as stated, fails on an infinite value: its magnitude is at least
    100 and it renders as ["inf"], without decimals. *)
Lemma fmt_infinity_without_decimals :
  PyFloat.leb (PyFloat.of_Z 100) (PyFloat.abs PyFloat.inf) = true
  /\ PyFloat.isnan PyFloat.inf = false
  /\ BenchDiff._fmt (Some PyFloat.inf) = "inf"
  /\ PyFloat.has_decimals 3 (BenchDiff._fmt (Some PyFloat.inf)) = false.
Proof. repeat split; vm_compute; reflexivity. Qed.

(** C2 (amended). For two values, the delta is [current - baseline],
    shown in general form with six significant digits and an explicit
    sign.  If the baseline is zero the delta is all that is shown.
    Otherwise the percentage [(delta / baseline) * 100] follows in
    brackets with an explicit sign: with exactly two decimals when it is
    finite, and as ["+inf"], ["-inf"] or ["+nan"] when it is not.  For
    baseline 0 and current 5 the text is ["+5"]. *)
Theorem fmt_delta_sign_and_percentage (current baseline : PyFloat.float) :
  let delta := PyFloat.sub current baseline in
  let pct := PyFloat.mul (PyFloat.div delta baseline) (PyFloat.of_Z 100) in
  (if PyFloat.eqb baseline PyFloat.zero
   then BenchDiff._fmt_delta current baseline = PyFloat.format_g true 6 delta
   else BenchDiff._fmt_delta current baseline
        = PyStr.fstr [PyFloat.format_g true 6 delta; " (";
                      PyFloat.format_f true 2 pct; "%)"])
  /\ PyFloat.starts_with_sign (PyFloat.format_g true 6 delta) = true
  /\ PyFloat.starts_with_sign (PyFloat.format_f true 2 pct) = true
  /\ (if PyFloat.is_finite pct
      then PyFloat.has_decimals 2 (PyFloat.format_f true 2 pct) = true
      else In (PyFloat.format_f true 2 pct) ["+inf"; "-inf"; "+nan"])
  /\ BenchDiff._fmt_delta (PyFloat.of_Z 5) (PyFloat.of_Z 0) = "+5".
Proof.
  intros delta pct. repeat split.
  - unfold BenchDiff._fmt_delta. fold delta. fold pct.
    now destruct (PyFloat.eqb baseline PyFloat.zero).
  - apply format_g_signed.
  - apply format_f_signed.
  - destruct (PyFloat.is_finite pct) eqn:E.
    + now apply format_f_finite_decimals.
    + destruct pct as [s|[]| |s m e]; try discriminate; simpl; tauto.
Qed.

(** C2, as stated, fails when the percentage overflows: for current
    [2^1000] and baseline [2^-100] the delta is finite and the percentage
    is shown as ["+inf"], without decimals. *)
Lemma fmt_delta_percentage_overflow :
  BenchDiff._fmt_delta (PyFloat.of_Z (2 ^ 1000)) (PyFloat.of_ratio 1 (2 ^ 100))
  = "+1.07151e+301 (+inf%)"
  /\ PyFloat.eqb (PyFloat.of_ratio 1 (2 ^ 100)) PyFloat.zero = false
  /\ PyFloat.has_decimals 2 "+inf" = false.
Proof. repeat split; vm_compute; reflexivity. Qed.

(** ** The table *)

Section TableFacts.
Import BenchTable.
Variable B : builtins.

Lemma or_empty_dict (v : json) :
  dict_or_false v = true -> exists d, or_empty v = JObj d.
Proof.
  unfold or_empty. destruct v; simpl; intros Hv;
    try (rewrite (proj1 (negb_true_iff _) Hv); eexists; reflexivity).
  - eexists. reflexivity.
  - destruct l; eexists; reflexivity.
Qed.

Lemma row_of_entry_ok (entry : json) :
  entry_ok entry = true ->
  exists r, row_of_entry entry = Ok r /\ has_str_key r = true.
Proof.
  destruct entry as [| | | | | |d]; try discriminate.
  unfold entry_ok, sub_dict. rewrite !andb_true_iff.
  intros [[[[Hb Hp] Hi] Hm] Hs].
  unfold row_of_entry. cbn [the_dict bind].
  destruct (or_empty_dict Hp) as [ps Eps]. rewrite Eps in *.
  cbn [the_dict bind].
  destruct (or_empty_dict Hm) as [m Em]. rewrite Em in *.
  cbn [the_dict bind].
  destruct (or_empty_dict Hs) as [pc Epc]. rewrite Epc.
  cbn [the_dict bind].
  eexists. split; [reflexivity|].
  unfold has_str_key, str_key. cbn [full Impl].
  destruct (Py.get_default d "benchmark" (JStr "")); try discriminate.
  destruct (Py.get_default ps "implementation" (JStr "")); try discriminate.
  reflexivity.
Qed.

Lemma the_dict_raises (v : json) (e : exn) :
  the_dict v = Raise e -> e = AttributeError.
Proof. destruct v; simpl; congruence. Qed.

Lemma row_of_entry_raises (entry : json) (e : exn) :
  row_of_entry entry = Raise e -> e = AttributeError.
Proof.
  unfold row_of_entry.
  destruct (the_dict entry) as [d|x] eqn:E1; cbn [bind];
    [|intros [= <-]; eapply the_dict_raises; eassumption].
  destruct (the_dict (or_empty (Py.get_none d "params"))) as [ps|x] eqn:E2;
    cbn [bind]; [|intros [= <-]; eapply the_dict_raises; eassumption].
  destruct (the_dict (or_empty (Py.get_none d "primaryMetric"))) as [m|x] eqn:E3;
    cbn [bind]; [|intros [= <-]; eapply the_dict_raises; eassumption].
  destruct (the_dict (or_empty (Py.get_none m "scorePercentiles"))) as [pc|x] eqn:E4;
    cbn [bind]; [|intros [= <-]; eapply the_dict_raises; eassumption].
  discriminate.
Qed.

Lemma rows_of_entries_ok (entries : list json) :
  forallb entry_ok entries = true ->
  exists rows, mapM row_of_entry entries = Ok rows
               /\ forallb has_str_key rows = true.
Proof.
  induction entries as [|e entries IH]; cbn [forallb mapM].
  - intros _. exists []. split; reflexivity.
  - rewrite andb_true_iff. intros [He Hes].
    destruct (row_of_entry_ok He) as [r [Er Hr]].
    destruct (IH Hes) as [rows [Erows Hrows]].
    exists (r :: rows). rewrite Er, Erows. cbn [bind forallb].
    now rewrite Hr, Hrows.
Qed.

Lemma rows_of_entries_raise (entries : list json) (e : json) :
  In e entries -> entry_is_dict e = false ->
  mapM row_of_entry entries = Raise AttributeError.
Proof.
  intros Hin He. induction entries as [|e0 entries IH]; [destruct Hin|].
  cbn [mapM].
  destruct (row_of_entry e0) as [r|x] eqn:E0; cbn [bind].
  - destruct Hin as [->|Hin].
    + destruct e; try discriminate He; discriminate E0.
    + now rewrite (IH Hin).
  - now rewrite (row_of_entry_raises E0).
Qed.

Lemma sort_rows_str (rows : list row) :
  forallb has_str_key rows = true ->
  sort_rows B rows = Ok (PyOrd.sorted sort_key rows).
Proof.
  intros Hrows. unfold sort_rows. rewrite Hrows.
  destruct rows as [|r [|r' rows]]; reflexivity.
Qed.

Lemma groupby_concat (eqb : json -> json -> bool) (rows : list row) :
  List.concat (map snd (groupby eqb rows)) = rows.
Proof.
  induction rows as [|r rows IH]; cbn [groupby]; [reflexivity|].
  destruct (groupby eqb rows) as [|[k g] gs].
  - simpl in IH. subst rows. reflexivity.
  - destruct (eqb (full r) k); simpl in *; now rewrite IH.
Qed.

Lemma groupby_names (rows : list row) :
  forallb has_str_key rows = true ->
  Forall (fun kg => is_str (fst kg) = true
                    /\ snd kg <> []
                    /\ Forall (fun r => full r = fst kg) (snd kg))
         (groupby (key_eqb B) rows).
Proof.
  induction rows as [|r rows IH]; cbn [groupby forallb]; [constructor|].
  rewrite andb_true_iff. intros [Hr Hrows]. specialize (IH Hrows).
  assert (Hfull : is_str (full r) = true).
  { unfold has_str_key, str_key in Hr. now destruct (full r). }
  destruct (groupby (key_eqb B) rows) as [|[k g] gs].
  - repeat constructor; [exact Hfull|discriminate].
  - inversion IH as [|? ? [Hk [Hg Hall]] Hgs]; subst. cbn [fst snd] in *.
    destruct (key_eqb B (full r) k) eqn:E.
    + constructor; [|exact Hgs]. cbn [fst snd].
      split; [exact Hfull|]. split; [discriminate|].
      constructor; [reflexivity|].
      assert (Ek : k = full r).
      { unfold key_eqb in E. destruct (full r); try discriminate.
        destruct k; try discriminate. apply String.eqb_eq in E. now subst. }
      now rewrite <- Ek.
    + constructor; [|exact IH]. cbn [fst snd].
      split; [exact Hfull|]. split; [discriminate|]. now repeat constructor.
Qed.

Lemma render_group_ok (k : json) (g : list row) :
  is_str k = true -> g <> [] -> exists text, _render_group B k g = Ok text.
Proof.
  intros Hk Hg. unfold _render_group.
  destruct g as [|r g]; [congruence|].
  destruct k; try discriminate. eexists. reflexivity.
Qed.

(** The text of a group: its title, the header, the dashes and one line
    for each row. *)
Lemma render_group_lines (title : string) (g : list row) :
  g <> [] ->
  exists header dashes lines,
    _render_group B (JStr title) g
    = Ok (PyStr.join PyStr.nl (title :: header :: dashes :: lines))
    /\ List.length lines = List.length g.
Proof.
  intros Hg. unfold _render_group. destruct g as [|r g]; [congruence|].
  do 3 eexists. split; [reflexivity|]. now rewrite length_map.
Qed.

Lemma mapM_each {A C} (f : A -> result C) (l : list A) (cs : list C) :
  mapM f l = Ok cs -> Forall2 (fun a c => f a = Ok c) l cs.
Proof.
  revert cs. induction l as [|a l IH]; cbn [mapM]; intros cs.
  - intros [= <-]. constructor.
  - destruct (f a) as [c|x] eqn:Ea; cbn [bind]; [|discriminate].
    destruct (mapM f l) as [cs'|x] eqn:El; cbn [bind]; [|discriminate].
    intros [= <-]. constructor; [exact Ea|now apply IH].
Qed.

Lemma render_groups_ok (gs : list (json * list row)) :
  Forall (fun kg => is_str (fst kg) = true /\ snd kg <> []) gs ->
  exists out, mapM (fun fg => _render_group B (fst fg) (snd fg)) gs = Ok out.
Proof.
  induction 1 as [|kg gs [Hk Hg] Hgs IH]; cbn [mapM].
  - eexists. reflexivity.
  - destruct (render_group_ok Hk Hg) as [text ->].
    destruct IH as [out ->]. eexists. reflexivity.
Qed.

End TableFacts.

Section GroupFacts.
Import BenchTable.
Variable B : builtins.

Lemma str_key_full (r : row) :
  has_str_key r = true -> full r = JStr (fst (sort_key r)).
Proof.
  unfold has_str_key, sort_key, str_key.
  destruct (full r); try discriminate. destruct (Impl r); try discriminate.
  reflexivity.
Qed.

Lemma pair_cmp_fst_le (a a' b b' : string) :
  cmp (a, b) (a', b') <> Gt -> cmp a a' <> Gt.
Proof.
  unfold cmp at 1, pair_Ord, PyOrd.pair_cmp. simpl.
  destruct (cmp a a'); congruence.
Qed.

Lemma pair_cmp_snd_le (a b b' : string) :
  cmp (a, b) (a, b') <> Gt -> cmp b b' <> Gt.
Proof.
  unfold cmp at 1, pair_Ord, PyOrd.pair_cmp. simpl.
  now rewrite cmp_refl.
Qed.

Lemma StronglySorted_app_inv {A} (R : A -> A -> Prop) (l1 l2 : list A) :
  StronglySorted R (l1 ++ l2) -> StronglySorted R l1 /\ StronglySorted R l2.
Proof.
  induction l1 as [|x l1 IH]; simpl; intros H.
  - split; [constructor|exact H].
  - inversion H as [|? ? Hs Hf]; subst. destruct (IH Hs) as [H1 H2].
    split; [|exact H2]. constructor; [exact H1|].
    apply Forall_app in Hf. tauto.
Qed.

Lemma StronglySorted_weaken {A} (R R' : A -> A -> Prop) (l : list A) :
  (forall x y, In x l -> In y l -> R x y -> R' x y) ->
  StronglySorted R l -> StronglySorted R' l.
Proof.
  intros HR H. induction H as [|x l Hs IH Hf]; constructor.
  - apply IH. intros y z Hy Hz. apply HR; now right.
  - rewrite Forall_forall in *. intros y Hy.
    apply HR; [now left|now right|now apply Hf].
Qed.

(** Every group holds rows of the input. *)
Lemma groupby_incl (eqb : json -> json -> bool) (rows : list row) kg r :
  In kg (groupby eqb rows) -> In r (snd kg) -> In r rows.
Proof.
  intros Hkg Hr. rewrite <- (groupby_concat eqb rows).
  apply in_concat. exists (snd kg). split; [now apply in_map|exact Hr].
Qed.

(** The name of a group is the name of one of the rows. *)
Lemma group_name_of_row (rows : list row) kg :
  forallb has_str_key rows = true ->
  In kg (groupby (key_eqb B) rows) ->
  exists r, In r rows /\ group_name kg = fst (sort_key r).
Proof.
  intros Hrows Hkg.
  pose proof (groupby_names B Hrows) as Hn.
  rewrite Forall_forall in Hn. destruct (Hn kg Hkg) as [_ [Hne Hall]].
  destruct (snd kg) as [|r g] eqn:E; [congruence|].
  inversion Hall as [|? ? Hr _]; subst.
  assert (Hin : In r rows)
    by (eapply groupby_incl; [exact Hkg|rewrite E; now left]).
  exists r. split; [exact Hin|].
  rewrite forallb_forall in Hrows.
  unfold group_name. rewrite <- Hr, (str_key_full (Hrows r Hin)). reflexivity.
Qed.

Lemma groupby_names_ascending (rows : list row) :
  forallb has_str_key rows = true ->
  PyOrd.ascending sort_key rows ->
  PyOrd.strictly_ascending group_name (groupby (key_eqb B) rows).
Proof.
  unfold PyOrd.ascending, PyOrd.strictly_ascending.
  intros Hrows Hs. induction Hs as [|r rows Hs IH Hf]; [constructor|].
  cbn [forallb] in Hrows. apply andb_true_iff in Hrows.
  destruct Hrows as [Hr Hrows]. specialize (IH Hrows).
  assert (Hle : forall kg, In kg (groupby (key_eqb B) rows) ->
                           cmp (fst (sort_key r)) (group_name kg) <> Gt).
  { intros kg Hkg.
    destruct (group_name_of_row Hrows Hkg) as [r' [Hin ->]].
    rewrite Forall_forall in Hf. specialize (Hf r' Hin).
    destruct (sort_key r), (sort_key r'). simpl.
    eapply pair_cmp_fst_le. exact Hf. }
  cbn [groupby].
  destruct (groupby (key_eqb B) rows) as [|[k g] gs] eqn:E.
  - repeat constructor.
  - inversion IH as [|? ? Hgs Hk]; subst.
    assert (Hfull := str_key_full Hr).
    destruct (key_eqb B (full r) k) eqn:Ek.
    + constructor; [exact Hgs|].
      assert (Hsame : full r = k).
      { unfold key_eqb in Ek. rewrite Hfull in *.
        destruct k; try discriminate. apply String.eqb_eq in Ek. now subst. }
      unfold group_name in *. cbn [fst] in *. now rewrite Hsame.
    + assert (Hlt : cmp (fst (sort_key r)) (group_name (k, g)) = Lt).
      { specialize (Hle (k, g) (or_introl eq_refl)).
        destruct (cmp (fst (sort_key r)) (group_name (k, g))) eqn:Ec;
          [|reflexivity|congruence].
        apply cmp_eq in Ec. exfalso.
        pose proof (groupby_names B Hrows) as Hn. rewrite E in Hn.
        inversion Hn as [|? ? [Hstr _] _]; subst. cbn [fst] in Hstr.
        unfold key_eqb in Ek. rewrite Hfull in Ek.
        unfold group_name in Ec. cbn [fst] in Ec.
        destruct k; try discriminate. subst.
        now rewrite String.eqb_refl in Ek. }
      assert (Hname : group_name (full r, [r]) = fst (sort_key r))
        by (unfold group_name; cbn [fst]; now rewrite Hfull).
      constructor; [exact IH|].
      rewrite Forall_forall. intros kg Hkg. rewrite Hname.
      destruct Hkg as [<-|Hkg]; [exact Hlt|].
      eapply cmp_trans; [exact Hlt|].
      rewrite Forall_forall in Hk. now apply Hk.
Qed.

Lemma groups_ascending_by_label (rows : list row) :
  forallb has_str_key rows = true ->
  PyOrd.ascending sort_key rows ->
  Forall (fun kg => PyOrd.ascending impl_label (snd kg))
         (groupby (key_eqb B) rows).
Proof.
  intros Hrows Hs.
  pose proof (groupby_names B Hrows) as Hn.
  assert (Hseg : Forall (fun kg => PyOrd.ascending sort_key (snd kg))
                        (groupby (key_eqb B) rows)).
  { assert (Hgen : forall gs : list (json * list row),
               PyOrd.ascending sort_key (List.concat (map snd gs)) ->
               Forall (fun kg => PyOrd.ascending sort_key (snd kg)) gs).
    { induction gs as [|kg gs IH]; simpl; intros Hgs; [constructor|].
      apply StronglySorted_app_inv in Hgs. destruct Hgs as [H1 H2].
      constructor; [exact H1|now apply IH]. }
    apply Hgen. now rewrite groupby_concat. }
  rewrite Forall_forall in *. intros kg Hkg.
  destruct (Hn kg Hkg) as [_ [_ Hall]]. rewrite Forall_forall in Hall.
  eapply StronglySorted_weaken; [|exact (Hseg kg Hkg)].
  intros x y Hx Hy Hxy. simpl in Hxy. unfold impl_label.
  assert (Hx' : has_str_key x = true).
  { rewrite forallb_forall in Hrows. apply Hrows.
    eapply groupby_incl; eassumption. }
  assert (Hy' : has_str_key y = true).
  { rewrite forallb_forall in Hrows. apply Hrows.
    eapply groupby_incl; eassumption. }
  assert (Hf : fst (sort_key x) = fst (sort_key y)).
  { pose proof (Hall x Hx) as Ex. pose proof (Hall y Hy) as Ey.
    rewrite (str_key_full Hx') in Ex. rewrite (str_key_full Hy') in Ey.
    congruence. }
  destruct (sort_key x) as [fx ix], (sort_key y) as [fy iy]. simpl in *.
  subst fy. eapply pair_cmp_snd_le. exact Hxy.
Qed.

End GroupFacts.

(** C9. The table tool sorts the rows by the pair (benchmark identifier,
    implementation label), both strings, and cuts the sorted rows into
    groups of consecutive rows with the same benchmark identifier: the
    sorted rows are a rearrangement of the rows, ascending by that pair;
    the groups, one after the other, are the sorted rows; every group is
    non-empty, holds rows of one benchmark identifier and is ascending by
    implementation label; the names of the groups are strictly ascending,
    so no two groups share a benchmark identifier.  For the entries A/x,
    A/y and B the groups are "A" with the rows x and y and "B" with one
    row, and the printed table has these two groups.  The text of a
    group has its title, a header, a row of dashes and one line for each
    of its rows.  The table that [main] prints for the entries of these
    rows is made of the texts of these groups of the sorted rows, in
    their order, each followed by an empty line, with the whitespace at
    the end removed; so the entries B/z, A/y and A/x, given in this
    order, print the same table as A/x, A/y and B/z. *)
Theorem table_sorted_and_grouped (B : builtins) (rows : list row) :
  forallb BenchTable.has_str_key rows = true ->
  let sorted_rows := PyOrd.sorted BenchTable.sort_key rows in
  let groups := BenchTable.groupby (BenchTable.key_eqb B) sorted_rows in
  BenchTable.sort_rows B rows = BenchTable.Ok sorted_rows
  /\ Permutation sorted_rows rows
  /\ PyOrd.ascending BenchTable.sort_key sorted_rows
  /\ List.concat (map snd groups) = sorted_rows
  /\ Forall (fun g => snd g <> []
                      /\ Forall (fun r => full r = fst g) (snd g)
                      /\ PyOrd.ascending BenchTable.impl_label (snd g))
            groups
  /\ PyOrd.strictly_ascending BenchTable.group_name groups
  /\ (forall rb label,
         full rb = JStr "B" -> Impl rb = JStr label ->
         BenchTable.groupby (BenchTable.key_eqb B)
           (PyOrd.sorted BenchTable.sort_key
              [Sample.bare_row "A" "x"; Sample.bare_row "A" "y"; rb])
         = [(JStr "A", [Sample.bare_row "A" "x"; Sample.bare_row "A" "y"]);
            (JStr "B", [rb])])
  /\ BenchTable.main B
       (Some (JArr [Sample.bare_entry "A" "x"; Sample.bare_entry "A" "y";
                    Sample.bare_entry "B" "z"]))
     = BenchTable.Ok (PyStr.join PyStr.nl Sample.two_groups)
  /\ (forall title g,
         g <> [] ->
         exists header dashes lines,
           BenchTable._render_group B (JStr title) g
           = BenchTable.Ok
               (PyStr.join PyStr.nl (title :: header :: dashes :: lines))
           /\ List.length lines = List.length g)
  /\ (forall entries,
         BenchTable.mapM BenchTable.row_of_entry entries = BenchTable.Ok rows ->
         exists out,
           Forall2 (fun g text =>
                      BenchTable._render_group B (fst g) (snd g)
                      = BenchTable.Ok text)
                   groups out
           /\ BenchTable.main B (Some (JArr entries))
              = BenchTable.Ok
                  (PyStr.rstrip
                     (PyStr.join PyStr.nl
                        (flat_map (fun s => [s; ""]) out))))
  /\ BenchTable.main B
       (Some (JArr [Sample.bare_entry "B" "z"; Sample.bare_entry "A" "y";
                    Sample.bare_entry "A" "x"]))
     = BenchTable.Ok (PyStr.join PyStr.nl Sample.two_groups).
Proof.
  intros Hrows sorted_rows groups.
  assert (Hperm : Permutation sorted_rows rows) by apply sorted_perm.
  assert (Hasc : PyOrd.ascending BenchTable.sort_key sorted_rows)
    by apply sorted_ascending.
  assert (Hstr : forallb BenchTable.has_str_key sorted_rows = true).
  { rewrite forallb_forall in *. intros r Hr. apply Hrows.
    eapply Permutation_in; eassumption. }
  split; [now apply sort_rows_str|].
  split; [exact Hperm|]. split; [exact Hasc|].
  split; [apply groupby_concat|].
  split; [|split; [now apply groupby_names_ascending|split]].
  - pose proof (groupby_names B Hstr) as Hn.
    pose proof (groups_ascending_by_label B Hstr Hasc) as Hl.
    fold groups in Hn, Hl. rewrite Forall_forall in *.
    intros g Hg. destruct (Hn g Hg) as [_ [H1 H2]].
    split; [exact H1|]. split; [exact H2|now apply Hl].
  - intros [f i m q1 q2 q3 u] label. simpl. intros -> ->. reflexivity.
  - split; [vm_compute; reflexivity|].
    split; [intros title g Hg; now apply render_group_lines|].
    split; [|vm_compute; reflexivity].
    intros entries Hentries.
    destruct (@render_groups_ok B groups) as [out Hout].
    { eapply Forall_impl; [|exact (groupby_names B Hstr)].
      intros g [H1 [H2 _]]. split; assumption. }
    exists out. split; [exact (mapM_each Hout)|].
    unfold BenchTable.main. cbn [BenchTable.iterate BenchTable.bind].
    rewrite Hentries. cbn [BenchTable.bind].
    rewrite (sort_rows_str B Hrows). cbn [BenchTable.bind].
    fold sorted_rows. fold groups. rewrite Hout. reflexivity.
Qed.

Lemma table_sorted_and_grouped_witness :
  BenchTable.sort_rows Sample.B0
    [Sample.bare_row "B" "z"; Sample.bare_row "A" "y"; Sample.bare_row "A" "x"]
  = BenchTable.Ok
      (PyOrd.sorted BenchTable.sort_key
         [Sample.bare_row "B" "z"; Sample.bare_row "A" "y";
          Sample.bare_row "A" "x"]).
Proof.
  refine (proj1 (@table_sorted_and_grouped Sample.B0
                   [Sample.bare_row "B" "z"; Sample.bare_row "A" "y";
                    Sample.bare_row "A" "x"] _)).
  reflexivity.
Defined.

(** C6 (amended). The table tool has no check of its input.  It exits
    with code 0 for every input that parses as a JSON array of objects in
    which the benchmark name and the implementation label are strings (or
    absent) and [params], [primaryMetric] and [scorePercentiles] are
    objects (or absent, null or otherwise false).  An input that cannot be
    parsed as JSON ends in an uncaught exception, and so do an array with
    an entry that is not an object and a top-level null, boolean or
    number: the exit code is 1 and the tool prints no diagnostic of its
    own. *)
Theorem table_exit_code (B : builtins) :
  BenchTable.main B None = BenchTable.Raise BenchTable.JSONDecodeError
  /\ (forall entries,
         forallb BenchTable.entry_ok entries = true ->
         exists text,
           BenchTable.main B (Some (JArr entries)) = BenchTable.Ok text
           /\ BenchTable.exit_code (BenchTable.main B (Some (JArr entries)))
              = 0%Z)
  /\ (forall entries e,
         In e entries -> BenchTable.entry_is_dict e = false ->
         BenchTable.main B (Some (JArr entries))
         = BenchTable.Raise BenchTable.AttributeError)
  /\ (forall data,
         match data with
         | JNull | JBool _ | JInt _ | JFloat _ =>
             BenchTable.main B (Some data)
             = BenchTable.Raise BenchTable.TypeError
         | _ => True
         end)
  /\ (forall e : BenchTable.exn,
         BenchTable.exit_code (@BenchTable.Raise string e) = 1%Z).
Proof.
  split; [reflexivity|]. split; [|split; [|split]].
  - intros entries Hok. unfold BenchTable.main.
    cbn [BenchTable.iterate BenchTable.bind].
    destruct (rows_of_entries_ok Hok) as [rows [-> Hrows]].
    cbn [BenchTable.bind].
    rewrite (sort_rows_str B Hrows). cbn [BenchTable.bind].
    assert (Hstr : forallb BenchTable.has_str_key
                     (PyOrd.sorted BenchTable.sort_key rows) = true).
    { rewrite forallb_forall in *. intros r Hr. apply Hrows.
      eapply Permutation_in; [|exact Hr].
      apply (@sorted_perm row (string * string) _ BenchTable.sort_key rows). }
    pose proof (groupby_names B Hstr) as Hn.
    destruct (@render_groups_ok B
                (BenchTable.groupby (BenchTable.key_eqb B)
                   (PyOrd.sorted BenchTable.sort_key rows))) as [out Hout].
    { eapply Forall_impl; [|exact Hn].
      intros g [H1 [H2 _]]. split; assumption. }
    rewrite Hout. cbn [BenchTable.bind BenchTable.exit_code].
    eexists. split; reflexivity.
  - intros entries e Hin He. unfold BenchTable.main.
    cbn [BenchTable.iterate BenchTable.bind].
    now rewrite (rows_of_entries_raise Hin He).
  - intros data. destruct data; exact I || reflexivity.
  - reflexivity.
Qed.

Lemma table_exit_code_witness :
  exists text,
    BenchTable.main Sample.B0
      (Some (JArr [Sample.get_entry 10 9; Sample.bare_entry "A" "x"]))
    = BenchTable.Ok text
    /\ BenchTable.exit_code
         (BenchTable.main Sample.B0
            (Some (JArr [Sample.get_entry 10 9; Sample.bare_entry "A" "x"])))
       = 0%Z.
Proof.
  apply (proj1 (proj2 (table_exit_code Sample.B0))
           [Sample.get_entry 10 9; Sample.bare_entry "A" "x"]).
  reflexivity.
Defined.

(** C6, as stated, fails: the array [[1]] parses as JSON, and the table
    tool ends in an uncaught [AttributeError] with exit code 1; the empty
    object is not an array, and the tool prints an empty table and exits
    with code 0. *)
Lemma table_raises_on_parsed_json :
  BenchTable.main Sample.B0 (Some (JArr [JInt 1]))
  = BenchTable.Raise BenchTable.AttributeError
  /\ BenchTable.exit_code (BenchTable.main Sample.B0 (Some (JArr [JInt 1])))
     = 1%Z
  /\ BenchTable.main Sample.B0 (Some (JObj [])) = BenchTable.Ok "".
Proof. repeat split. Qed.

(** ** The end-to-end scenario of the specification *)

(** Current and baseline hold the entry ["Get"] with percentiles 15 (p99)
    and 20 (p99.9); the current score is 10 with median 9, the baseline
    score is 20 with median 18.  The mean line reads
    [20.000000 -> 10.000000 us/op   Delta -10 (-50.00%)] and the exit code
    is 0. *)
Example end_to_end_scenario :
  BenchDiff.compare Sample.B0 "cur.json" "base.json"
                    (JArr [Sample.get_entry 10 9])
                    (JArr [Sample.get_entry 20 18]) None []
  = BenchDiff.Return 0
      ["Current:  cur.json"; "Baseline: base.json"; "";
       "Get";
       PyStr.fstr ["  mean:   20.000000 -> 10.000000 us/op   ";
                   BenchDiff.Delta; " -10 (-50.00%)"];
       PyStr.fstr ["  p50:    18.000000 -> 9.000000 us/op   ";
                   BenchDiff.Delta; " -9 (-50.00%)"];
       PyStr.fstr ["  p99:    15.000000 -> 15.000000 us/op   ";
                   BenchDiff.Delta; " +0 (+0.00%)"];
       PyStr.fstr ["  p99.9:  20.000000 -> 20.000000 us/op   ";
                   BenchDiff.Delta; " +0 (+0.00%)"];
       ""].
Proof. vm_compute. reflexivity. Qed.

(* ================================================================= *)
(** * Further properties of the two scripts *)

(** ** More on dictionaries *)

Section MoreDictFacts.
Context {K V : Type} `{EqDec K}.
Implicit Types (d : PyDict.dict K V) (k : K) (v : V).

Lemma kept_iff (ks : list K) (kv : K * V) :
  kept ks kv = true <-> ~ In (fst kv) ks.
Proof.
  unfold kept. destruct (in_dec eq_dec (fst kv) ks); split; try tauto;
    discriminate.
Qed.

Lemma filter_filter {A} (f g : A -> bool) (l : list A) :
  filter f (filter g l) = filter (fun x => g x && f x) l.
Proof.
  induction l as [|x l IH]; simpl; [reflexivity|].
  destruct (g x); simpl; [destruct (f x)|]; now rewrite IH.
Qed.

(** Popping a list of keys keeps the items whose key is not in the list. *)
Lemma pops_filter (ks : list K) d :
  PyDict.wf d ->
  fold_left (fun ps p => PyDict.pop ps p) ks d = filter (kept ks) d.
Proof.
  revert d. induction ks as [|k ks IH]; intros d Hwf; cbn [fold_left].
  - symmetry. apply forallb_filter_id. apply forallb_forall.
    intros kv _. now apply kept_iff.
  - rewrite IH by (rewrite pop_filter by assumption; now apply filter_wf).
    rewrite pop_filter by assumption. rewrite filter_filter.
    apply filter_ext. intros kv.
    destruct (eq_dec k (fst kv)) as [E|Hk]; cbn [andb]; symmetry.
    + apply not_true_iff_false. rewrite kept_iff.
      intros Hn. apply Hn. now left.
    + destruct (kept ks kv) eqn:E1.
      * apply kept_iff. apply kept_iff in E1.
        intros [E|Hin]; [now apply Hk|now apply E1].
      * apply not_true_iff_false. apply not_true_iff_false in E1.
        rewrite kept_iff in *. intros Hn. apply E1.
        intros Hin. apply Hn. now right.
Qed.

Lemma in_get d k v : PyDict.wf d -> (In (k, v) d <-> PyDict.get d k = Some v).
Proof.
  unfold PyDict.wf, PyDict.keys.
  induction d as [|[k0 v0] d IH]; simpl; intros Hwf.
  - split; [tauto|discriminate].
  - inversion Hwf as [|? ? Hn Hwf']; subst.
    destruct (eq_dec k k0) as [->|Hk].
    + split.
      * intros [E|Hin]; [congruence|].
        exfalso. apply Hn. change k0 with (fst (k0, v)). now apply in_map.
      * intros [= ->]. now left.
    + rewrite <- (IH Hwf'). split; [|now right].
      intros [E|Hin]; [congruence|exact Hin].
Qed.

Lemma get_map_values {W} (g : V -> W) d k :
  PyDict.get (map (fun kv => (fst kv, g (snd kv))) d) k
  = option_map g (PyDict.get d k).
Proof.
  induction d as [|[k0 v0] d IH]; simpl; [reflexivity|].
  destruct (eq_dec k k0); [reflexivity|exact IH].
Qed.

Lemma filter_set_ignored (f : K * V -> bool) d k v :
  (forall w, f (k, w) = false) ->
  filter f (PyDict.set d k v) = filter f d.
Proof.
  intros Hf. induction d as [|[k0 v0] d IH]; simpl.
  - now rewrite Hf.
  - destruct (eq_dec k k0) as [->|Hk]; simpl.
    + now rewrite !Hf.
    + now rewrite IH.
Qed.
End MoreDictFacts.

(** ** More on canonical keys *)

Section MoreKeyFacts.
Variable B : builtins.

(** The parameters of a key, before sorting. *)
Lemma key_params_sorted (entry : PyDict.dict string json)
      (ignore_params : list string) :
  BenchDiff.params (BenchDiff._key_for_entry B entry ignore_params)
  = PyOrd.sorted fst
      (filter (kept ignore_params)
         (BenchDiff._as_str_map B (Py.get_default entry "params" (JObj [])))).
Proof.
  unfold BenchDiff._key_for_entry. cbn [BenchDiff.params].
  unfold PyDict.items. now rewrite pops_filter by apply as_str_map_wf.
Qed.

Lemma kept_params_wf (obj : json) (ignore_params : list string) :
  NoDup (map fst (filter (kept ignore_params) (BenchDiff._as_str_map B obj))).
Proof. apply (filter_wf _ (as_str_map_wf B obj)). Qed.
End MoreKeyFacts.

(** X1. [_as_str_map] of a dict with pairwise distinct names looks up, for
    every name, the text of the value the dict holds for it, and keeps the
    names in their order; its result always has pairwise distinct names. *)
Theorem as_str_map_lookup (B : builtins) (d : list (string * json)) :
  NoDup (map fst d) ->
  (forall k, PyDict.get (BenchDiff._as_str_map B (JObj d)) k
             = option_map (Py.str B) (PyDict.get d k))
  /\ PyDict.keys (BenchDiff._as_str_map B (JObj d)) = PyDict.keys d
  /\ PyDict.wf (BenchDiff._as_str_map B (JObj d)).
Proof.
  intros Hnd. rewrite (as_str_map_items B Hnd). repeat split.
  - intros k. apply get_map_values.
  - unfold PyDict.keys. rewrite map_map. reflexivity.
  - unfold PyDict.wf, PyDict.keys. rewrite map_map. exact Hnd.
Qed.

Lemma as_str_map_lookup_witness :
  PyDict.get (BenchDiff._as_str_map Sample.B0
                (JObj [("threads", JInt 4); ("tls", JBool true)])) "tls"
  = option_map (Py.str Sample.B0)
      (PyDict.get [("threads", JInt 4); ("tls", JBool true)] "tls").
Proof.
  refine (proj1 (@as_str_map_lookup Sample.B0
                   [("threads", JInt 4); ("tls", JBool true)] _) "tls").
  repeat constructor; simpl; intuition discriminate.
Defined.

(** X2. The parameters of a canonical key are exactly the parameters of
    the entry, as texts, whose name is not in the ignore-list: an ignored
    name never appears in a key, and no other parameter is lost. *)
Theorem key_params_are_kept_params
        (B : builtins) (entry : PyDict.dict string json)
        (ignore_params : list string) (name value : string) :
  In (name, value)
     (BenchDiff.params (BenchDiff._key_for_entry B entry ignore_params))
  <-> ~ In name ignore_params
      /\ PyDict.get (BenchDiff._as_str_map B
                       (Py.get_default entry "params" (JObj []))) name
         = Some value.
Proof.
  rewrite key_params_sorted.
  rewrite <- (in_get name value (as_str_map_wf B _)).
  set (m := BenchDiff._as_str_map B (Py.get_default entry "params" (JObj []))).
  split.
  - intros Hin. apply (Permutation_in _ (sorted_perm fst _)) in Hin.
    apply filter_In in Hin. destruct Hin as [Hin Hk].
    apply kept_iff in Hk. tauto.
  - intros [Hn Hin].
    apply (Permutation_in _ (Permutation_sym (sorted_perm fst _))).
    apply filter_In. split; [exact Hin|]. now apply kept_iff.
Qed.

(** X3. The parameters of a canonical key are strictly ascending by name:
    sorted, and no name twice. *)
Theorem key_params_strictly_ascending
        (B : builtins) (entry : PyDict.dict string json)
        (ignore_params : list string) :
  PyOrd.strictly_ascending fst
    (BenchDiff.params (BenchDiff._key_for_entry B entry ignore_params)).
Proof.
  rewrite key_params_sorted. apply sorted_strict. apply kept_params_wf.
Qed.

Section IgnoreFacts.
Variable B : builtins.

Lemma key_for_entry_unfold (entry : PyDict.dict string json)
      (ignore_params : list string) :
  BenchDiff._key_for_entry B entry ignore_params
  = {| BenchDiff.benchmark :=
         Py.str B (Py.get_default entry "benchmark" (JStr ""));
       BenchDiff.params :=
         PyOrd.sorted fst
           (filter (kept ignore_params)
              (BenchDiff._as_str_map B
                 (Py.get_default entry "params" (JObj [])))) |}.
Proof.
  rewrite <- key_params_sorted. reflexivity.
Qed.

Lemma map_set_values (ps : list (string * json)) (p : string) (v : json) :
  map (fun kv => (fst kv, Py.str B (snd kv))) (PyDict.set ps p v)
  = PyDict.set (map (fun kv => (fst kv, Py.str B (snd kv))) ps) p (Py.str B v).
Proof.
  induction ps as [|[k0 v0] ps IH]; simpl; [reflexivity|].
  destruct (eq_dec p k0); simpl; [reflexivity|now rewrite IH].
Qed.

Lemma get_default_set_params (entry : PyDict.dict string json) (v : json) :
  Py.get_default (PyDict.set entry "params" v) "benchmark" (JStr "")
  = Py.get_default entry "benchmark" (JStr "")
  /\ Py.get_default (PyDict.set entry "params" v) "params" (JObj []) = v.
Proof.
  unfold Py.get_default. rewrite !get_set.
  destruct (eq_dec "benchmark" "params") as [E|_]; [discriminate E|].
  destruct (eq_dec "params" "params") as [_|E]; [|congruence].
  split; reflexivity.
Qed.

Lemma kept_subset (ks ks' : list string) (kv : string * string) :
  incl ks ks' -> kept ks kv && kept ks' kv = kept ks' kv.
Proof.
  intros Hincl. destruct (kept ks' kv) eqn:E'; [|apply andb_false_r].
  rewrite andb_true_r. apply kept_iff. apply kept_iff in E'.
  intros Hin. apply E'. now apply Hincl.
Qed.
End IgnoreFacts.

(** X4. Two entries that differ only in the value (or the presence) of a
    parameter whose name is in the ignore-list have the same canonical
    key. *)
Theorem key_ignores_ignored_param
        (B : builtins) (entry : PyDict.dict string json)
        (ps : list (string * json)) (name : string) (value : json)
        (ignore_params : list string) :
  PyDict.get entry "params" = Some (JObj ps) ->
  NoDup (map fst ps) ->
  In name ignore_params ->
  BenchDiff._key_for_entry B
    (PyDict.set entry "params" (JObj (PyDict.set ps name value)))
    ignore_params
  = BenchDiff._key_for_entry B entry ignore_params.
Proof.
  intros Hget Hnd Hin. rewrite !key_for_entry_unfold.
  destruct (get_default_set_params entry (JObj (PyDict.set ps name value)))
    as [-> ->].
  f_equal. f_equal.
  replace (Py.get_default entry "params" (JObj [])) with (JObj ps)
    by (unfold Py.get_default; now rewrite Hget).
  rewrite (as_str_map_items B Hnd).
  rewrite (as_str_map_items B (ps := PyDict.set ps name value))
    by (apply (set_wf (d := ps)); exact Hnd).
  rewrite map_set_values. apply filter_set_ignored.
  intros w. apply not_true_iff_false. rewrite kept_iff. simpl. tauto.
Qed.

Lemma key_ignores_ignored_param_witness :
  let entry := [("benchmark", JStr "Get");
                ("params", JObj [("run", JInt 1); ("threads", JInt 4)])] in
  BenchDiff._key_for_entry Sample.B0
    (PyDict.set entry "params"
       (JObj (PyDict.set [("run", JInt 1); ("threads", JInt 4)] "run" (JInt 2))))
    ["run"]
  = BenchDiff._key_for_entry Sample.B0 entry ["run"].
Proof.
  intros entry.
  apply (@key_ignores_ignored_param Sample.B0 entry
           [("run", JInt 1); ("threads", JInt 4)] "run" (JInt 2) ["run"]).
  - reflexivity.
  - repeat constructor; simpl; intuition discriminate.
  - simpl. tauto.
Defined.

(** X5. Only the set of ignored names matters: two ignore-lists with the
    same names, in any order and with any repetitions, give the same
    canonical key. *)
Theorem key_ignore_list_as_set
        (B : builtins) (entry : PyDict.dict string json)
        (ignore_params ignore_params' : list string) :
  (forall name, In name ignore_params <-> In name ignore_params') ->
  BenchDiff._key_for_entry B entry ignore_params
  = BenchDiff._key_for_entry B entry ignore_params'.
Proof.
  intros Hsame. rewrite !key_for_entry_unfold. f_equal. f_equal.
  apply filter_ext. intros kv.
  destruct (kept ignore_params' kv) eqn:E.
  - apply kept_iff. apply kept_iff in E. now rewrite Hsame.
  - apply not_true_iff_false. apply not_true_iff_false in E.
    rewrite kept_iff in *. now rewrite Hsame.
Qed.

Lemma key_ignore_list_as_set_witness :
  BenchDiff._key_for_entry Sample.B0
    [("benchmark", JStr "Get");
     ("params", JObj [("run", JInt 1); ("threads", JInt 4)])]
    ["run"; "threads"]
  = BenchDiff._key_for_entry Sample.B0
      [("benchmark", JStr "Get");
       ("params", JObj [("run", JInt 1); ("threads", JInt 4)])]
      ["threads"; "run"; "threads"].
Proof.
  apply (@key_ignore_list_as_set Sample.B0).
  intros name. simpl. tauto.
Defined.

(** X6. Ignoring more parameters never separates entries: two entries with
    the same canonical key under an ignore-list have the same canonical key
    under every ignore-list that contains it. *)
Theorem key_coarser_with_more_ignored
        (B : builtins) (entry entry' : PyDict.dict string json)
        (ignore_params more : list string) :
  incl ignore_params more ->
  BenchDiff._key_for_entry B entry ignore_params
  = BenchDiff._key_for_entry B entry' ignore_params ->
  BenchDiff._key_for_entry B entry more
  = BenchDiff._key_for_entry B entry' more.
Proof.
  intros Hincl. rewrite !key_for_entry_unfold. intros [= Hb Hp].
  f_equal; [exact Hb|].
  set (m := BenchDiff._as_str_map B (Py.get_default entry "params" (JObj [])))
    in *.
  set (m' := BenchDiff._as_str_map B (Py.get_default entry' "params" (JObj [])))
    in *.
  assert (Hperm : Permutation (filter (kept ignore_params) m)
                              (filter (kept ignore_params) m')).
  { rewrite <- (sorted_perm fst (filter (kept ignore_params) m)).
    rewrite Hp. apply sorted_perm. }
  apply (filter_perm (kept more)) in Hperm.
  rewrite !filter_filter in Hperm.
  rewrite (filter_ext _ _ (fun kv => kept_subset kv Hincl)) in Hperm.
  rewrite (filter_ext _ _ (fun kv => kept_subset kv Hincl) m') in Hperm.
  apply sorted_perm_eq; [|exact Hperm].
  apply kept_params_wf.
Qed.

Lemma key_coarser_with_more_ignored_witness :
  BenchDiff._key_for_entry Sample.B0
    [("benchmark", JStr "Get");
     ("params", JObj [("run", JInt 1); ("threads", JInt 4)])]
    ["run"; "threads"]
  = BenchDiff._key_for_entry Sample.B0
      [("benchmark", JStr "Get");
       ("params", JObj [("run", JInt 2); ("threads", JInt 4)])]
      ["run"; "threads"].
Proof.
  apply (@key_coarser_with_more_ignored Sample.B0 _ _ ["run"]).
  - intros x [<-|[]]. now left.
  - reflexivity.
Defined.

(** ** The benchmark filter *)

Lemma prefix_iff (sub s : string) :
  String.prefix sub s = true <-> exists post, s = String.append sub post.
Proof.
  revert s. induction sub as [|a sub IH]; intros s.
  - split; [intros _; now exists s|intros _; now destruct s].
  - destruct s as [|b s]; cbn [String.prefix String.append].
    + split; [discriminate|intros [post E]; discriminate E].
    + destruct (ascii_dec a b) as [->|Hab].
      * split.
        -- intros Hp. apply IH in Hp. destruct Hp as [post ->]. now exists post.
        -- intros [post [= ->]]. apply IH. now exists post.
      * split; [discriminate|]. intros [post [= E _]]. congruence.
Qed.

Lemma contains_iff (sub s : string) :
  PyStr.contains sub s = true
  <-> exists pre post, s = String.append pre (String.append sub post).
Proof.
  induction s as [|c s IH]; cbn [PyStr.contains]; rewrite orb_true_iff.
  - split.
    + intros [Hp|Hf]; [|discriminate].
      apply prefix_iff in Hp. destruct Hp as [post E].
      now exists EmptyString, post.
    + intros [pre [post E]]. left. apply prefix_iff.
      destruct pre; [now exists post|discriminate E].
  - rewrite IH, prefix_iff. split.
    + intros [[post E]|[pre [post E]]].
      * now exists EmptyString, post.
      * exists (String c pre), post. simpl. now rewrite E.
    + intros [[|c' pre] [post E]].
      * left. now exists post.
      * right. simpl in E. injection E as _ E. now exists pre, post.
Qed.

(** X7. The benchmark filter passes every key when it is absent, and
    otherwise passes exactly the keys whose benchmark name has the filter
    text as a contiguous piece, letter case included (the empty text is a
    piece of every name). *)
Theorem matches_benchmark_is_substring
        (key : BenchDiff.EntryKey) (substring : option string) :
  BenchDiff._matches_benchmark key substring = true
  <-> match substring with
      | None => True
      | Some sub =>
          exists pre post,
            BenchDiff.benchmark key
            = String.append pre (String.append sub post)
      end.
Proof.
  unfold BenchDiff._matches_benchmark. destruct substring as [sub|];
    [|tauto].
  destruct sub as [|c sub]; cbn [PyStr.truthy].
  - split; [|reflexivity]. intros _.
    now exists EmptyString, (BenchDiff.benchmark key).
  - apply contains_iff.
Qed.

(** ** More on the three key lists *)

Lemma filter_split_perm {A} (p m : A -> bool) (l : list A) :
  Permutation (filter (fun x => p x && m x) l
               ++ filter (fun x => negb (p x) && m x) l)
              (filter m l).
Proof.
  induction l as [|x l IH]; simpl; [constructor|].
  destruct (p x), (m x); simpl; try exact IH.
  - now constructor.
  - rewrite <- IH. symmetry. apply Permutation_middle.
Qed.

Lemma filter_none {A} (f : A -> bool) (l : list A) :
  (forall x, In x l -> f x = false) -> filter f l = [].
Proof.
  induction l as [|x l IH]; simpl; intros Hf; [reflexivity|].
  rewrite (Hf x (or_introl eq_refl)). apply IH. intros y Hy. apply Hf. now right.
Qed.

Section MoreKeyListFacts.
Variable B : builtins.

Lemma mem_keys (i : BenchDiff.index) (k : BenchDiff.EntryKey) :
  PyDict.mem i k = true <-> In k (PyDict.keys i).
Proof.
  rewrite <- get_in_keys. unfold PyDict.mem.
  destruct (PyDict.get i k); split; congruence.
Qed.

(** The matched keys, seen from the baseline index. *)
Lemma matched_from_baseline (ci bi : BenchDiff.index) (f : option string) :
  PyDict.wf ci -> PyDict.wf bi ->
  Permutation
    (filter (fun k => PyDict.mem bi k && BenchDiff._matches_benchmark k f)
            (PyDict.keys ci))
    (filter (fun k => PyDict.mem ci k && BenchDiff._matches_benchmark k f)
            (PyDict.keys bi)).
Proof.
  intros Hci Hbi. apply NoDup_Permutation; try now apply NoDup_filter.
  intros k. rewrite !filter_In, !andb_true_iff, !mem_keys. tauto.
Qed.

Lemma index_keys (entries : list json) (ignore_params : list string)
      (k : BenchDiff.EntryKey) :
  In k (PyDict.keys (BenchDiff._index B entries ignore_params))
  <-> exists d, In (JObj d) entries
                /\ BenchDiff._key_for_entry B d ignore_params = k
                /\ BenchDiff.benchmark k <> "".
Proof.
  rewrite <- get_in_keys, index_get. split.
  - destruct (BenchDiff.last_write B entries ignore_params k) as [d|] eqn:E;
      [|congruence].
    intros _. exists d. now apply last_write_sound.
  - intros [d [Hin [<- Hne]]]. now apply last_write_complete.
Qed.

Lemma in_sorted_keys (l : list BenchDiff.EntryKey) (k : BenchDiff.EntryKey) :
  In k (PyOrd.sorted BenchDiff.sort_key l) <-> In k l.
Proof.
  split; apply Permutation_in;
    [|symmetry]; apply (sorted_perm BenchDiff.sort_key).
Qed.
End MoreKeyListFacts.

(** X8. The matched and the current-only keys together are exactly the
    keys of the current index that pass the filter, each once; the matched
    and the baseline-only keys together are exactly the keys of the
    baseline index that pass the filter, each once; and a matched key is
    in neither one-sided list. *)
Theorem diff_lists_partition
        (B : builtins) (current baseline : list json)
        (benchmark_contains : option string) (ignore_params : list string) :
  let ci := BenchDiff._index B current ignore_params in
  let bi := BenchDiff._index B baseline ignore_params in
  let passes := fun k => BenchDiff._matches_benchmark k benchmark_contains in
  Permutation (BenchDiff.matched ci bi benchmark_contains
               ++ BenchDiff.missing_in_baseline ci bi benchmark_contains)
              (filter passes (PyDict.keys ci))
  /\ Permutation (BenchDiff.matched ci bi benchmark_contains
                  ++ BenchDiff.missing_in_current ci bi benchmark_contains)
                 (filter passes (PyDict.keys bi))
  /\ (forall k,
         In k (BenchDiff.matched ci bi benchmark_contains) ->
         ~ In k (BenchDiff.missing_in_baseline ci bi benchmark_contains)
         /\ ~ In k (BenchDiff.missing_in_current ci bi benchmark_contains)).
Proof.
  intros ci bi passes.
  assert (Hci : PyDict.wf ci) by apply index_wf.
  assert (Hbi : PyDict.wf bi) by apply index_wf.
  unfold BenchDiff.matched, BenchDiff.missing_in_baseline,
    BenchDiff.missing_in_current.
  split; [|split].
  - rewrite !(sorted_perm BenchDiff.sort_key).
    apply (filter_split_perm (fun k => PyDict.mem bi k) passes).
  - rewrite !(sorted_perm BenchDiff.sort_key).
    rewrite (matched_from_baseline benchmark_contains Hci Hbi).
    apply (filter_split_perm (fun k => PyDict.mem ci k) passes).
  - intros k. rewrite !in_sorted_keys, !filter_In, !andb_true_iff.
    rewrite !negb_true_iff. intros [Hk [Hb _]]. split.
    + intros [_ [Hb' _]]. congruence.
    + intros [_ [Hc' _]]. apply (mem_keys ci k) in Hk. congruence.
Qed.

(** X9. Matching is symmetric: with current and baseline exchanged the
    list of matched keys is the same. *)
Theorem matched_symmetric
        (B : builtins) (current baseline : list json)
        (benchmark_contains : option string) (ignore_params : list string) :
  BenchDiff.matched (BenchDiff._index B current ignore_params)
                    (BenchDiff._index B baseline ignore_params)
                    benchmark_contains
  = BenchDiff.matched (BenchDiff._index B baseline ignore_params)
                      (BenchDiff._index B current ignore_params)
                      benchmark_contains.
Proof.
  unfold BenchDiff.matched. apply sorted_perm_eq.
  - apply NoDup_map_inj; [exact sort_key_inj|].
    apply NoDup_filter. apply index_wf.
  - apply matched_from_baseline; apply index_wf.
Qed.

(** X10. A run compared with itself has no one-sided entries, and every
    key of its index that passes the filter is matched. *)
Theorem self_comparison_matches_all
        (B : builtins) (entries : list json)
        (benchmark_contains : option string) (ignore_params : list string) :
  let idx := BenchDiff._index B entries ignore_params in
  BenchDiff.missing_in_baseline idx idx benchmark_contains = []
  /\ BenchDiff.missing_in_current idx idx benchmark_contains = []
  /\ BenchDiff.matched idx idx benchmark_contains
     = PyOrd.sorted BenchDiff.sort_key
         (filter (fun k => BenchDiff._matches_benchmark k benchmark_contains)
                 (PyDict.keys idx)).
Proof.
  intros idx.
  assert (Hnone : filter (fun k => negb (PyDict.mem idx k)
                            && BenchDiff._matches_benchmark k benchmark_contains)
                         (PyDict.keys idx) = []).
  { apply filter_none. intros k Hk. apply (mem_keys idx k) in Hk.
    now rewrite Hk. }
  unfold BenchDiff.missing_in_baseline, BenchDiff.missing_in_current,
    BenchDiff.matched.
  rewrite Hnone. repeat split. f_equal.
  apply filter_ext_in. intros k Hk. apply (mem_keys idx k) in Hk.
  now rewrite Hk.
Qed.

(** X11. The diff exits with code 0 exactly when the current list has a
    dict entry and the baseline list has a dict entry with the same
    canonical key, a non-empty benchmark name and a name that passes the
    filter. *)
Theorem exit_code_zero_iff_common_key
        (B : builtins) (current_path baseline_path : string)
        (current baseline : list json)
        (benchmark_contains : option string) (ignore_params : list string) :
  BenchDiff.exit_code
    (BenchDiff.compare B current_path baseline_path (JArr current)
                       (JArr baseline) benchmark_contains ignore_params)
  = 0%Z
  <-> exists c_entry b_entry,
        In (JObj c_entry) current /\ In (JObj b_entry) baseline
        /\ BenchDiff._key_for_entry B c_entry ignore_params
           = BenchDiff._key_for_entry B b_entry ignore_params
        /\ BenchDiff.benchmark
             (BenchDiff._key_for_entry B c_entry ignore_params) <> ""
        /\ BenchDiff._matches_benchmark
             (BenchDiff._key_for_entry B c_entry ignore_params)
             benchmark_contains = true.
Proof.
  set (ci := BenchDiff._index B current ignore_params).
  set (bi := BenchDiff._index B baseline ignore_params).
  assert (Hexit : BenchDiff.exit_code
                    (BenchDiff.compare B current_path baseline_path
                       (JArr current) (JArr baseline) benchmark_contains
                       ignore_params) = 0%Z
                  <-> exists k, In k (BenchDiff.matched ci bi benchmark_contains)).
  { unfold BenchDiff.compare. fold ci bi.
    destruct (BenchDiff.matched ci bi benchmark_contains) as [|k ks];
      cbn [BenchDiff.exit_code].
    - split; [discriminate|intros [k []]].
    - split; [|reflexivity]. intros _. exists k. now left. }
  rewrite Hexit. unfold BenchDiff.matched. split.
  - intros [k Hk]. rewrite in_sorted_keys, filter_In, andb_true_iff in Hk.
    destruct Hk as [Hc [Hb Hm]]. apply (mem_keys bi k) in Hb.
    apply index_keys in Hc, Hb.
    destruct Hc as [dc [Hinc [Ekc Hne]]]. destruct Hb as [db [Hinb [Ekb _]]].
    exists dc, db. subst k. repeat split; try assumption. now symmetry.
  - intros [dc [db [Hinc [Hinb [Ek [Hne Hm]]]]]].
    exists (BenchDiff._key_for_entry B dc ignore_params).
    rewrite in_sorted_keys, filter_In, andb_true_iff. split; [|split].
    + apply index_keys. now exists dc.
    + apply (mem_keys bi). apply index_keys. exists db.
      repeat split; [assumption|now symmetry|assumption].
    + exact Hm.
Qed.

(** ** Indexing an index again *)

Section ReindexFacts.
Variable B : builtins.

Let canonical (ignore_params : list string)
    (kd : BenchDiff.EntryKey * PyDict.dict string json) : Prop :=
  BenchDiff._key_for_entry B (snd kd) ignore_params = fst kd
  /\ PyStr.truthy (BenchDiff.benchmark (fst kd)) = true.

Lemma set_Forall {K V} `{EqDec K} (P : K * V -> Prop)
      (d : PyDict.dict K V) (k : K) (v : V) :
  Forall P d -> P (k, v) -> Forall P (PyDict.set d k v).
Proof.
  intros Hd Hkv. induction Hd as [|[k0 v0] d H0 Hd IH]; simpl.
  - now repeat constructor.
  - destruct (eq_dec k k0) as [->|Hk]; constructor; assumption.
Qed.

(** Every entry of an index is stored under its own canonical key, whose
    benchmark name is not empty. *)
Lemma index_fold_canonical (entries : list json)
      (ignore_params : list string) (acc : BenchDiff.index) :
  Forall (canonical ignore_params) acc ->
  Forall (canonical ignore_params)
    (fold_left
       (fun out e =>
          match e with
          | JObj d =>
              let k := BenchDiff._key_for_entry B d ignore_params in
              if PyStr.truthy (BenchDiff.benchmark k) then PyDict.set out k d
              else out
          | _ => out
          end)
       entries acc).
Proof.
  revert acc.
  induction entries as [|e entries IH]; intros acc Hacc; cbn [fold_left].
  - exact Hacc.
  - apply IH. destruct e; try exact Hacc. cbv zeta.
    destruct (PyStr.truthy _) eqn:Et; [|exact Hacc].
    apply set_Forall; [exact Hacc|]. split; [reflexivity|exact Et].
Qed.

Lemma index_items_canonical (entries : list json)
      (ignore_params : list string) :
  Forall (canonical ignore_params) (BenchDiff._index B entries ignore_params).
Proof. apply index_fold_canonical. constructor. Qed.

Lemma reindex_fold (ignore_params : list string)
      (l acc : BenchDiff.index) :
  Forall (canonical ignore_params) l ->
  NoDup (PyDict.keys acc ++ PyDict.keys l) ->
  fold_left
    (fun out e =>
       match e with
       | JObj d =>
           let k := BenchDiff._key_for_entry B d ignore_params in
           if PyStr.truthy (BenchDiff.benchmark k) then PyDict.set out k d
           else out
       | _ => out
       end)
    (map (fun kd => JObj (snd kd)) l) acc
  = acc ++ l.
Proof.
  intros Hl. revert acc.
  induction Hl as [|[k d] l [Hk Ht] Hl IH]; intros acc Hnd;
    cbn [map fold_left fst snd].
  - now rewrite app_nil_r.
  - cbn [fst snd] in Hk, Ht. cbv zeta. rewrite Hk, Ht.
    assert (Hfresh : ~ In k (PyDict.keys acc)).
    { intros Hin. apply NoDup_remove_2 in Hnd. apply Hnd.
      apply in_or_app. now left. }
    rewrite (set_fresh d Hfresh). rewrite IH.
    + now rewrite <- app_assoc.
    + unfold PyDict.keys in *. rewrite map_app. cbn [map fst].
      now rewrite <- app_assoc.
Qed.
End ReindexFacts.

(** X12. Indexing is idempotent: the entries that an index holds, indexed
    again with the same ignore-list, give the same index, key for key and
    in the same order. *)
Theorem index_of_index_values
        (B : builtins) (entries : list json) (ignore_params : list string) :
  let idx := BenchDiff._index B entries ignore_params in
  BenchDiff._index B (map (fun kd => JObj (snd kd)) idx) ignore_params = idx.
Proof.
  intros idx. unfold BenchDiff._index at 1.
  rewrite (reindex_fold (index_items_canonical B entries ignore_params)).
  - reflexivity.
  - apply index_wf.
Qed.

(** ** Lengths of texts *)

Lemma length_append (s1 s2 : string) :
  String.length (String.append s1 s2)
  = (String.length s1 + String.length s2)%nat.
Proof. induction s1 as [|c s1 IH]; simpl; [reflexivity|now rewrite IH]. Qed.

Lemma length_replicate (n : nat) (c : ascii) :
  String.length (PyStr.replicate n c) = n.
Proof. induction n as [|n IH]; simpl; [reflexivity|now rewrite IH]. Qed.

Lemma length_ljust (s : string) (w : nat) :
  String.length (PyStr.ljust s w) = Nat.max (String.length s) w.
Proof. unfold PyStr.ljust. rewrite length_append, length_replicate. lia. Qed.

Lemma length_rjust (s : string) (w : nat) :
  String.length (PyStr.rjust s w) = Nat.max (String.length s) w.
Proof. unfold PyStr.rjust. rewrite length_append, length_replicate. lia. Qed.

(** The length of a joined text depends on the lengths of the pieces
    only. *)
Lemma length_concat_cong (sep : string) (l1 l2 : list string) :
  map String.length l1 = map String.length l2 ->
  String.length (String.concat sep l1) = String.length (String.concat sep l2).
Proof.
  revert l2. induction l1 as [|x l1 IH]; intros [|y l2]; try discriminate;
    [reflexivity|].
  intros [= Hx Hl].
  destruct l1 as [|x' l1], l2 as [|y' l2]; try discriminate; [exact Hx|].
  change (String.length
            (String.append x (String.append sep (String.concat sep (x' :: l1))))
          = String.length
              (String.append y (String.append sep (String.concat sep (y' :: l2))))).
  rewrite !length_append, Hx. now rewrite (IH _ Hl).
Qed.

Lemma fold_max_ge (n : nat) (l : list nat) :
  In n l -> (n <= fold_right Nat.max 0 l)%nat.
Proof.
  induction l as [|m l IH]; simpl; [tauto|].
  intros [->|Hin]; [lia|]. specialize (IH Hin). lia.
Qed.

(** ** The layout of a group *)

Section LayoutFacts.
Import BenchTable.
Variable B : builtins.

Lemma width_ge_label (g : list row) (c : string) :
  (String.length c <= width B g c)%nat.
Proof. unfold width. lia. Qed.

Lemma width_ge_cell (g : list row) (c : string) (r : row) :
  In r g -> (String.length (cell B c r) <= width B g c)%nat.
Proof.
  intros Hin. unfold width.
  assert (H : (String.length (cell B c r)
               <= fold_right Nat.max 0
                    (map (fun r => String.length (cell B c r)) g))%nat).
  { apply fold_max_ge. now apply (in_map (fun r => String.length (cell B c r))). }
  lia.
Qed.

(** A line made of one padded item for each column is as long as the row
    of dashes. *)
Lemma line_length (g : list row) (item : string -> string) :
  (forall c, String.length (item c) = width B g c) ->
  String.length (PyStr.fstr ["  "; PyStr.join "  " (map item cols)])
  = String.length
      (PyStr.fstr
         ["  ";
          PyStr.join "  "
            (map (fun c => PyStr.replicate (width B g c) "-"%char) cols)]).
Proof.
  intros Hitem. unfold PyStr.fstr. apply length_concat_cong.
  cbn [map]. f_equal. f_equal. unfold PyStr.join. apply length_concat_cong.
  rewrite !map_map. apply map_ext. intros c.
  now rewrite Hitem, length_replicate.
Qed.

Lemma mapM_raise {A C} (f : A -> result C) (l : list A) (e : exn) :
  mapM f l = Raise e -> exists a, In a l /\ f a = Raise e.
Proof.
  induction l as [|a l IH]; cbn [mapM]; [discriminate|].
  destruct (f a) as [c|x] eqn:Ea; cbn [bind].
  - destruct (mapM f l) as [cs|x]; cbn [bind]; [discriminate|].
    intros [= ->]. destruct (IH eq_refl) as [a' [Hin Ha']].
    exists a'. split; [now right|exact Ha'].
  - intros [= ->]. exists a. split; [now left|exact Ea].
Qed.

Lemma groupby_heads (eqb : json -> json -> bool) (rows : list row) :
  Forall (fun g => exists r rest, snd g = r :: rest /\ fst g = full r)
         (groupby eqb rows).
Proof.
  induction rows as [|r rows IH]; cbn [groupby]; [constructor|].
  destruct (groupby eqb rows) as [|[k g] gs].
  - constructor; [|constructor]. now exists r, [].
  - inversion IH as [|? ? _ Hgs]; subst.
    destruct (eqb (full r) k); constructor; try assumption.
    + now exists r, g.
    + now exists r, [].
Qed.

Lemma groupby_length (eqb : json -> json -> bool) (rows : list row) :
  (List.length (groupby eqb rows) <= List.length rows)%nat.
Proof.
  induction rows as [|r rows IH]; cbn [groupby]; [constructor|].
  destruct (groupby eqb rows) as [|[k g] gs]; simpl in *; [lia|].
  destruct (eqb (full r) k); simpl; lia.
Qed.
End LayoutFacts.

(** X13. The table of a group is aligned: after the title come the header,
    the row of dashes and one line for each row of the group, and all of
    these lines have the same length, every item being padded to the width
    of its column. *)
Theorem render_group_aligned
        (B : builtins) (title : string) (group : list row) :
  group <> [] ->
  exists lines width,
    BenchTable._render_group B (JStr title) group
    = BenchTable.Ok (PyStr.join PyStr.nl (title :: lines))
    /\ List.length lines = (2 + List.length group)%nat
    /\ Forall (fun line => String.length line = width) lines.
Proof.
  intros Hg. unfold BenchTable._render_group.
  destruct group as [|r0 g]; [congruence|].
  set (group := r0 :: g).
  do 2 eexists. split; [reflexivity|]. split.
  - cbn [List.length app]. now rewrite length_map.
  - cbn [app]. constructor; [|constructor; [reflexivity|]].
    + apply line_length. intros c. rewrite length_ljust.
      pose proof (width_ge_label B group c). lia.
    + apply Forall_forall. intros line Hline.
      apply in_map_iff in Hline. destruct Hline as [r [<- Hr]].
      apply line_length. intros c.
      pose proof (width_ge_cell B c Hr) as Hw.
      destruct (BenchTable.num_cols c);
        [rewrite length_rjust|rewrite length_ljust]; lia.
Qed.

Lemma render_group_aligned_witness :
  exists lines width,
    BenchTable._render_group Sample.B0 (JStr "A")
      [Sample.bare_row "A" "netty"; Sample.bare_row "A" "x"]
    = BenchTable.Ok (PyStr.join PyStr.nl ("A" :: lines))
    /\ List.length lines = 4%nat
    /\ Forall (fun line => String.length line = width) lines.
Proof.
  apply (@render_group_aligned Sample.B0 "A"
           [Sample.bare_row "A" "netty"; Sample.bare_row "A" "x"]).
  discriminate.
Defined.

(** X14. [itertools.groupby] as [main] uses it loses no row and moves
    none: the groups, one after the other, are the rows; every group has a
    first row and carries that row's benchmark identifier as its key; and
    there are at most as many groups as rows. *)
Theorem groupby_keeps_rows
        (eqb : json -> json -> bool) (rows : list row) :
  List.concat (map snd (BenchTable.groupby eqb rows)) = rows
  /\ Forall (fun g => exists r rest, snd g = r :: rest /\ fst g = full r)
            (BenchTable.groupby eqb rows)
  /\ (List.length (BenchTable.groupby eqb rows) <= List.length rows)%nat.
Proof.
  split; [apply groupby_concat|].
  split; [apply groupby_heads|apply groupby_length].
Qed.

(** ** Runs of the table script *)

Section RunFacts.
Import BenchTable.
Variable B : builtins.

Lemma iterate_raises (data : json) (e : exn) :
  iterate data = Raise e -> e = TypeError.
Proof. destruct data; simpl; congruence. Qed.

Lemma sort_rows_raises (rows : list row) (e : exn) :
  sort_rows B rows = Raise e -> e = TypeError.
Proof.
  unfold sort_rows. destruct rows as [|r [|r' rows]]; try discriminate.
  destruct (forallb has_str_key (r :: r' :: rows)); [discriminate|].
  destruct (sort_mixed B (r :: r' :: rows)); congruence.
Qed.

Lemma render_group_raises (k : json) (g : list row) (e : exn) :
  g <> [] -> _render_group B k g = Raise e -> e = TypeError.
Proof.
  intros Hg. unfold _render_group. destruct g as [|r g]; [congruence|].
  destruct k; congruence.
Qed.

Lemma rstrip_no_trailing_space (s : string) :
  Shape.ends_with_space (PyStr.rstrip s) = false.
Proof.
  induction s as [|c s IH]; cbn [PyStr.rstrip]; [reflexivity|].
  destruct (PyStr.rstrip s) as [|c' r] eqn:E.
  - destruct (PyStr.is_space c) eqn:Ec; [reflexivity|].
    cbn [Shape.ends_with_space]. exact Ec.
  - exact IH.
Qed.

Lemma mapM_perm {A C} (f : A -> result C) (l l' : list A) (cs : list C) :
  Permutation l l' -> mapM f l = Ok cs ->
  exists cs', mapM f l' = Ok cs' /\ Permutation cs cs'.
Proof.
  intros Hp. revert cs.
  induction Hp as [|a l l' Hp IH|a b l|l l' l'' Hp1 IH1 Hp2 IH2]; intros cs;
    cbn [mapM].
  - intros [= <-]. now exists [].
  - destruct (f a) as [c|]; cbn [bind]; [|discriminate].
    destruct (mapM f l) as [cs0|]; cbn [bind]; [|discriminate].
    intros [= <-]. destruct (IH cs0 eq_refl) as [cs' [-> Hcs]].
    cbn [bind]. exists (c :: cs'). split; [reflexivity|now constructor].
  - destruct (f b) as [cb|]; cbn [bind]; [|discriminate].
    destruct (f a) as [ca|]; cbn [bind]; [|discriminate].
    destruct (mapM f l) as [cs0|]; cbn [bind]; [|discriminate].
    intros [= <-]. exists (ca :: cb :: cs0). split; [reflexivity|apply perm_swap].
  - intros Hcs. destruct (IH1 cs Hcs) as [cs1 [H1 Hp1']].
    destruct (IH2 cs1 H1) as [cs2 [H2 Hp2']].
    exists cs2. split; [exact H2|]. now transitivity cs1.
Qed.

Lemma mapM_str_keys (entries : list json) (rows : list row) :
  forallb entry_ok entries = true ->
  mapM row_of_entry entries = Ok rows ->
  forallb has_str_key rows = true.
Proof.
  intros Hok Hrows. destruct (rows_of_entries_ok Hok) as [rows' [E Hk]].
  congruence.
Qed.
End RunFacts.

(** X15. Once [json.loads] has returned a value, the steps from that
    value to the text handed to [print] (building the rows, sorting
    them, grouping them, rendering the groups and joining the texts)
    raise nothing but [AttributeError] or [TypeError]; in particular the
    maximum of an empty group, which would be a [ValueError], is never
    taken. *)
Theorem main_exceptions_after_loading
        (B : builtins) (data : json) (e : BenchTable.exn) :
  BenchTable.main B (Some data) = BenchTable.Raise e ->
  e = BenchTable.AttributeError \/ e = BenchTable.TypeError.
Proof.
  unfold BenchTable.main.
  destruct (BenchTable.iterate data) as [entries|x] eqn:E1;
    cbn [BenchTable.bind];
    [|intros [= <-]; right; eapply iterate_raises; eassumption].
  destruct (BenchTable.mapM BenchTable.row_of_entry entries) as [rows|x] eqn:E2;
    cbn [BenchTable.bind].
  - destruct (BenchTable.sort_rows B rows) as [rows'|x] eqn:E3;
      cbn [BenchTable.bind];
      [|intros [= <-]; right; eapply sort_rows_raises; eassumption].
    destruct (BenchTable.mapM _ (BenchTable.groupby _ rows')) as [out|x] eqn:E4;
      cbn [BenchTable.bind]; [discriminate|].
    intros [= <-]. right. apply mapM_raise in E4.
    destruct E4 as [g [Hg Hr]].
    pose proof (groupby_heads (BenchTable.key_eqb B) rows') as Hh.
    rewrite Forall_forall in Hh. destruct (Hh g Hg) as [r [rest [Es _]]].
    eapply render_group_raises; [|exact Hr]. rewrite Es. discriminate.
  - intros [= <-]. left. apply mapM_raise in E2.
    destruct E2 as [a [_ Ha]]. eapply row_of_entry_raises; eassumption.
Qed.

Lemma main_exceptions_after_loading_witness :
  BenchTable.main Sample.B0 (Some (JArr [JStr "x"]))
  = BenchTable.Raise BenchTable.AttributeError
  /\ (BenchTable.AttributeError = BenchTable.AttributeError
      \/ BenchTable.AttributeError = BenchTable.TypeError).
Proof.
  split; [reflexivity|].
  apply (@main_exceptions_after_loading Sample.B0 (JArr [JStr "x"])
           BenchTable.AttributeError).
  reflexivity.
Defined.

(** X16. The text that the table tool prints never ends with whitespace,
    whatever the input. *)
Theorem main_output_stripped
        (B : builtins) (loaded : option json) (text : string) :
  BenchTable.main B loaded = BenchTable.Ok text ->
  Shape.ends_with_space text = false.
Proof.
  unfold BenchTable.main. destruct loaded as [data|]; [|discriminate].
  destruct (BenchTable.iterate data) as [entries|]; cbn [BenchTable.bind];
    [|discriminate].
  destruct (BenchTable.mapM BenchTable.row_of_entry entries) as [rows|];
    cbn [BenchTable.bind]; [|discriminate].
  destruct (BenchTable.sort_rows B rows) as [rows'|]; cbn [BenchTable.bind];
    [|discriminate].
  destruct (BenchTable.mapM _ _) as [out|]; cbn [BenchTable.bind];
    [|discriminate].
  intros [= <-]. apply rstrip_no_trailing_space.
Qed.

Lemma main_output_stripped_witness :
  Shape.ends_with_space (PyStr.join PyStr.nl Sample.two_groups) = false.
Proof.
  apply (@main_output_stripped Sample.B0
           (Some (JArr [Sample.bare_entry "A" "x"; Sample.bare_entry "A" "y";
                        Sample.bare_entry "B" "z"]))).
  vm_compute. reflexivity.
Defined.

(** X17. The table does not depend on the order of the input entries when
    no two rows share both the benchmark identifier and the implementation
    label: for well-formed entries, every rearrangement of the input prints
    the same text. *)
Theorem main_order_independent
        (B : builtins) (entries entries' : list json) (rows : list row) :
  forallb BenchTable.entry_ok entries = true ->
  BenchTable.mapM BenchTable.row_of_entry entries = BenchTable.Ok rows ->
  NoDup (map BenchTable.sort_key rows) ->
  Permutation entries entries' ->
  BenchTable.main B (Some (JArr entries'))
  = BenchTable.main B (Some (JArr entries)).
Proof.
  intros Hok Hrows Hnd Hp.
  destruct (mapM_perm Hp Hrows) as [rows' [Hrows' Hpr]].
  assert (Hk : forallb BenchTable.has_str_key rows = true)
    by (eapply mapM_str_keys; eassumption).
  assert (Hk' : forallb BenchTable.has_str_key rows' = true).
  { rewrite forallb_forall in *. intros r Hr. apply Hk.
    eapply Permutation_in; [symmetry; exact Hpr|exact Hr]. }
  unfold BenchTable.main. cbn [BenchTable.iterate BenchTable.bind].
  rewrite Hrows, Hrows'. cbn [BenchTable.bind].
  rewrite (sort_rows_str B Hk), (sort_rows_str B Hk').
  now rewrite (sorted_perm_eq Hnd Hpr).
Qed.

Lemma main_order_independent_witness :
  BenchTable.main Sample.B0
    (Some (JArr [Sample.bare_entry "B" "z"; Sample.bare_entry "A" "x";
                 Sample.bare_entry "A" "y"]))
  = BenchTable.main Sample.B0
      (Some (JArr [Sample.bare_entry "A" "x"; Sample.bare_entry "B" "z";
                   Sample.bare_entry "A" "y"])).
Proof.
  apply (@main_order_independent Sample.B0
           [Sample.bare_entry "A" "x"; Sample.bare_entry "B" "z";
            Sample.bare_entry "A" "y"]
           [Sample.bare_entry "B" "z"; Sample.bare_entry "A" "x";
            Sample.bare_entry "A" "y"]
           [Sample.bare_row "A" "x"; Sample.bare_row "B" "z";
            Sample.bare_row "A" "y"]).
  - reflexivity.
  - reflexivity.
  - repeat constructor; simpl; intuition discriminate.
  - apply perm_swap.
Defined.

(** ** Cells *)

(** X18. A value that is absent or null gives an empty cell in every
    column, numeric or not: never the text of [None] and never a zero. *)
Theorem cell_of_missing_value
        (B : builtins) (col : string) (r : row) :
  BenchTable.row_get col r = JNull ->
  BenchTable.cell B col r = "".
Proof.
  intros Hv. unfold BenchTable.cell. rewrite Hv.
  now destruct (BenchTable.num_cols col).
Qed.

Lemma cell_of_missing_value_witness :
  BenchTable.cell Sample.B0 "p99.9" (Sample.bare_row "A" "x") = "".
Proof.
  apply (@cell_of_missing_value Sample.B0 "p99.9" (Sample.bare_row "A" "x")).
  reflexivity.
Defined.

(** X19. A numeric cell (mean, p50, p99, p99.9) that holds a finite float
    shows it in fixed-point form with exactly three decimals. *)
Theorem numeric_cell_three_decimals
        (B : builtins) (col : string) (r : row) (f : PyFloat.float) :
  BenchTable.num_cols col = true ->
  BenchTable.row_get col r = JFloat f ->
  PyFloat.is_finite f = true ->
  BenchTable.cell B col r = PyFloat.format_f false 3 f
  /\ PyFloat.has_decimals 3 (BenchTable.cell B col r) = true.
Proof.
  intros Hn Hv Hf. unfold BenchTable.cell. rewrite Hn, Hv.
  cbn [BenchTable._fmt_num Py.float].
  split; [reflexivity|now apply format_f_finite_decimals].
Qed.

Lemma numeric_cell_three_decimals_witness :
  let r := {| full := JStr "A"; Impl := JStr "x";
              Mean := JFloat (PyFloat.of_ratio 1234567 1000);
              p50 := JNull; p99 := JNull; p999 := JNull;
              Unit := JStr "us/op" |} in
  BenchTable.cell Sample.B0 "Mean" r
  = PyFloat.format_f false 3 (PyFloat.of_ratio 1234567 1000)
  /\ PyFloat.has_decimals 3 (BenchTable.cell Sample.B0 "Mean" r) = true.
Proof.
  intros r.
  apply (@numeric_cell_three_decimals Sample.B0 "Mean" r
           (PyFloat.of_ratio 1234567 1000)); reflexivity.
Defined.

(** X20. Building the row of an entry succeeds exactly when the entry is an
    object whose [params], [primaryMetric] and [scorePercentiles] are each
    an object or a false value (absent, null, zero, empty); it fails with
    [AttributeError] otherwise. *)
Theorem row_of_entry_succeeds_iff (entry : json) :
  ((exists r, BenchTable.row_of_entry entry = BenchTable.Ok r)
   <-> (exists d,
           entry = JObj d
           /\ BenchTable.dict_or_false (Py.get_none d "params") = true
           /\ BenchTable.dict_or_false (Py.get_none d "primaryMetric") = true
           /\ BenchTable.dict_or_false
                (Py.get_none (BenchTable.sub_dict d "primaryMetric")
                             "scorePercentiles") = true))
  /\ (forall e, BenchTable.row_of_entry entry = BenchTable.Raise e ->
                e = BenchTable.AttributeError).
Proof.
  split; [|intros e; apply row_of_entry_raises].
  assert (Hd : forall v,
             BenchTable.dict_or_false v = true
             <-> exists d, BenchTable.or_empty v = JObj d).
  { intros v. split; [apply or_empty_dict|].
    intros [d E]. unfold BenchTable.or_empty in E.
    destruct (Py.truthy v) eqn:Et.
    - now subst v.
    - unfold BenchTable.dict_or_false.
      destruct v; try reflexivity; now rewrite Et. }
  assert (Hthe : forall v,
             (exists d, BenchTable.the_dict v = BenchTable.Ok d)
             <-> exists d, v = JObj d).
  { intros v. destruct v; simpl; split; intros [d E]; try discriminate E;
      eexists; reflexivity. }
  split.
  - intros [r Hr]. unfold BenchTable.row_of_entry in Hr.
    destruct entry as [| | | | | |d]; try discriminate Hr.
    cbn [BenchTable.the_dict BenchTable.bind] in Hr.
    exists d. split; [reflexivity|]. unfold BenchTable.sub_dict.
    destruct (BenchTable.the_dict (BenchTable.or_empty (Py.get_none d "params")))
      as [ps|] eqn:E1; cbn [BenchTable.bind] in Hr; [|discriminate Hr].
    destruct (BenchTable.the_dict
                (BenchTable.or_empty (Py.get_none d "primaryMetric")))
      as [m|] eqn:E2; cbn [BenchTable.bind] in Hr; [|discriminate Hr].
    destruct (BenchTable.the_dict
                (BenchTable.or_empty (Py.get_none m "scorePercentiles")))
      as [pc|] eqn:E3; cbn [BenchTable.bind] in Hr; [|discriminate Hr].
    assert (H1 : exists x, BenchTable.or_empty (Py.get_none d "params") = JObj x)
      by (apply Hthe; eauto).
    assert (H2 : exists x,
               BenchTable.or_empty (Py.get_none d "primaryMetric") = JObj x)
      by (apply Hthe; eauto).
    destruct H2 as [m' Em]. rewrite Em in E2. injection E2 as ->.
    split; [now apply Hd|]. split; [apply Hd; eauto|].
    rewrite Em. apply Hd. apply Hthe. eauto.
  - intros [d [-> [Hp [Hm Hs]]]]. unfold BenchTable.sub_dict in Hs.
    unfold BenchTable.row_of_entry.
    cbn [BenchTable.the_dict BenchTable.bind].
    destruct (or_empty_dict Hp) as [ps ->]. cbn [BenchTable.the_dict BenchTable.bind].
    destruct (or_empty_dict Hm) as [m Em]. rewrite Em in *.
    cbn [BenchTable.the_dict BenchTable.bind].
    destruct (or_empty_dict Hs) as [pc ->].
    cbn [BenchTable.the_dict BenchTable.bind]. eexists. reflexivity.
Qed.

(** ** How a key and an unchanged value are shown *)

(** X21. A key is shown as its bare benchmark name exactly when it has no
    parameters; with parameters the name comes first and the parameters
    follow in brackets. *)
Theorem pretty_bare_iff_no_params (k : BenchDiff.EntryKey) :
  (BenchDiff.pretty k = BenchDiff.benchmark k <-> BenchDiff.params k = [])
  /\ (exists rest,
         BenchDiff.pretty k = String.append (BenchDiff.benchmark k) rest)
  /\ (forall p ps,
         BenchDiff.params k = p :: ps ->
         BenchDiff.pretty k
         = PyStr.fstr
             [BenchDiff.benchmark k; " (";
              PyStr.join ", "
                (map (fun kv => PyStr.fstr [fst kv; "="; snd kv]) (p :: ps));
              ")"]).
Proof.
  unfold BenchDiff.pretty. destruct (BenchDiff.params k) as [|p ps] eqn:Ep.
  - split; [tauto|]. split; [|discriminate].
    exists EmptyString. clear. induction (BenchDiff.benchmark k) as [|c s IH];
      simpl; [reflexivity|now rewrite <- IH].
  - split; [|split].
    + split; [|discriminate]. intros E. exfalso.
      apply (f_equal String.length) in E. unfold PyStr.fstr in E.
      cbn [String.concat] in E. rewrite !length_append in E.
      cbn [String.length] in E. lia.
    + eexists. unfold PyStr.fstr. cbn [String.concat]. reflexivity.
    + intros p' ps' [= <- <-]. reflexivity.
Qed.

Lemma sub_same_finite (s : bool) (m : positive) (e : Z) :
  PyFloat.sub (S754_finite s m e) (S754_finite s m e) = S754_zero false.
Proof.
  unfold PyFloat.sub, SFsub. cbv zeta. now rewrite Z.sub_diag.
Qed.

(** X22. For an unchanged value the delta text is fixed: ["+0"] when the
    value is zero; ["+0 (+0.00%)"] when it is finite and positive and
    ["+0 (-0.00%)"] when it is finite and negative; ["+nan (+nan%)"] when
    it is infinite or not a number. *)
Theorem fmt_delta_of_unchanged_value (x : PyFloat.float) :
  BenchDiff._fmt_delta x x
  = match x with
    | S754_zero _ => "+0"
    | S754_finite s _ _ => if s then "+0 (-0.00%)" else "+0 (+0.00%)"
    | S754_infinity _ | S754_nan => "+nan (+nan%)"
    end.
Proof.
  destruct x as [s|s| |s m e].
  - now destruct s.
  - now destruct s.
  - reflexivity.
  - unfold BenchDiff._fmt_delta. cbv zeta. rewrite sub_same_finite.
    destruct s; vm_compute; reflexivity.
Qed.

(** ** The filter and the three lists *)

Lemma StronglySorted_filter {A} (R : A -> A -> Prop) (f : A -> bool)
      (l : list A) :
  StronglySorted R l -> StronglySorted R (filter f l).
Proof.
  induction 1 as [|x l Hs IH Hx]; simpl; [constructor|].
  destruct (f x); [|exact IH]. constructor; [exact IH|].
  rewrite Forall_forall in *. intros y Hy. apply Hx.
  apply filter_In in Hy. tauto.
Qed.

(** Selecting from a sorted list of distinct keys is sorting the
    selection. *)
Lemma sorted_filter_comm (f : BenchDiff.EntryKey -> bool)
      (l : list BenchDiff.EntryKey) :
  NoDup l ->
  PyOrd.sorted BenchDiff.sort_key (filter f l)
  = filter f (PyOrd.sorted BenchDiff.sort_key l).
Proof.
  intros Hnd.
  assert (Hkeys : forall l', NoDup l' -> NoDup (map BenchDiff.sort_key l'))
    by (intros l'; apply NoDup_map_inj; exact sort_key_inj).
  apply strictly_ascending_unique with (key := BenchDiff.sort_key).
  - apply sorted_strict. apply Hkeys. now apply NoDup_filter.
  - apply StronglySorted_filter. apply sorted_strict. now apply Hkeys.
  - rewrite (sorted_perm BenchDiff.sort_key (filter f l)).
    apply filter_perm. symmetry. apply (sorted_perm BenchDiff.sort_key).
Qed.

(** X23. The benchmark filter only selects: each of the three lists under
    a filter is the list without a filter, restricted to the keys that pass
    the filter, in the same order. *)
Theorem filter_selects_from_unfiltered
        (B : builtins) (current baseline : list json)
        (benchmark_contains : option string) (ignore_params : list string) :
  let ci := BenchDiff._index B current ignore_params in
  let bi := BenchDiff._index B baseline ignore_params in
  let passes := fun k => BenchDiff._matches_benchmark k benchmark_contains in
  BenchDiff.matched ci bi benchmark_contains
  = filter passes (BenchDiff.matched ci bi None)
  /\ BenchDiff.missing_in_baseline ci bi benchmark_contains
     = filter passes (BenchDiff.missing_in_baseline ci bi None)
  /\ BenchDiff.missing_in_current ci bi benchmark_contains
     = filter passes (BenchDiff.missing_in_current ci bi None).
Proof.
  intros ci bi passes.
  assert (Hci : NoDup (PyDict.keys ci)) by apply index_wf.
  assert (Hbi : NoDup (PyDict.keys bi)) by apply index_wf.
  unfold BenchDiff.matched, BenchDiff.missing_in_baseline,
    BenchDiff.missing_in_current.
  repeat split;
    rewrite <- sorted_filter_comm by (now apply NoDup_filter);
    rewrite filter_filter; f_equal; apply filter_ext; intros k;
    cbn [BenchDiff._matches_benchmark]; now rewrite andb_true_r.
Qed.

(** ** Inputs without duplicate keys *)

Section NoDuplicateFacts.
Variable B : builtins.

Lemma index_fold_fresh (entries : list json) (ignore_params : list string)
      (acc : BenchDiff.index) :
  NoDup (PyDict.keys acc
         ++ PyDict.keys (indexed_items B entries ignore_params)) ->
  fold_left
    (fun out e =>
       match e with
       | JObj d =>
           let k := BenchDiff._key_for_entry B d ignore_params in
           if PyStr.truthy (BenchDiff.benchmark k) then PyDict.set out k d
           else out
       | _ => out
       end)
    entries acc
  = acc ++ indexed_items B entries ignore_params.
Proof.
  revert acc. induction entries as [|e entries IH]; intros acc Hnd;
    cbn [fold_left].
  - unfold indexed_items. simpl. now rewrite app_nil_r.
  - unfold indexed_items in *. cbn [flat_map] in *.
    destruct e as [| | | | | |d]; try (now apply IH). cbv zeta in *.
    destruct (PyStr.truthy _) eqn:Et; [|now apply IH].
    cbn [app] in *.
    assert (Hfresh : ~ In (BenchDiff._key_for_entry B d ignore_params)
                          (PyDict.keys acc)).
    { intros Hin. unfold PyDict.keys in Hnd. cbn [map fst] in Hnd.
      apply NoDup_remove_2 in Hnd. apply Hnd. apply in_or_app. now left. }
    rewrite (set_fresh d Hfresh). rewrite IH.
    + now rewrite <- app_assoc.
    + unfold PyDict.keys in *. rewrite map_app. cbn [map fst] in *.
      now rewrite <- app_assoc.
Qed.

Lemma compare_same_indices (current_path baseline_path : string)
      (current current' baseline baseline' : list json)
      (benchmark_contains : option string) (ignore_params : list string) :
  Permutation (BenchDiff._index B current ignore_params)
              (BenchDiff._index B current' ignore_params) ->
  Permutation (BenchDiff._index B baseline ignore_params)
              (BenchDiff._index B baseline' ignore_params) ->
  BenchDiff.compare B current_path baseline_path (JArr current')
                    (JArr baseline') benchmark_contains ignore_params
  = BenchDiff.compare B current_path baseline_path (JArr current)
                      (JArr baseline) benchmark_contains ignore_params.
Proof.
  intros Hc Hb. unfold BenchDiff.compare.
  set (ci := BenchDiff._index B current ignore_params) in *.
  set (bi := BenchDiff._index B baseline ignore_params) in *.
  set (ci' := BenchDiff._index B current' ignore_params) in *.
  set (bi' := BenchDiff._index B baseline' ignore_params) in *.
  assert (Hci : PyDict.wf ci) by apply index_wf.
  assert (Hbi : PyDict.wf bi) by apply index_wf.
  assert (Hm : BenchDiff.matched ci' bi' benchmark_contains
               = BenchDiff.matched ci bi benchmark_contains).
  { symmetry. apply sorted_keys_perm; try assumption.
    intros k. now rewrite (mem_perm k Hbi Hb). }
  assert (Hmb : BenchDiff.missing_in_baseline ci' bi' benchmark_contains
                = BenchDiff.missing_in_baseline ci bi benchmark_contains).
  { symmetry. apply sorted_keys_perm; try assumption.
    intros k. now rewrite (mem_perm k Hbi Hb). }
  assert (Hmc : BenchDiff.missing_in_current ci' bi' benchmark_contains
                = BenchDiff.missing_in_current ci bi benchmark_contains).
  { symmetry. apply sorted_keys_perm; try assumption.
    intros k. now rewrite (mem_perm k Hci Hc). }
  rewrite Hm, Hmb, Hmc.
  assert (Hblocks : forall k,
             BenchDiff.report_key B k (BenchDiff.entry_of ci' k)
                                  (BenchDiff.entry_of bi' k)
             = BenchDiff.report_key B k (BenchDiff.entry_of ci k)
                                    (BenchDiff.entry_of bi k)).
  { intros k. unfold BenchDiff.entry_of.
    now rewrite <- (get_perm k Hci Hc), <- (get_perm k Hbi Hb). }
  now rewrite (flat_map_ext _ _ Hblocks).
Qed.
End NoDuplicateFacts.

(** X24. When no two entries that indexing keeps share a canonical key,
    the index holds exactly these entries, each under its key, in input
    order. *)
Theorem index_without_duplicates
        (B : builtins) (entries : list json) (ignore_params : list string) :
  NoDup (PyDict.keys (indexed_items B entries ignore_params)) ->
  BenchDiff._index B entries ignore_params
  = indexed_items B entries ignore_params.
Proof.
  intros Hnd. unfold BenchDiff._index.
  now rewrite index_fold_fresh.
Qed.

Lemma index_without_duplicates_witness :
  BenchDiff._index Sample.B0
    [Sample.bare_entry "Put" "a"; JInt 1; Sample.bare_entry "Get" "a"] []
  = indexed_items Sample.B0
      [Sample.bare_entry "Put" "a"; JInt 1; Sample.bare_entry "Get" "a"] [].
Proof.
  apply (@index_without_duplicates Sample.B0).
  vm_compute. repeat constructor; simpl; intuition discriminate.
Defined.

(** X25. For two inputs without duplicate canonical keys the whole report,
    text and exit code, does not depend on the order of the entries in
    either file. *)
Theorem compare_order_independent
        (B : builtins) (current_path baseline_path : string)
        (current current' baseline baseline' : list json)
        (benchmark_contains : option string) (ignore_params : list string) :
  NoDup (PyDict.keys (indexed_items B current ignore_params)) ->
  NoDup (PyDict.keys (indexed_items B baseline ignore_params)) ->
  Permutation current current' ->
  Permutation baseline baseline' ->
  BenchDiff.compare B current_path baseline_path (JArr current')
                    (JArr baseline') benchmark_contains ignore_params
  = BenchDiff.compare B current_path baseline_path (JArr current)
                      (JArr baseline) benchmark_contains ignore_params.
Proof.
  intros Hc Hb Hpc Hpb.
  assert (Hitems : forall l l',
             NoDup (PyDict.keys (indexed_items B l ignore_params)) ->
             Permutation l l' ->
             Permutation (BenchDiff._index B l ignore_params)
                         (BenchDiff._index B l' ignore_params)).
  { intros l l' Hnd Hp.
    assert (Hpi : Permutation (indexed_items B l ignore_params)
                              (indexed_items B l' ignore_params))
      by (unfold indexed_items; now apply Permutation_flat_map).
    assert (Hnd' : NoDup (PyDict.keys (indexed_items B l' ignore_params))).
    { eapply Permutation_NoDup; [|exact Hnd].
      unfold PyDict.keys. now apply Permutation_map. }
    assert (E : BenchDiff._index B l ignore_params
                = indexed_items B l ignore_params)
      by (apply (index_fold_fresh (acc := [])); exact Hnd).
    assert (E' : BenchDiff._index B l' ignore_params
                 = indexed_items B l' ignore_params)
      by (apply (index_fold_fresh (acc := [])); exact Hnd').
    rewrite E, E'. exact Hpi. }
  apply compare_same_indices; now apply Hitems.
Qed.

Lemma compare_order_independent_witness :
  BenchDiff.compare Sample.B0 "cur.json" "base.json"
    (JArr [Sample.get_entry 10 9; Sample.bare_entry "Put" "a"])
    (JArr [Sample.bare_entry "Scan" "a"; Sample.get_entry 20 18]) None []
  = BenchDiff.compare Sample.B0 "cur.json" "base.json"
      (JArr [Sample.bare_entry "Put" "a"; Sample.get_entry 10 9])
      (JArr [Sample.get_entry 20 18; Sample.bare_entry "Scan" "a"]) None [].
Proof.
  apply (@compare_order_independent Sample.B0 "cur.json" "base.json"
           [Sample.bare_entry "Put" "a"; Sample.get_entry 10 9]
           [Sample.get_entry 10 9; Sample.bare_entry "Put" "a"]
           [Sample.get_entry 20 18; Sample.bare_entry "Scan" "a"]
           [Sample.bare_entry "Scan" "a"; Sample.get_entry 20 18] None []).
  - vm_compute. repeat constructor; simpl; intuition discriminate.
  - vm_compute. repeat constructor; simpl; intuition discriminate.
  - apply perm_swap.
  - apply perm_swap.
Defined.

(** ** Entries without percentiles *)

(** X26. When the metric of either side has no object under
    [scorePercentiles] (absent, null or of another type), no percentile is
    available for the key and its block has three lines: the key, the mean
    line and the empty line. *)
Theorem block_without_percentiles
        (B : builtins) (k : BenchDiff.EntryKey)
        (c_entry b_entry : PyDict.dict string json) :
  let c_metric := BenchDiff._get_metric c_entry in
  let b_metric := BenchDiff._get_metric b_entry in
  BenchTable.entry_is_dict (Py.get_none c_metric "scorePercentiles") = false
  \/ BenchTable.entry_is_dict (Py.get_none b_metric "scorePercentiles") = false ->
  BenchDiff.report_key B k c_entry b_entry
  = [BenchDiff.pretty k;
     BenchDiff.mean_line (BenchDiff.unit_of B c_metric b_metric)
                         (BenchDiff._get_score B c_metric)
                         (BenchDiff._get_score B b_metric);
     ""].
Proof.
  intros c_metric b_metric Hno.
  assert (Hnone : forall m p,
             BenchTable.entry_is_dict (Py.get_none m "scorePercentiles") = false ->
             BenchDiff._get_percentile B m p = None).
  { intros m p Hm. unfold BenchDiff._get_percentile.
    now destruct (Py.get_none m "scorePercentiles"). }
  unfold BenchDiff.report_key. fold c_metric b_metric. cbv zeta.
  destruct Hno as [Hc|Hb].
  - rewrite !(Hnone c_metric _ Hc). unfold BenchDiff.percentile_lines.
    now destruct (BenchDiff._get_percentile B b_metric "50.0"),
      (BenchDiff._get_percentile B b_metric "99.0"),
      (BenchDiff._get_percentile B b_metric "99.9").
  - now rewrite !(Hnone b_metric _ Hb).
Qed.

Lemma block_without_percentiles_witness :
  BenchDiff.report_key Sample.B0 Sample.get_key
    [("benchmark", JStr "Get")]
    [("benchmark", JStr "Get");
     ("primaryMetric", JObj [("score", Sample.num 20)])]
  = ["Get"; "  mean:   n/a"; ""].
Proof.
  apply (@block_without_percentiles Sample.B0 Sample.get_key
           [("benchmark", JStr "Get")]
           [("benchmark", JStr "Get");
            ("primaryMetric", JObj [("score", Sample.num 20)])]).
  left. reflexivity.
Defined.
